(** * Western Blacksmith: the simulation core, embedded and verified

    A shallow embedding of the game's systems (the classes of src/systems,
    CoalSystem of src/unnamed/part_002, BlueprintSystem and WorkerSystem of
    src/unnamed/part_003, and the recipes of src/data/items.js) together
    with the properties the specification states about them.

    Conventions of the embedding:
    - a JavaScript number is an exact rational ([Q]); [NaN], the infinities
      and rounding are outside the model, and numeric results are compared
      with [==] ([Qeq]);
    - an object used as a dictionary is a finite map of its own properties
      ([gmap string _]); an object whose entries are iterated is the list
      of its entries in insertion order. A read [o[name]] of such an object
      also sees the properties of [Object.prototype], whose names are
      those of [Js.inherited]: called with such a name, the code comes to
      store [NaN] or a string, which the numbers of the embedding do not
      have. The module [PlainObject] follows the code there; elsewhere a
      theorem whose statement depends on it assumes of a name passed by
      the caller that [Object.prototype] does not define it
      ([Js.inherited name = false]);
    - a method of a system is a computation in the monad [M], which threads
      the system's state and collects the events published on the bus, in
      order; where the repository registers a listener that changes a
      system's state, the listener is called at the point of the [emit];
    - [console.warn] and [console.error] only print diagnostics and are
      left out. *)

From Stdlib Require Import QArith Qminmax Qround Lqa ZArith Lia.
From stdpp Require Import base option list strings gmap.

Local Open Scope string_scope.
Local Open Scope list_scope.

(** ** JavaScript numbers and truthiness *)

Module Js.

(** [!x] is false for a number other than zero. *)
Definition truthy (x : Q) : bool := negb (Qeq_bool x 0).

(** [!o[k]] on a dictionary of numbers: a missing property is [undefined]. *)
Definition truthy_opt (o : option Q) : bool :=
  match o with
  | Some x => truthy x
  | None => false
  end.

(** [x < y], [x <= y], [x >= y] on numbers. *)
Definition ltb (x y : Q) : bool := negb (Qle_bool y x).
Definition leb (x y : Q) : bool := Qle_bool x y.
Definition geb (x y : Q) : bool := Qle_bool y x.

(** [o[k] < y] where [o[k]] may be [undefined]: a comparison with
    [undefined] is false. *)
Definition ltb_opt (o : option Q) (y : Q) : bool :=
  match o with
  | Some x => ltb x y
  | None => false
  end.

(** [o[k] >= y] where [o[k]] may be [undefined]. *)
Definition geb_opt (o : option Q) (y : Q) : bool :=
  match o with
  | Some x => geb x y
  | None => false
  end.

(** [x || d] on a number. *)
Definition or_num (x d : Q) : Q := if truthy x then x else d.

(** [x || d] on an optional number. *)
Definition or_default (o : option Q) (d : Q) : Q :=
  match o with
  | Some x => if truthy x then x else d
  | None => d
  end.

(** The names of the properties of [Object.prototype], which every plain
    object inherits. *)
Definition prototypeNames : list string :=
  ["constructor"; "__defineGetter__"; "__defineSetter__"; "hasOwnProperty";
   "__lookupGetter__"; "__lookupSetter__"; "isPrototypeOf";
   "propertyIsEnumerable"; "toString"; "valueOf"; "__proto__";
   "toLocaleString"].

(** Whether [Object.prototype] defines a property called [name]. *)
Definition inherited (name : string) : bool :=
  existsb (String.eqb name) prototypeNames.

End Js.

(** ** The state-and-events monad *)

(** A computation over a state [S] that publishes events of type [E]. *)
Definition M (E S A : Type) : Type := S -> A * S * list E.

Definition ret {E S A} (a : A) : M E S A := fun s => (a, s, []).

Definition bind {E S A B} (m : M E S A) (f : A -> M E S B) : M E S B :=
  fun s =>
    let '(a, s1, l1) := m s in
    let '(b, s2, l2) := f a s1 in
    (b, s2, l1 ++ l2).

Definition gets {E S A} (f : S -> A) : M E S A := fun s => (f s, s, []).
Definition modify {E S} (f : S -> S) : M E S unit := fun s => (tt, f s, []).
Definition emit {E S} (e : E) : M E S unit := fun s => (tt, s, [e]).

(** Run a computation of a component inside a larger state. *)
Definition zoom {E S T A} (get : T -> S) (set : S -> T -> T)
    (m : M E S A) : M E T A :=
  fun t => let '(a, s, l) := m (get t) in (a, set s t, l).

(** [for (const x of xs) body(x)] without early exit. *)
Fixpoint for_each {E S X} (xs : list X) (body : X -> M E S unit)
    : M E S unit :=
  match xs with
  | [] => ret tt
  | x :: rest => bind (body x) (fun _ => for_each rest body)
  end.

Definition result {E S A} (r : A * S * list E) : A := r.1.1.
Definition state_of {E S A} (r : A * S * list E) : S := r.1.2.
Definition events_of {E S A} (r : A * S * list E) : list E := r.2.

Declare Scope m_scope.
Delimit Scope m_scope with M.
Notation "'let*' x := m 'in' k" := (bind m (fun x => k))
  (at level 10, x name, m at level 100, k at level 200) : m_scope.
Notation "m ;; k" := (bind m (fun _ => k))
  (at level 100, k at level 200, right associativity) : m_scope.

Local Open Scope m_scope.

(** ** Reference data (src/data/items.js) *)

(** A recipe. [requiredMaterials] lists the entries of the object in
    source order; optional properties are options. *)
Record ItemData := {
  name : string;
  category : string;
  complexity : string;
  craftingTime : Q;
  basePrice : Q;
  requiredMaterials : list (string * Q);
  coalUsage : option Q;
  batchSize : option Q;
  createsTool : option string;
  blueprintPrice : option Q;
  unlocked : bool
}.

Definition set_unlocked (b : bool) (d : ItemData) : ItemData :=
  {| name := name d; category := category d; complexity := complexity d;
     craftingTime := craftingTime d; basePrice := basePrice d;
     requiredMaterials := requiredMaterials d; coalUsage := coalUsage d;
     batchSize := batchSize d; createsTool := createsTool d;
     blueprintPrice := blueprintPrice d; unlocked := b |}.

Definition horseshoe : ItemData :=
  {| name := "Horseshoe"; category := "metal"; complexity := "simple";
     craftingTime := 30; basePrice := 5;
     requiredMaterials := [("iron", 2%Q); ("coal", 1%Q)];
     coalUsage := Some 5%Q; batchSize := None; createsTool := None;
     blueprintPrice := None; unlocked := true |}.

Definition nail : ItemData :=
  {| name := "Nail"; category := "metal"; complexity := "simple";
     craftingTime := 10; basePrice := 0.25;
     requiredMaterials := [("iron", 0.2%Q)];
     coalUsage := Some 2%Q; batchSize := Some 10%Q; createsTool := None;
     blueprintPrice := None; unlocked := true |}.

Definition rifle : ItemData :=
  {| name := "Rifle"; category := "weapon"; complexity := "complex";
     craftingTime := 120; basePrice := 45;
     requiredMaterials := [("iron", 8%Q); ("wood", 2%Q)];
     coalUsage := Some 15%Q; batchSize := None; createsTool := None;
     blueprintPrice := Some 50%Q; unlocked := false |}.

Definition new_hammer : ItemData :=
  {| name := "Hammer"; category := "tool"; complexity := "simple";
     craftingTime := 40; basePrice := 10;
     requiredMaterials := [("iron", 2%Q); ("wood", 1%Q)];
     coalUsage := Some 5%Q; batchSize := None; createsTool := Some "hammer";
     blueprintPrice := None; unlocked := true |}.

(** The part of [items] the examples below use. *)
Definition catalog : gmap string ItemData :=
  <["horseshoe" := horseshoe]> (<["nail" := nail]>
  (<["rifle" := rifle]> (<["new_hammer" := new_hammer]> ∅))).

(** ** Crafting jobs and the events on the bus *)

(** The job object built by [startCrafting]. *)
Module Job.

Record t := {
  itemId : string;
  name : string;
  craftingTime : Q;
  progress : Q;
  quantity : Q;
  workerId : option string;
  paused : bool;
  pauseReason : option string;
  itemData : ItemData
}.

End Job.

(** WorkerSystem: worker types and hired workers. *)
Module Worker.

Record WorkerType := {
  typeName : string;
  baseSalary : Q;
  speedMultiplier : Q;
  fatigueRate : Q;
  recoveryRate : Q;
  maxFatigue : Q;
  hireCost : Q
}.

Definition apprentice : WorkerType :=
  {| typeName := "Apprentice"; baseSalary := 5; speedMultiplier := 0.8;
     fatigueRate := 1.2; recoveryRate := 1; maxFatigue := 100;
     hireCost := 20 |}.
Definition journeyman : WorkerType :=
  {| typeName := "Journeyman"; baseSalary := 8; speedMultiplier := 1;
     fatigueRate := 1; recoveryRate := 1.2; maxFatigue := 120;
     hireCost := 50 |}.
Definition master : WorkerType :=
  {| typeName := "Master Blacksmith"; baseSalary := 15;
     speedMultiplier := 1.3; fatigueRate := 0.8; recoveryRate := 1.5;
     maxFatigue := 150; hireCost := 100 |}.

(** A task accepted by [assignTask]: its [type] is ['crafting'], with an
    item id, or ['coal']. *)
Inductive Task :=
| CraftingTask (itemId : string)
| CoalTask.

Record t := {
  id : string;
  name : string;
  type : string;
  workerType : WorkerType;
  fatigue : Q;
  salary : Q;
  currentTask : option Task;
  status : string;
  resting : bool;
  hireDate : Z;
  highFatigueWarning : bool;
  wasResting : bool
}.

Definition set_fatigue (q : Q) (w : t) : t :=
  {| id := id w; name := name w; type := type w; hireDate := hireDate w;
     workerType := workerType w; fatigue := q;
     salary := salary w; currentTask := currentTask w; status := status w;
     resting := resting w; highFatigueWarning := highFatigueWarning w;
     wasResting := wasResting w |}.
Definition set_task (k : option Task) (w : t) : t :=
  {| id := id w; name := name w; type := type w; hireDate := hireDate w;
     workerType := workerType w; fatigue := fatigue w;
     salary := salary w; currentTask := k; status := status w;
     resting := resting w; highFatigueWarning := highFatigueWarning w;
     wasResting := wasResting w |}.
Definition set_status (s : string) (w : t) : t :=
  {| id := id w; name := name w; type := type w; hireDate := hireDate w;
     workerType := workerType w; fatigue := fatigue w;
     salary := salary w; currentTask := currentTask w; status := s;
     resting := resting w; highFatigueWarning := highFatigueWarning w;
     wasResting := wasResting w |}.
Definition set_resting (b : bool) (w : t) : t :=
  {| id := id w; name := name w; type := type w; hireDate := hireDate w;
     workerType := workerType w; fatigue := fatigue w;
     salary := salary w; currentTask := currentTask w; status := status w;
     resting := b; highFatigueWarning := highFatigueWarning w;
     wasResting := wasResting w |}.
Definition set_highFatigueWarning (b : bool) (w : t) : t :=
  {| id := id w; name := name w; type := type w; hireDate := hireDate w;
     workerType := workerType w; fatigue := fatigue w;
     salary := salary w; currentTask := currentTask w; status := status w;
     resting := resting w; highFatigueWarning := b;
     wasResting := wasResting w |}.
Definition set_wasResting (b : bool) (w : t) : t :=
  {| id := id w; name := name w; type := type w; hireDate := hireDate w;
     workerType := workerType w; fatigue := fatigue w;
     salary := salary w; currentTask := currentTask w; status := status w;
     resting := resting w; highFatigueWarning := highFatigueWarning w;
     wasResting := b |}.

(** The worker object created by [hireWorker]; [highFatigueWarning] and
    [wasResting] are not set yet, which reads as false. *)
Definition hired (workerId name workerTypeId : string)
    (workerType : WorkerType) (today : Z) : t :=
  {| id := workerId; name := name; type := workerTypeId;
     workerType := workerType; fatigue := 0;
     salary := baseSalary workerType; currentTask := None; status := "idle";
     resting := false; hireDate := today; highFatigueWarning := false;
     wasResting := false |}.

End Worker.

(** A piece of a template string. *)
Inductive fragment :=
| Str (s : string)
| Num (q : Q).

(** A contract on the board. Dates are milliseconds of wall-clock time;
    properties set after creation are options. *)
Module Contract.

Record t := {
  id : list fragment;
  customer : string;
  item : string;
  quantity : Q;
  expiryTime : Z;
  payoutMultiplier : option Q;
  payout : option Q;
  itemName : option string;
  timeCreated : option Z;
  isSpecial : bool
}.

End Contract.

(** The events published on the bus, with their payloads. Payloads that
    are the live collections of a system ([storefront:updated]) and the
    percentage of [crafting:progress], computed for display, are left
    out. *)
Inductive event :=
| inventory_updated
| money_updated (balance : Q)
| tool_broken (toolName : string)
| tool_repaired (toolName : string) (newDurability maxDurability : Q)
| coal_low (level : Q)
| coal_refilled (level : Q)
| coal_updated (level : Q)
| coal_consumed (amount : Q)
| crafting_start (itemId : string) (quantity : Q) (workerId : option string)
| crafting_started (job : Job.t)
| crafting_queued (job : Job.t)
| crafting_progress (itemId : string) (progress total : Q)
| crafting_paused (itemId reason : string)
| crafting_queue_empty
| crafting_queue_updated (queue : list Job.t)
| item_crafted (itemId : string) (quantity : Q) (workerId : option string)
| storefront_add (itemId : string) (quantity : Q)
| storefront_updated
| item_sold (itemId : string) (price quantity : Q)
| worker_refill_coal (workerName : string)
| worker_resting (workerId : string)
| worker_working (workerId : string)
| worker_hired (worker : Worker.t)
| worker_fired (worker : Worker.t)
| worker_task_assigned (workerId : string) (task : Worker.Task)
| blueprint_unlocked (itemId : string) (itemData : ItemData)
| contract_available (contract : Contract.t)
| contract_special_available (contract : Contract.t)
| contract_expired (contract : Contract.t)
| notification (level : string) (message : list fragment)
| crafting_resumed (itemId : string)
| crafting_canceled (canceledItem : string)
| contract_completed (contract : Contract.t)
| contract_rejected (contract : Contract.t)
| inventory_purchase_blueprint (itemId : string) (price : Q)
| time_hour_changed (hour : Q)
| time_new_day (day : Q)
| time_workday_start
| time_workday_end
| time_tick (day hour minute totalMinutes : Q)
| time_skipped (hours minutes : Q)
| time_multiplier_changed (multiplier : Q).

(** ** InventorySystem (src/systems/InventorySystem.js) *)

Module Inventory.

Record Tool := { uses : Q; maxUses : Q }.

Record t := {
  materials : gmap string Q;
  items : gmap string Q;
  tools : gmap string Tool;
  money : Q
}.

Definition set_materials (m : gmap string Q) (inv : t) : t :=
  {| materials := m; items := items inv; tools := tools inv;
     money := money inv |}.
Definition set_items (i : gmap string Q) (inv : t) : t :=
  {| materials := materials inv; items := i; tools := tools inv;
     money := money inv |}.
Definition set_tools (ts : gmap string Tool) (inv : t) : t :=
  {| materials := materials inv; items := items inv; tools := ts;
     money := money inv |}.
Definition set_money (q : Q) (inv : t) : t :=
  {| materials := materials inv; items := items inv; tools := tools inv;
     money := q |}.

(** The default starting inventory of the constructor. *)
Definition initial : t :=
  {| materials :=
       <["iron" := 50%Q]> (<["coal" := 25%Q]> (<["wood" := 30%Q]>
       (<["leather" := 10%Q]> (<["gunpowder" := 5%Q]>
       (<["copper" := 20%Q]> (<["silver" := 5%Q]>
       (<["gold" := 1%Q]> ∅)))))));
     items :=
       <["pickaxe" := 1%Q]> (<["hatchet" := 1%Q]>
       (<["horseshoe" := 2%Q]> ∅));
     tools :=
       <["hammer" := {| uses := 25; maxUses := 30 |}]>
       (<["anvil" := {| uses := 50; maxUses := 50 |}]>
       (<["tongs" := {| uses := 40; maxUses := 40 |}]> ∅));
     money := 100 |}.

(** [addMaterial(name, amount)], for a [name] that [Object.prototype]
    does not define ([PlainObject.addMaterial] has the others). After the
    initialisation step the property exists, so [+=] is an [alter]. *)
Definition addMaterial (name : string) (amount : Q) : M event t bool :=
  if Js.leb amount 0 then ret false
  else
    modify (fun inv =>
      if negb (Js.truthy_opt (materials inv !! name))
      then set_materials (<[name := 0%Q]> (materials inv)) inv
      else inv) ;;
    modify (fun inv =>
      set_materials (alter (fun q => q + amount)%Q name (materials inv)) inv) ;;
    emit inventory_updated ;;
    ret true.

(** [removeMaterial(name, amount)], for a [name] that [Object.prototype]
    does not define ([PlainObject.removeMaterial] has the others). *)
Definition removeMaterial (name : string) (amount : Q) : M event t bool :=
  let* m := gets materials in
  if negb (Js.truthy_opt (m !! name)) || Js.ltb_opt (m !! name) amount
  then ret false
  else
    modify (fun inv =>
      set_materials (alter (fun q => q - amount)%Q name (materials inv)) inv) ;;
    emit inventory_updated ;;
    ret true.

(** The test of [hasMaterials] and [hasItems] on one entry. *)
Definition lacks (m : gmap string Q) (entry : string * Q) : bool :=
  negb (Js.truthy_opt (m !! entry.1)) || Js.ltb_opt (m !! entry.1) entry.2.

(** [hasMaterials(requiredMaterials)], on the entries of the object. *)
Definition hasMaterials (required : list (string * Q)) (inv : t) : bool :=
  forallb (fun entry => negb (lacks (materials inv) entry)) required.

(** [consumeMaterials(requiredMaterials)]: every property passed the test
    of [hasMaterials], so each [-=] is an [alter]. *)
Definition consumeMaterials (required : list (string * Q)) : M event t bool :=
  let* ok := gets (hasMaterials required) in
  if negb ok then ret false
  else
    for_each required (fun entry =>
      modify (fun inv =>
        set_materials
          (alter (fun q => q - entry.2)%Q entry.1 (materials inv)) inv)) ;;
    emit inventory_updated ;;
    ret true.

(** [addItem(itemName, amount = 1)], for an [itemName] that
    [Object.prototype] does not define. *)
Definition addItem (itemName : string) (amount : Q) : M event t bool :=
  if Js.leb amount 0 then ret false
  else
    modify (fun inv =>
      if negb (Js.truthy_opt (items inv !! itemName))
      then set_items (<[itemName := 0%Q]> (items inv)) inv
      else inv) ;;
    modify (fun inv =>
      set_items (alter (fun q => q + amount)%Q itemName (items inv)) inv) ;;
    emit inventory_updated ;;
    ret true.

(** [removeItem(itemName, amount = 1)], for an [itemName] that
    [Object.prototype] does not define: an entry that reaches zero is
    deleted. *)
Definition removeItem (itemName : string) (amount : Q) : M event t bool :=
  let* i := gets items in
  if negb (Js.truthy_opt (i !! itemName)) || Js.ltb_opt (i !! itemName) amount
  then ret false
  else
    modify (fun inv =>
      set_items (alter (fun q => q - amount)%Q itemName (items inv)) inv) ;;
    modify (fun inv =>
      match items inv !! itemName with
      | Some q =>
          if Qeq_bool q 0 then set_items (delete itemName (items inv)) inv
          else inv
      | None => inv
      end) ;;
    emit inventory_updated ;;
    ret true.

(** [hasItems(requiredItems)]. *)
Definition hasItems (required : list (string * Q)) (inv : t) : bool :=
  forallb (fun entry => negb (lacks (items inv) entry)) required.

(** The table [defaultDurability] of [addOrReplaceTool]. *)
Definition defaultDurability : gmap string Q :=
  <["hammer" := 30%Q]> (<["anvil" := 50%Q]> (<["tongs" := 40%Q]>
  (<["chisel" := 25%Q]> (<["file" := 35%Q]> ∅)))).

(** [addOrReplaceTool(toolName, maxUses = null)], for a [toolName] that
    [Object.prototype] does not define (the read of [defaultDurability]). *)
Definition addOrReplaceTool (toolName : string) (max : option Q)
    : M event t bool :=
  let maxUses :=
    match max with
    | Some q => q
    | None => Js.or_default (defaultDurability !! toolName) 30
    end in
  modify (fun inv =>
    set_tools
      (<[toolName := {| uses := maxUses; maxUses := maxUses |}]> (tools inv))
      inv) ;;
  emit inventory_updated ;;
  ret true.

(** [hasTool(toolName)]. *)
Definition hasTool (toolName : string) (inv : t) : bool :=
  bool_decide (is_Some (tools inv !! toolName)).

(** [useTool(toolName, usesAmount = 1)]. *)
Definition useTool (toolName : string) (usesAmount : Q) : M event t bool :=
  let* ts := gets tools in
  match ts !! toolName with
  | None => ret false
  | Some tool =>
      let worn := {| uses := uses tool - usesAmount; maxUses := maxUses tool |} in
      modify (set_tools (<[toolName := worn]> ts)) ;;
      (if Js.leb (uses worn) 0
       then
         modify (fun inv => set_tools (delete toolName (tools inv)) inv) ;;
         emit (tool_broken toolName)
       else ret tt) ;;
      emit inventory_updated ;;
      ret true
  end.

(** [addMoney(amount)]. *)
Definition addMoney (amount : Q) : M event t bool :=
  if Js.leb amount 0 then ret false
  else
    modify (fun inv => set_money (money inv + amount)%Q inv) ;;
    let* balance := gets money in
    emit (money_updated balance) ;;
    ret true.

(** [removeMoney(amount)]. *)
Definition removeMoney (amount : Q) : M event t bool :=
  let* balance := gets money in
  if Js.leb amount 0 || Js.ltb balance amount then ret false
  else
    modify (fun inv => set_money (money inv - amount)%Q inv) ;;
    let* balance' := gets money in
    emit (money_updated balance') ;;
    ret true.

(** One call of the material interface with names that [Object.prototype]
    does not define. The argument of [consumeMaterials] is an object: its
    entries have distinct keys. *)
Inductive step : t -> t -> Prop :=
| step_add inv name amount :
    Js.inherited name = false ->
    step inv (state_of (addMaterial name amount inv))
| step_remove inv name amount :
    Js.inherited name = false ->
    step inv (state_of (removeMaterial name amount inv))
| step_consume inv required :
    NoDup required.*1 ->
    Forall (fun entry => Js.inherited entry.1 = false) required ->
    step inv (state_of (consumeMaterials required inv)).

(** The states the inventory reaches from the starting inventory. *)
Inductive reachable : t -> Prop :=
| reachable_initial : reachable initial
| reachable_step inv inv' : reachable inv -> step inv inv' -> reachable inv'.

(** Every stored quantity of material is non-negative. *)
Definition nonneg (m : gmap string Q) : Prop :=
  forall name q, m !! name = Some q -> (0 <= q)%Q.


(** The listener of [purchase:materials] registered by the constructor;
    [purchased] lists the entries of the object [materials]. *)
Definition onPurchaseMaterials (purchased : list (string * Q)) (cost : Q)
    : M event t unit :=
  let* paid := removeMoney cost in
  if negb paid then
    emit (notification "error" [Str "Not enough money to purchase materials."])
  else
    for_each purchased (fun entry =>
      let* _ := addMaterial entry.1 entry.2 in ret tt) ;;
    emit inventory_updated ;;
    emit (notification "success" [Str "Purchased materials for $"; Num cost]).

(** The listener of [purchase:tool]. *)
Definition onPurchaseTool (toolName : string) (cost : Q) : M event t unit :=
  let* paid := removeMoney cost in
  if negb paid then
    emit (notification "error" [Str "Not enough money to purchase this tool."])
  else
    let* _ := addOrReplaceTool toolName None in
    emit inventory_updated ;;
    emit (notification "success"
            [Str "Purchased new "; Str toolName; Str " for $"; Num cost]).

(** The listener of [item:sell]. *)
Definition onItemSell (itemName : string) (price : Q) : M event t unit :=
  let* removed := removeItem itemName 1 in
  if removed then
    let* _ := addMoney price in
    emit inventory_updated
  else ret tt.

(** [o[k] || 0]: the quantity that an object of counts holds under a
    key. *)
Definition held (m : gmap string Q) (k : string) : Q := default 0%Q (m !! k).

(** Every stored count is above zero. *)
Definition positive (m : gmap string Q) : Prop :=
  forall name q, m !! name = Some q -> (0 < q)%Q.


End Inventory.

(** ** Dictionaries with their prototype (src/systems/InventorySystem.js)

    [this.materials] is a plain object. A read [o[name]] that finds no own
    property goes on to [Object.prototype], which holds a function under
    [constructor], [toString] and the other names of [Js.inherited], and
    the prototype itself under [__proto__]. [Inventory] keeps the own
    properties, which are numbers as long as no call names a property of
    [Object.prototype]. This module follows [addMaterial] and
    [removeMaterial] at every name. *)
Module PlainObject.

(** What a property of [this.materials] can come to hold: a number of the
    embedding, [NaN], the string that [+=] makes of a function or an
    object, or, found in the prototype, a function or an object. *)
Inductive value :=
| Num (q : Q)
| NaN
| Text
| Builtin.

(** The own properties of the object. *)
Abbreviation object := (gmap string value).

(** The object that holds the numbers [m]. *)
Definition numbers (m : gmap string Q) : object := Num <$> m.

(** [o[name]]: the own property, else the one of the prototype. *)
Definition get (o : object) (name : string) : option value :=
  match o !! name with
  | Some v => Some v
  | None => if Js.inherited name then Some Builtin else None
  end.

(** [o[name] = v] for a [v] that is a number or a string. The assignment
    makes an own property; under [__proto__] it reaches the setter of the
    prototype instead, which ignores such a [v], unless the object has an
    own property of that name. *)
Definition set (name : string) (v : value) (o : object) : object :=
  if String.eqb name "__proto__" && bool_decide (o !! name = None) then o
  else <[name := v]> o.

(** [!!v]: [undefined] and [NaN] are falsy, a string that is not empty, a
    function and an object are truthy. *)
Definition truthy (v : option value) : bool :=
  match v with
  | Some (Num q) => Js.truthy q
  | Some NaN => false
  | Some Text => true
  | Some Builtin => true
  | None => false
  end.

(** [v < y]: what is not a number converts to [NaN], and a comparison
    with [NaN] is false. *)
Definition lt (v : option value) (y : Q) : bool :=
  match v with
  | Some (Num q) => Js.ltb q y
  | _ => false
  end.

(** [v + y]: a function, an object or a string is concatenated with
    [y]. *)
Definition plus (v : option value) (y : Q) : value :=
  match v with
  | Some (Num q) => Num (q + y)
  | Some Text => Text
  | Some Builtin => Text
  | Some NaN => NaN
  | None => NaN
  end.

(** [v - y]. *)
Definition minus (v : option value) (y : Q) : value :=
  match v with
  | Some (Num q) => Num (q - y)
  | _ => NaN
  end.

(** [addMaterial(name, amount)]. *)
Definition addMaterial (name : string) (amount : Q) : M event object bool :=
  if Js.leb amount 0 then ret false
  else
    modify (fun o =>
      if negb (truthy (get o name)) then set name (Num 0) o else o) ;;
    modify (fun o => set name (plus (get o name) amount) o) ;;
    emit inventory_updated ;;
    ret true.

(** [removeMaterial(name, amount)]. *)
Definition removeMaterial (name : string) (amount : Q)
    : M event object bool :=
  let* o := gets (fun o => o) in
  if negb (truthy (get o name)) || lt (get o name) amount then ret false
  else
    modify (fun o => set name (minus (get o name) amount) o) ;;
    emit inventory_updated ;;
    ret true.

(** Every own property is a number that is not negative. *)
Definition nonneg (o : object) : Prop :=
  forall name v, o !! name = Some v -> exists q, v = Num q /\ (0 <= q)%Q.

End PlainObject.


(** ** The state of the other systems *)

(** CoalSystem: the fields the constructor sets and never changes are
    constants. *)
Module Coal.

Record t := { level : Q; hasWarnedAboutLowCoal : bool }.

Definition depletionRate : Q := 0.5.
Definition lowThreshold : Q := 20.
Definition coalPerRefill : Q := 5.

Definition initial : t := {| level := 100; hasWarnedAboutLowCoal := false |}.

Definition set_level (q : Q) (c : t) : t :=
  {| level := q; hasWarnedAboutLowCoal := hasWarnedAboutLowCoal c |}.
Definition set_warned (b : bool) (c : t) : t :=
  {| level := level c; hasWarnedAboutLowCoal := b |}.

(** [hasEnoughCoal(requiredLevel = 20)]. *)
Definition hasEnoughCoal (requiredLevel : Q) (c : t) : bool :=
  Js.geb (level c) requiredLevel.

(** A level from 0 to 100. *)
Definition inRange (c : t) : Prop := (0 <= level c)%Q /\ (level c <= 100)%Q.

End Coal.

(** CraftingSystem: the queue, the current job and the settings. *)
Module Crafting.

Record t := {
  craftingQueue : list Job.t;
  currentCraft : option Job.t;
  speedMultiplier : Q;
  autoAddToStorefront : bool
}.

Definition initial : t :=
  {| craftingQueue := []; currentCraft := None; speedMultiplier := 1;
     autoAddToStorefront := false |}.

Definition set_queue (q : list Job.t) (c : t) : t :=
  {| craftingQueue := q; currentCraft := currentCraft c;
     speedMultiplier := speedMultiplier c;
     autoAddToStorefront := autoAddToStorefront c |}.
Definition set_current (j : option Job.t) (c : t) : t :=
  {| craftingQueue := craftingQueue c; currentCraft := j;
     speedMultiplier := speedMultiplier c;
     autoAddToStorefront := autoAddToStorefront c |}.
Definition set_speed (q : Q) (c : t) : t :=
  {| craftingQueue := craftingQueue c; currentCraft := currentCraft c;
     speedMultiplier := q; autoAddToStorefront := autoAddToStorefront c |}.

Definition set_progress (q : Q) (j : Job.t) : Job.t :=
  {| Job.itemId := Job.itemId j; Job.name := Job.name j;
     Job.craftingTime := Job.craftingTime j; Job.progress := q;
     Job.quantity := Job.quantity j; Job.workerId := Job.workerId j;
     Job.paused := Job.paused j; Job.pauseReason := Job.pauseReason j;
     Job.itemData := Job.itemData j |}.
Definition set_paused (b : bool) (reason : option string) (j : Job.t) : Job.t :=
  {| Job.itemId := Job.itemId j; Job.name := Job.name j;
     Job.craftingTime := Job.craftingTime j; Job.progress := Job.progress j;
     Job.quantity := Job.quantity j; Job.workerId := Job.workerId j;
     Job.paused := b; Job.pauseReason := reason;
     Job.itemData := Job.itemData j |}.

(** [pauseCrafting(reason)]. *)
Definition pauseCrafting (reason : string) : M event t unit :=
  let* current := gets currentCraft in
  match current with
  | None => ret tt
  | Some job =>
      modify (set_current (Some (set_paused true (Some reason) job))) ;;
      emit (crafting_paused (Job.itemId job) reason)
  end.

(** The listener of [coal:updated] registered by the constructor. *)
Definition onCoalUpdated (level : Q) : M event t unit :=
  let* current := gets currentCraft in
  if Js.leb level 0 && bool_decide (is_Some current)
  then pauseCrafting "Not enough coal"
  else ret tt.

End Crafting.

(** StorefrontSystem: listings and price modifiers. *)
Module Storefront.

Record Listing := { quantity : Q; price : Q; lastSold : option Z }.

Record PriceModifiers := {
  global : Q;
  byCategory : gmap string Q;
  byItem : gmap string Q
}.

Record t := {
  storefrontItems : gmap string Listing;
  priceModifiers : PriceModifiers
}.

Definition initial : t :=
  {| storefrontItems := ∅;
     priceModifiers := {| global := 1; byCategory := ∅; byItem := ∅ |} |}.

Definition set_items (i : gmap string Listing) (s : t) : t :=
  {| storefrontItems := i; priceModifiers := priceModifiers s |}.
Definition set_modifiers (m : PriceModifiers) (s : t) : t :=
  {| storefrontItems := storefrontItems s; priceModifiers := m |}.
Definition set_quantity (q : Q) (l : Listing) : Listing :=
  {| quantity := q; price := price l; lastSold := lastSold l |}.
Definition set_price (q : Q) (l : Listing) : Listing :=
  {| quantity := quantity l; price := q; lastSold := lastSold l |}.

End Storefront.

(** ContractSystem: the two boards and the generation timer. *)
Module Contracts.

Record t := {
  activeContracts : list Contract.t;
  specialContracts : list Contract.t;
  contractTimer : Q
}.

Definition contractInterval : Q := 180.
Definition maxContracts : nat := 3.

Definition initial : t :=
  {| activeContracts := []; specialContracts := []; contractTimer := 0 |}.

Definition set_active (l : list Contract.t) (c : t) : t :=
  {| activeContracts := l; specialContracts := specialContracts c;
     contractTimer := contractTimer c |}.
Definition set_special (l : list Contract.t) (c : t) : t :=
  {| activeContracts := activeContracts c; specialContracts := l;
     contractTimer := contractTimer c |}.
Definition set_timer (q : Q) (c : t) : t :=
  {| activeContracts := activeContracts c;
     specialContracts := specialContracts c; contractTimer := q |}.

End Contracts.


(** ** The game *)

(** The systems built by the [Game] constructor around one event bus, the
    shared item data, and the wall clock read by [new Date()]. [workers]
    lists the entries of the object in insertion order. *)
Record World := {
  inventory : Inventory.t;
  coal : Coal.t;
  crafting : Crafting.t;
  storefront : Storefront.t;
  contracts : Contracts.t;
  unlockedBlueprints : gset string;
  itemsData : gmap string ItemData;
  workers : list (string * Worker.t);
  hiringDiscounts : list (string * (Q * Z));
  now : Z
}.

Definition set_inventory (x : Inventory.t) (w : World) : World :=
  {| inventory := x; coal := coal w; crafting := crafting w;
     storefront := storefront w; contracts := contracts w;
     unlockedBlueprints := unlockedBlueprints w; itemsData := itemsData w;
     workers := workers w; hiringDiscounts := hiringDiscounts w;
     now := now w |}.
Definition set_coal (x : Coal.t) (w : World) : World :=
  {| inventory := inventory w; coal := x; crafting := crafting w;
     storefront := storefront w; contracts := contracts w;
     unlockedBlueprints := unlockedBlueprints w; itemsData := itemsData w;
     workers := workers w; hiringDiscounts := hiringDiscounts w;
     now := now w |}.
Definition set_crafting (x : Crafting.t) (w : World) : World :=
  {| inventory := inventory w; coal := coal w; crafting := x;
     storefront := storefront w; contracts := contracts w;
     unlockedBlueprints := unlockedBlueprints w; itemsData := itemsData w;
     workers := workers w; hiringDiscounts := hiringDiscounts w;
     now := now w |}.
Definition set_storefront (x : Storefront.t) (w : World) : World :=
  {| inventory := inventory w; coal := coal w; crafting := crafting w;
     storefront := x; contracts := contracts w;
     unlockedBlueprints := unlockedBlueprints w; itemsData := itemsData w;
     workers := workers w; hiringDiscounts := hiringDiscounts w;
     now := now w |}.
Definition set_contracts (x : Contracts.t) (w : World) : World :=
  {| inventory := inventory w; coal := coal w; crafting := crafting w;
     storefront := storefront w; contracts := x;
     unlockedBlueprints := unlockedBlueprints w; itemsData := itemsData w;
     workers := workers w; hiringDiscounts := hiringDiscounts w;
     now := now w |}.
Definition set_unlockedBlueprints (x : gset string) (w : World) : World :=
  {| inventory := inventory w; coal := coal w; crafting := crafting w;
     storefront := storefront w; contracts := contracts w;
     unlockedBlueprints := x; itemsData := itemsData w;
     workers := workers w; hiringDiscounts := hiringDiscounts w;
     now := now w |}.
Definition set_itemsData (x : gmap string ItemData) (w : World) : World :=
  {| inventory := inventory w; coal := coal w; crafting := crafting w;
     storefront := storefront w; contracts := contracts w;
     unlockedBlueprints := unlockedBlueprints w; itemsData := x;
     workers := workers w; hiringDiscounts := hiringDiscounts w;
     now := now w |}.
Definition set_workers (x : list (string * Worker.t)) (w : World) : World :=
  {| inventory := inventory w; coal := coal w; crafting := crafting w;
     storefront := storefront w; contracts := contracts w;
     unlockedBlueprints := unlockedBlueprints w; itemsData := itemsData w;
     workers := x; hiringDiscounts := hiringDiscounts w; now := now w |}.

Definition set_hiringDiscounts (x : list (string * (Q * Z))) (w : World)
    : World :=
  {| inventory := inventory w; coal := coal w; crafting := crafting w;
     storefront := storefront w; contracts := contracts w;
     unlockedBlueprints := unlockedBlueprints w; itemsData := itemsData w;
     workers := workers w; hiringDiscounts := x; now := now w |}.

(** The game before the first tick, at wall-clock time [today]. *)
Definition newGame (items : gmap string ItemData) (today : Z) : World :=
  {| inventory := Inventory.initial; coal := Coal.initial;
     crafting := Crafting.initial; storefront := Storefront.initial;
     contracts := Contracts.initial;
     unlockedBlueprints := dom (filter (fun entry => unlocked entry.2 = true) items);
     itemsData := items; workers := []; hiringDiscounts := []; now := today |}.

(** A call into a component of the game. *)
Definition inInventory {A} (m : M event Inventory.t A) : M event World A :=
  zoom inventory set_inventory m.
Definition inCrafting {A} (m : M event Crafting.t A) : M event World A :=
  zoom crafting set_crafting m.

(** [emit('coal:updated', level)]: the crafting system listens. *)
Definition emit_coal_updated (level : Q) : M event World unit :=
  emit (coal_updated level) ;;
  inCrafting (Crafting.onCoalUpdated level).

(** ** CoalSystem (src/unnamed/part_002) *)

Module CoalSystem.

(** [refill()]. *)
Definition refill : M event World bool :=
  let* stock := gets (fun w => Inventory.materials (inventory w) !! "coal") in
  if Js.ltb_opt stock Coal.coalPerRefill then
    emit (notification "error"
            [Str "Not enough coal available to refill the forge."]) ;;
    ret false
  else
    let* level := gets (fun w => Coal.level (coal w)) in
    if Js.geb level 100 then
      emit (notification "info" [Str "The forge is already full of coal."]) ;;
      ret false
    else
      let* removed := inInventory (Inventory.removeMaterial "coal" Coal.coalPerRefill) in
      if negb removed then ret false
      else
        modify (fun w => set_coal (Coal.set_level 100 (coal w)) w) ;;
        modify (fun w => set_coal (Coal.set_warned false (coal w)) w) ;;
        let* level' := gets (fun w => Coal.level (coal w)) in
        emit (coal_refilled level') ;;
        emit_coal_updated level' ;;
        ret true.

(** The warning shared by [update()] and [consumeCoal()]. *)
Definition warnIfLow : M event World unit :=
  let* c := gets coal in
  if Js.leb (Coal.level c) Coal.lowThreshold
     && negb (Coal.hasWarnedAboutLowCoal c)
  then
    emit (coal_low (Coal.level c)) ;;
    modify (fun w => set_coal (Coal.set_warned true (coal w)) w)
  else ret tt.

(** [update()], called on each game tick. *)
Definition update : M event World unit :=
  let* level := gets (fun w => Coal.level (coal w)) in
  if Js.ltb 0 level then
    modify (fun w =>
      set_coal (Coal.set_level (Coal.level (coal w) - Coal.depletionRate)%Q
                  (coal w)) w) ;;
    modify (fun w =>
      if Js.ltb (Coal.level (coal w)) 0
      then set_coal (Coal.set_level 0 (coal w)) w else w) ;;
    warnIfLow ;;
    let* level' := gets (fun w => Coal.level (coal w)) in
    let* stock := gets (fun w => Inventory.materials (inventory w) !! "coal") in
    (if Js.leb level' Coal.lowThreshold && Js.geb_opt stock Coal.coalPerRefill
     then let* _ := refill in ret tt
     else ret tt) ;;
    let* level'' := gets (fun w => Coal.level (coal w)) in
    emit_coal_updated level''
  else ret tt.

(** [consumeCoal(amount = 10)]. *)
Definition consumeCoal (amount : Q) : M event World bool :=
  let* level := gets (fun w => Coal.level (coal w)) in
  if Js.ltb level amount then ret false
  else
    modify (fun w =>
      set_coal (Coal.set_level (Coal.level (coal w) - amount)%Q (coal w)) w) ;;
    modify (fun w =>
      if Js.ltb (Coal.level (coal w)) 0
      then set_coal (Coal.set_level 0 (coal w)) w else w) ;;
    warnIfLow ;;
    emit (coal_consumed amount) ;;
    let* level' := gets (fun w => Coal.level (coal w)) in
    emit_coal_updated level' ;;
    ret true.

(** [getLevel()]. *)
Definition getLevel (w : World) : Q := Coal.level (coal w).

End CoalSystem.

(** ** ToolDurability (src/systems/ToolDurability.js) *)

Module ToolDurability.

(** [s || d] on strings. *)
Definition or_string (s d : string) : string :=
  if String.eqb s "" then d else s.

Definition toolUsageCosts : gmap string Q :=
  <["simple" := 1%Q]> (<["medium" := 2%Q]> (<["complex" := 3%Q]> ∅)).

Definition toolRequirements : gmap string (list string) :=
  <["metal" := ["hammer"; "tongs"; "anvil"]]>
  (<["weapon" := ["hammer"; "tongs"; "anvil"; "file"]]>
  (<["wood" := ["saw"; "hammer"]]>
  (<["leather" := ["needle"; "scissors"]]> ∅))).

(** [getRequiredToolsForItem(itemData)]. *)
Definition getRequiredToolsForItem (itemData : ItemData) : list string :=
  default ["hammer"] (toolRequirements !! or_string (category itemData) "metal").

(** [checkToolsForItem(itemData)]. *)
Definition checkToolsForItem (itemData : ItemData) (inv : Inventory.t) : bool :=
  forallb (fun tool => Inventory.hasTool tool inv)
    (getRequiredToolsForItem itemData).

(** [getMissingTools(itemData)]. *)
Definition getMissingTools (itemData : ItemData) (inv : Inventory.t)
    : list string :=
  List.filter (fun tool => negb (Inventory.hasTool tool inv))
    (getRequiredToolsForItem itemData).

(** [useToolsForItem(itemData)]. *)
Definition useToolsForItem (itemData : ItemData) : M event Inventory.t unit :=
  let usageAmount :=
    Js.or_default
      (toolUsageCosts !! or_string (complexity itemData) "medium") 1 in
  for_each (getRequiredToolsForItem itemData) (fun tool =>
    let* present := gets (Inventory.hasTool tool) in
    if present then let* _ := Inventory.useTool tool usageAmount in ret tt
    else ret tt).

End ToolDurability.

(** ** StorefrontSystem (src/systems/StorefrontSystem.js) *)

Module StorefrontSystem.

(** [getItemBasePrice(itemId)]. *)
Definition getItemBasePrice (itemId : string) (w : World) : Q :=
  match itemsData w !! itemId with
  | Some itemData => basePrice itemData
  | None => 0
  end.

(** [addItemToStorefront(itemId, quantity = 1)], for an [itemId] that
    [Object.prototype] does not define. *)
Definition addItemToStorefront (itemId : string) (quantity : Q)
    : M event World bool :=
  let* removed := inInventory (Inventory.removeItem itemId quantity) in
  if negb removed then
    emit (notification "error"
            [Str "Not enough "; Str itemId; Str " in inventory."]) ;;
    ret false
  else
    modify (fun w =>
      match Storefront.storefrontItems (storefront w) !! itemId with
      | Some _ => w
      | None =>
          set_storefront
            (Storefront.set_items
               (<[itemId := {| Storefront.quantity := 0;
                               Storefront.price := getItemBasePrice itemId w;
                               Storefront.lastSold := None |}]>
                  (Storefront.storefrontItems (storefront w)))
               (storefront w)) w
      end) ;;
    modify (fun w =>
      set_storefront
        (Storefront.set_items
           (alter (fun l =>
                     Storefront.set_quantity
                       (Storefront.quantity l + quantity)%Q l)
              itemId (Storefront.storefrontItems (storefront w)))
           (storefront w)) w) ;;
    emit storefront_updated ;;
    emit (notification "info"
            [Str "Added "; Num quantity; Str "x "; Str itemId;
             Str " to storefront."]) ;;
    ret true.

(** [getItemPrice(itemId)]: the price with all modifiers applied. *)
Definition getItemPrice (itemId : string) (w : World) : Q :=
  let mods := Storefront.priceModifiers (storefront w) in
  let price := getItemBasePrice itemId w in
  let price := (price * Storefront.global mods)%Q in
  let price :=
    match itemsData w !! itemId with
    | Some itemData =>
        if negb (String.eqb (category itemData) "")
           && Js.truthy_opt (Storefront.byCategory mods !! category itemData)
        then (price * default 0%Q
                        (Storefront.byCategory mods !! category itemData))%Q
        else price
    | None => price
    end in
  let price :=
    if Js.truthy_opt (Storefront.byItem mods !! itemId)
    then (price * default 0%Q (Storefront.byItem mods !! itemId))%Q
    else price in
  match Storefront.storefrontItems (storefront w) !! itemId with
  | Some listing =>
      if Js.truthy (Storefront.price listing) then Storefront.price listing
      else price
  | None => price
  end.

(** [setItemPrice(itemId, price)]. *)
Definition setItemPrice (itemId : string) (price : Q) : M event World bool :=
  let* listings := gets (fun w => Storefront.storefrontItems (storefront w)) in
  match listings !! itemId with
  | None => ret false
  | Some listing =>
      modify (fun w =>
        set_storefront
          (Storefront.set_items
             (<[itemId := Storefront.set_price price listing]> listings)
             (storefront w)) w) ;;
      emit storefront_updated ;;
      ret true
  end.

(** [sellItem(itemId, quantity = 1)], a sale started by the player, for an
    [itemId] that [Object.prototype] does not define. *)
Definition sellItem (itemId : string) (quantity : Q) : M event World bool :=
  let* listings := gets (fun w => Storefront.storefrontItems (storefront w)) in
  match listings !! itemId with
  | None =>
      emit (notification "error"
              [Str "Not enough "; Str itemId; Str " in storefront."]) ;;
      ret false
  | Some listing =>
      if Js.ltb (Storefront.quantity listing) quantity then
        emit (notification "error"
                [Str "Not enough "; Str itemId; Str " in storefront."]) ;;
        ret false
      else
        let* unit := gets (getItemPrice itemId) in
        let price := (unit * quantity)%Q in
        let* today := gets now in
        let sold :=
          {| Storefront.quantity := (Storefront.quantity listing - quantity)%Q;
             Storefront.price := Storefront.price listing;
             Storefront.lastSold := Some today |} in
        modify (fun w =>
          set_storefront
            (Storefront.set_items
               (if Qeq_bool (Storefront.quantity sold) 0
                then delete itemId listings
                else <[itemId := sold]> listings)
               (storefront w)) w) ;;
        let* _ := inInventory (Inventory.addMoney price) in
        emit storefront_updated ;;
        emit (item_sold itemId price quantity) ;;
        emit (notification "success"
                [Str "Sold "; Num quantity; Str "x "; Str itemId; Str " for $";
                 Num price; Str "."]) ;;
        ret true
  end.

(** [setPriceModifier(type, value, target)]; an empty [target] stands for
    a missing one. *)
Definition setPriceModifier (type : string) (value : Q) (target : string)
    : M event World unit :=
  let update (f : Storefront.PriceModifiers -> Storefront.PriceModifiers) :=
    modify (fun w =>
      set_storefront
        (Storefront.set_modifiers (f (Storefront.priceModifiers (storefront w)))
           (storefront w)) w) in
  if String.eqb type "global" then
    update (fun m =>
      {| Storefront.global := value;
         Storefront.byCategory := Storefront.byCategory m;
         Storefront.byItem := Storefront.byItem m |}) ;;
    emit storefront_updated
  else if String.eqb type "category" then
    if String.eqb target "" then ret tt
    else
      update (fun m =>
        {| Storefront.global := Storefront.global m;
           Storefront.byCategory := <[target := value]> (Storefront.byCategory m);
           Storefront.byItem := Storefront.byItem m |}) ;;
      emit storefront_updated
  else if String.eqb type "item" then
    if String.eqb target "" then ret tt
    else
      update (fun m =>
        {| Storefront.global := Storefront.global m;
           Storefront.byCategory := Storefront.byCategory m;
           Storefront.byItem := <[target := value]> (Storefront.byItem m) |}) ;;
      emit storefront_updated
  else emit storefront_updated.

(** [removeItemFromStorefront(itemId, quantity = 1)], for an [itemId]
    that [Object.prototype] does not define. *)
Definition removeItemFromStorefront (itemId : string) (quantity : Q)
    : M event World bool :=
  let* listings := gets (fun w => Storefront.storefrontItems (storefront w)) in
  match listings !! itemId with
  | None =>
      emit (notification "error"
              [Str "Not enough "; Str itemId; Str " in storefront."]) ;;
      ret false
  | Some listing =>
      if Js.ltb (Storefront.quantity listing) quantity then
        emit (notification "error"
                [Str "Not enough "; Str itemId; Str " in storefront."]) ;;
        ret false
      else
        let taken :=
          Storefront.set_quantity (Storefront.quantity listing - quantity)%Q
            listing in
        modify (fun w =>
          set_storefront
            (Storefront.set_items (<[itemId := taken]> listings)
               (storefront w)) w) ;;
        let* _ := inInventory (Inventory.addItem itemId quantity) in
        (if Qeq_bool (Storefront.quantity taken) 0 then
           modify (fun w =>
             set_storefront
               (Storefront.set_items
                  (delete itemId (Storefront.storefrontItems (storefront w)))
                  (storefront w)) w)
         else ret tt) ;;
        emit storefront_updated ;;
        emit (notification "info"
                [Str "Removed "; Num quantity; Str "x "; Str itemId;
                 Str " from storefront."]) ;;
        ret true
  end.

(** The quantity on sale of an item, zero without a listing. *)
Definition listed (itemId : string) (w : World) : Q :=
  match Storefront.storefrontItems (storefront w) !! itemId with
  | Some listing => Storefront.quantity listing
  | None => 0
  end.

(** What the shop holds of an item, in the inventory and on sale. *)
Definition stock (itemId : string) (w : World) : Q :=
  (Inventory.held (Inventory.items (inventory w)) itemId + listed itemId w)%Q.

End StorefrontSystem.

(** ** CraftingSystem (src/systems/CraftingSystem.js) *)

Module CraftingSystem.

(** The loop of [startCrafting] that removes [amount * quantity] of each
    material and leaves at the first failure. *)
Fixpoint removeRequired (required : list (string * Q)) (quantity : Q)
    : M event Inventory.t bool :=
  match required with
  | [] => ret true
  | (materialName, amount) :: rest =>
      let totalAmount := (amount * quantity)%Q in
      let* removed := Inventory.removeMaterial materialName totalAmount in
      if negb removed then ret false
      else removeRequired rest quantity
  end.

(** The object [craftingJob] built by [startCrafting]. *)
Definition newJob (itemId : string) (itemData : ItemData)
    (actualQuantity : Q) (workerId : option string) : Job.t :=
  {| Job.itemId := itemId; Job.name := name itemData;
     Job.craftingTime := craftingTime itemData;
     Job.progress := 0; Job.quantity := actualQuantity;
     Job.workerId := workerId; Job.paused := false;
     Job.pauseReason := None; Job.itemData := itemData |}.

(** [startCrafting(itemId, quantity = 1, workerId = null)]. *)
Definition startCrafting (itemId : string) (quantity : Q)
    (workerId : option string) : M event World bool :=
  let* found := gets (fun w => itemsData w !! itemId) in
  match found with
  | None =>
      emit (notification "error" [Str "Unknown item: "; Str itemId]) ;;
      ret false
  | Some itemData =>
      if negb (unlocked itemData) then
        emit (notification "error"
                [Str "You haven't unlocked the blueprint for ";
                 Str (name itemData); Str " yet."]) ;;
        ret false
      else
        let* missingTools :=
          gets (fun w => ToolDurability.getMissingTools itemData (inventory w)) in
        if (0 <? length missingTools)%nat then
          emit (notification "error"
                  (Str "Missing tools: " :: map Str missingTools)) ;;
          ret false
        else
          let* enough :=
            gets (fun w =>
              Inventory.hasMaterials (requiredMaterials itemData) (inventory w)) in
          if negb enough then
            emit (notification "error"
                    [Str "Not enough materials to craft "; Str (name itemData)]) ;;
            ret false
          else
            let* hot := gets (fun w => Coal.hasEnoughCoal 20 (coal w)) in
            if negb hot then
              emit (notification "error"
                      [Str "Not enough coal in the forge to craft ";
                       Str (name itemData)]) ;;
              ret false
            else
              let batch := Js.or_default (batchSize itemData) 1 in
              let actualQuantity := (batch * quantity)%Q in
              let* removed :=
                inInventory
                  (removeRequired (requiredMaterials itemData) quantity) in
              if negb removed then ret false
              else
                let usage := Js.or_default (coalUsage itemData) 5 in
                let* _ := CoalSystem.consumeCoal usage in
                let craftingJob :=
                  newJob itemId itemData actualQuantity workerId in
                let* current := gets (fun w => Crafting.currentCraft (crafting w)) in
                match current with
                | Some _ =>
                    modify (fun w =>
                      set_crafting
                        (Crafting.set_queue
                           (Crafting.craftingQueue (crafting w) ++ [craftingJob])
                           (crafting w)) w) ;;
                    emit (crafting_queued craftingJob) ;;
                    ret true
                | None =>
                    modify (fun w =>
                      set_crafting
                        (Crafting.set_current (Some craftingJob) (crafting w)) w) ;;
                    emit (crafting_started craftingJob) ;;
                    ret true
                end
  end.

(** The promotion of the head of the queue, [craftingQueue.shift()]. *)
Definition startNext (andElse : M event World unit) : M event World unit :=
  let* queue := gets (fun w => Crafting.craftingQueue (crafting w)) in
  match queue with
  | next :: rest =>
      modify (fun w =>
        set_crafting
          (Crafting.set_current (Some next)
             (Crafting.set_queue rest (crafting w))) w) ;;
      emit (crafting_started next)
  | [] => andElse
  end.

(** [itemData.createsTool] when it is truthy. *)
Definition createdTool (itemData : ItemData) : option string :=
  match createsTool itemData with
  | Some tool => if String.eqb tool "" then None else Some tool
  | None => None
  end.

(** [completeCrafting()]. With [autoAddToStorefront] set, the storefront
    hears [storefront:add] and lists the items. *)
Definition completeCrafting : M event World unit :=
  let* current := gets (fun w => Crafting.currentCraft (crafting w)) in
  match current with
  | None => ret tt
  | Some job =>
      let itemData := Job.itemData job in
      inInventory (ToolDurability.useToolsForItem itemData) ;;
      (match createdTool itemData with
       | Some tool =>
           let* _ := inInventory (Inventory.addOrReplaceTool tool None) in
           emit (notification "success"
                   [Str "Crafted a new "; Str (Job.name job)])
       | None =>
           let* _ :=
             inInventory
               (Inventory.addItem (Job.itemId job) (Job.quantity job)) in
           let itemDesc :=
             if Js.ltb 1 (Job.quantity job)
             then [Num (Job.quantity job); Str "x "; Str (Job.name job)]
             else [Str (Job.name job)] in
           emit (item_crafted (Job.itemId job) (Job.quantity job)
                   (Job.workerId job)) ;;
           emit (notification "success" (Str "Crafted " :: itemDesc)) ;;
           let* auto :=
             gets (fun w => Crafting.autoAddToStorefront (crafting w)) in
           if auto then
             emit (storefront_add (Job.itemId job) (Job.quantity job)) ;;
             let* _ :=
               StorefrontSystem.addItemToStorefront
                 (Job.itemId job) (Job.quantity job) in
             ret tt
           else ret tt
       end) ;;
      modify (fun w => set_crafting (Crafting.set_current None (crafting w)) w) ;;
      startNext (emit crafting_queue_empty)
  end.

(** The part of [update()] that follows the choice of the current job. *)
Definition advance (job : Job.t) : M event World unit :=
  if Job.paused job then ret tt
  else
    let* speed := gets (fun w => Crafting.speedMultiplier (crafting w)) in
    let progressed :=
      Crafting.set_progress (Job.progress job + 1 * speed)%Q job in
    modify (fun w =>
      set_crafting (Crafting.set_current (Some progressed) (crafting w)) w) ;;
    let* hot := gets (fun w => Coal.hasEnoughCoal 20 (coal w)) in
    if negb hot then inCrafting (Crafting.pauseCrafting "Not enough coal")
    else if Js.geb (Job.progress progressed) (Job.craftingTime progressed)
    then completeCrafting
    else
      emit (crafting_progress (Job.itemId progressed)
              (Job.progress progressed) (Job.craftingTime progressed)).

(** [update()], called on each game tick. *)
Definition update : M event World unit :=
  let* current := gets (fun w => Crafting.currentCraft (crafting w)) in
  match current with
  | Some job => advance job
  | None =>
      let* queue := gets (fun w => Crafting.craftingQueue (crafting w)) in
      match queue with
      | next :: rest =>
          modify (fun w =>
            set_crafting
              (Crafting.set_current (Some next)
                 (Crafting.set_queue rest (crafting w))) w) ;;
          emit (crafting_started next) ;;
          advance next
      | [] => ret tt
      end
  end.

(** [cancelQueuedCraft(index)], for an integer [index]. *)
Definition cancelQueuedCraft (index : Z) : M event World bool :=
  let* queue := gets (fun w => Crafting.craftingQueue (crafting w)) in
  if (index <? 0)%Z || (Z.of_nat (length queue) <=? index)%Z then ret false
  else
    match queue !! Z.to_nat index with
    | None => ret false
    | Some job =>
        for_each (requiredMaterials (Job.itemData job)) (fun entry =>
          let* _ := inInventory (Inventory.addMaterial entry.1 entry.2) in
          ret tt) ;;
        let canceledItem := Job.name job in
        modify (fun w =>
          set_crafting
            (Crafting.set_queue
               (delete (Z.to_nat index) (Crafting.craftingQueue (crafting w)))
               (crafting w)) w) ;;
        emit (notification "info"
                [Str "Removed "; Str canceledItem; Str " from crafting queue"]) ;;
        let* queue' := gets (fun w => Crafting.craftingQueue (crafting w)) in
        emit (crafting_queue_updated queue') ;;
        ret true
    end.

(** The verdict of [canCraft(itemId)]. *)
Record Verdict := { canCraft_ok : bool; reason : option (list fragment) }.

(** [canCraft(itemId)]. *)
Definition canCraft (itemId : string) (w : World) : Verdict :=
  match itemsData w !! itemId with
  | None => {| canCraft_ok := false; reason := Some [Str "Unknown item"] |}
  | Some itemData =>
      if negb (unlocked itemData) then
        {| canCraft_ok := false; reason := Some [Str "Blueprint not unlocked"] |}
      else
        let missingTools := ToolDurability.getMissingTools itemData (inventory w) in
        if (0 <? length missingTools)%nat then
          {| canCraft_ok := false;
             reason := Some (Str "Missing tools: " :: map Str missingTools) |}
        else if negb (Inventory.hasMaterials (requiredMaterials itemData)
                        (inventory w)) then
          {| canCraft_ok := false; reason := Some [Str "Not enough materials"] |}
        else if negb (Coal.hasEnoughCoal 20 (coal w)) then
          {| canCraft_ok := false; reason := Some [Str "Not enough coal"] |}
        else {| canCraft_ok := true; reason := None |}
  end.

(** [resumeCrafting()]. *)
Definition resumeCrafting : M event World bool :=
  let* current := gets (fun w => Crafting.currentCraft (crafting w)) in
  match current with
  | None => ret false
  | Some job =>
      if negb (Job.paused job) then ret false
      else
        let* hot := gets (fun w => Coal.hasEnoughCoal 20 (coal w)) in
        if bool_decide (Job.pauseReason job = Some "Not enough coal")
           && negb hot
        then
          emit (notification "error"
                  [Str "Cannot resume crafting: Still not enough coal"]) ;;
          ret false
        else
          modify (fun w =>
            set_crafting
              (Crafting.set_current
                 (Some (Crafting.set_paused false None job)) (crafting w)) w) ;;
          emit (crafting_resumed (Job.itemId job)) ;;
          ret true
  end.

(** [1 - (progress / craftingTime)] of [cancelCurrentCraft], for a job
    whose [craftingTime] is not zero: the code then divides by zero and
    gets [NaN] or an infinity, where the division of [Q] gives zero. *)
Definition refundRatio (job : Job.t) : Q :=
  (1 - Job.progress job / Job.craftingTime job)%Q.

(** What [cancelCurrentCraft] gives back of a material of which the
    recipe takes [amount]. *)
Definition refundAmount (job : Job.t) (amount : Q) : Q :=
  inject_Z (Qfloor (amount * refundRatio job)).

(** [cancelCurrentCraft()]. *)
Definition cancelCurrentCraft : M event World bool :=
  let* current := gets (fun w => Crafting.currentCraft (crafting w)) in
  match current with
  | None => ret false
  | Some job =>
      (if Js.ltb 0.5 (refundRatio job) then
         for_each (requiredMaterials (Job.itemData job)) (fun entry =>
           if Js.ltb 0 (refundAmount job entry.2) then
             let* _ :=
               inInventory
                 (Inventory.addMaterial entry.1 (refundAmount job entry.2)) in
             ret tt
           else ret tt)
       else ret tt) ;;
      let canceledItem := Job.name job in
      modify (fun w => set_crafting (Crafting.set_current None (crafting w)) w) ;;
      startNext (ret tt) ;;
      emit (notification "info" [Str "Canceled crafting of "; Str canceledItem]) ;;
      emit (crafting_canceled canceledItem) ;;
      ret true
  end.

(** [setSpeedMultiplier(multiplier)]. *)
Definition setSpeedMultiplier (multiplier : Q) : M event World unit :=
  modify (fun w => set_crafting (Crafting.set_speed multiplier (crafting w)) w).

(** [hasQueueSpace(maxQueueSize = 5)]. *)
Definition hasQueueSpace (maxQueueSize : Q) (w : World) : bool :=
  Js.ltb (inject_Z (Z.of_nat (length (Crafting.craftingQueue (crafting w)))))
    maxQueueSize.

(** [setAutoAddToStorefront(enabled)]. *)
Definition setAutoAddToStorefront (enabled : bool) : M event World unit :=
  modify (fun w =>
    set_crafting
      {| Crafting.craftingQueue := Crafting.craftingQueue (crafting w);
         Crafting.currentCraft := Crafting.currentCraft (crafting w);
         Crafting.speedMultiplier := Crafting.speedMultiplier (crafting w);
         Crafting.autoAddToStorefront := enabled |} w).

End CraftingSystem.

(** ** ContractSystem (second half of src/systems/ToolDurability.js) *)

Module ContractSystem.
Import Contract.

(** [calculateContractPayout(contract, itemData)] of src/data/contracts.js. *)
Definition calculatePayout (contract : Contract.t) (itemData : ItemData) : Q :=
  let baseItemPrice := Js.or_num (basePrice itemData) 0 in
  let quantity := Js.or_num (quantity contract) 0 in
  let multiplier := Js.or_default (payoutMultiplier contract) 1 in
  (baseItemPrice * quantity * multiplier)%Q.

Definition set_payout (p : Q) (c : Contract.t) : Contract.t :=
  {| id := id c; customer := customer c; item := item c;
     quantity := quantity c; expiryTime := expiryTime c;
     payoutMultiplier := payoutMultiplier c; payout := Some p;
     itemName := itemName c; timeCreated := timeCreated c;
     isSpecial := isSpecial c |}.

Definition set_created (itemName' : string) (created : Z) (c : Contract.t)
    : Contract.t :=
  {| id := id c; customer := customer c; item := item c;
     quantity := quantity c; expiryTime := expiryTime c;
     payoutMultiplier := payoutMultiplier c; payout := payout c;
     itemName := Some itemName'; timeCreated := Some created;
     isSpecial := isSpecial c |}.

(** [addSpecialContract(contract)]. *)
Definition addSpecialContract (contract : Contract.t) : M event World unit :=
  let* found := gets (fun w => itemsData w !! item contract) in
  match found with
  | None => ret tt
  | Some itemData =>
      let priced :=
        if Js.truthy_opt (payout contract) then contract
        else set_payout (calculatePayout contract itemData) contract in
      let* today := gets now in
      let stamped := set_created (name itemData) today priced in
      modify (fun w =>
        set_contracts
          (Contracts.set_special
             (Contracts.specialContracts (contracts w) ++ [stamped])
             (contracts w)) w) ;;
      emit (contract_special_available stamped) ;;
      emit (notification "info"
              [Str "Special contract available: "; Str (customer stamped);
               Str " wants "; Num (quantity stamped); Str "x ";
               Str (name itemData)])
  end.

(** The table [specialItems] of [checkForSpecialContracts]: customer,
    quantity, payout multiplier and duration in minutes. *)
Definition specialItems : gmap string (string * Q * Q * Z) :=
  <["rifle" := ("County Sheriff's Office", 2%Q, 1.5%Q, 30%Z)]>
  (<["revolver" := ("Silver Dollar Saloon", 1%Q, 1.4%Q, 20%Z)]>
  (<["decorativeHorseshoe" := ("Wilson Ranch", 3%Q, 1.3%Q, 25%Z)]> ∅)).

(** [checkForSpecialContracts(itemId)], the listener of
    [blueprint:unlocked]. *)
Definition checkForSpecialContracts (itemId : string) : M event World unit :=
  match specialItems !! itemId with
  | None => ret tt
  | Some (who, howMany, multiplier, durationMinutes) =>
      let* today := gets now in
      addSpecialContract
        {| id :=
             [Str "intro_"; Str itemId; Str "_"; Num (inject_Z today)];
           customer := who; item := itemId; quantity := howMany;
           expiryTime := (today + durationMinutes * 60 * 1000)%Z;
           payoutMultiplier := Some multiplier; payout := None;
           itemName := None; timeCreated := None; isSpecial := true |}
  end.

(** [generateContract()]. [generated] is what the random generator
    [contractsData.generate] returns on this call. *)
Definition generateContract (generated : option Contract.t)
    : M event World unit :=
  let* active := gets (fun w => Contracts.activeContracts (contracts w)) in
  if (Contracts.maxContracts <=? length active)%nat then ret tt
  else
    match generated with
    | None => ret tt
    | Some contract =>
        let* found := gets (fun w => itemsData w !! item contract) in
        match found with
        | None => ret tt
        | Some itemData =>
            let* today := gets now in
            let offered :=
              set_created (name itemData) today
                (set_payout (calculatePayout contract itemData) contract) in
            modify (fun w =>
              set_contracts
                (Contracts.set_active
                   (Contracts.activeContracts (contracts w) ++ [offered])
                   (contracts w)) w) ;;
            emit (contract_available offered)
        end
    end.

(** The test of [checkExpiredContracts]: [contract.expiryTime <= now]. *)
Definition expired (today : Z) (contract : Contract.t) : bool :=
  (expiryTime contract <=? today)%Z.

(** [checkExpiredContracts()]. *)
Definition checkExpiredContracts : M event World unit :=
  let* today := gets now in
  let* board := gets contracts in
  let expiredContracts :=
    List.filter (expired today) (Contracts.activeContracts board)
    ++ List.filter (expired today) (Contracts.specialContracts board) in
  modify (fun w =>
    set_contracts
      (Contracts.set_active
         (List.filter (fun c => negb (expired today c))
            (Contracts.activeContracts (contracts w)))
         (contracts w)) w) ;;
  modify (fun w =>
    set_contracts
      (Contracts.set_special
         (List.filter (fun c => negb (expired today c))
            (Contracts.specialContracts (contracts w)))
         (contracts w)) w) ;;
  for_each expiredContracts (fun contract =>
    emit (contract_expired contract) ;;
    emit (notification "warning"
            [Str "Contract expired: "; Str (customer contract);
             Str "'s order for "; Num (quantity contract); Str "x ";
             Str (default "undefined" (itemName contract))])).

(** [update()], called on each game tick. *)
Definition update (generated : option Contract.t) : M event World unit :=
  modify (fun w =>
    set_contracts
      (Contracts.set_timer (Contracts.contractTimer (contracts w) + 1)%Q
         (contracts w)) w) ;;
  let* timer := gets (fun w => Contracts.contractTimer (contracts w)) in
  (if Js.geb timer Contracts.contractInterval then
     modify (fun w => set_contracts (Contracts.set_timer 0 (contracts w)) w) ;;
     generateContract generated
   else ret tt) ;;
  checkExpiredContracts.

(** [array.findIndex(test)]. *)
Fixpoint findIndex {A} (test : A -> bool) (l : list A) : option nat :=
  match l with
  | [] => None
  | x :: rest => if test x then Some 0%nat else S <$> findIndex test rest
  end.

(** The search that opens [fulfillContract] and [rejectContract]: whether
    the contract is a special one, its index on its board, and the
    contract. [sought] is the test [id === contractId] on the ids, which
    are template strings. *)
Definition locate (sought : list fragment -> bool) (board : Contracts.t)
    : option (bool * nat * Contract.t) :=
  match findIndex (fun c => sought (id c)) (Contracts.activeContracts board) with
  | Some contractIndex =>
      (fun c => (false, contractIndex, c))
        <$> Contracts.activeContracts board !! contractIndex
  | None =>
      match findIndex (fun c => sought (id c))
              (Contracts.specialContracts board) with
      | Some specialIndex =>
          (fun c => (true, specialIndex, c))
            <$> Contracts.specialContracts board !! specialIndex
      | None => None
      end
  end.

(** [splice(index, 1)] on the board of the contract. *)
Definition strike (special : bool) (index : nat) : M event World unit :=
  modify (fun w =>
    set_contracts
      (if special then
         Contracts.set_special
           (delete index (Contracts.specialContracts (contracts w)))
           (contracts w)
       else
         Contracts.set_active
           (delete index (Contracts.activeContracts (contracts w)))
           (contracts w)) w).

(** [fulfillContract(contractId)]. A contract on a board carries the
    [payout] that [generateContract] or [addSpecialContract] gave it;
    without one the code makes the balance [NaN], which the numbers of
    this embedding do not have, and the embedding stops there. *)
Definition fulfillContract (sought : list fragment -> bool)
    : M event World bool :=
  let* board := gets contracts in
  match locate sought board with
  | None =>
      emit (notification "error" [Str "Contract not found."]) ;;
      ret false
  | Some (special, index, contract) =>
      let* enough :=
        gets (fun w =>
          Inventory.hasItems [(item contract, quantity contract)]
            (inventory w)) in
      if negb enough then
        emit (notification "error"
                [Str "Not enough ";
                 Str (default "undefined" (itemName contract));
                 Str " to fulfill this contract."]) ;;
        ret false
      else
        let* removed :=
          inInventory (Inventory.removeItem (item contract) (quantity contract)) in
        if negb removed then
          emit (notification "error"
                  [Str "Failed to remove items from inventory."]) ;;
          ret false
        else
          strike special index ;;
          match payout contract with
          | None => ret false
          | Some paid =>
              let* _ := inInventory (Inventory.addMoney paid) in
              emit (contract_completed contract) ;;
              emit (notification "success"
                      [Str "Contract completed: "; Num (quantity contract);
                       Str "x ";
                       Str (default "undefined" (itemName contract));
                       Str " for $"; Num paid]) ;;
              ret true
          end
  end.

(** [rejectContract(contractId)]. *)
Definition rejectContract (sought : list fragment -> bool)
    : M event World bool :=
  let* board := gets contracts in
  match locate sought board with
  | None =>
      emit (notification "error" [Str "Contract not found."]) ;;
      ret false
  | Some (special, index, contract) =>
      strike special index ;;
      emit (contract_rejected contract) ;;
      emit (notification "info"
              [Str "Rejected contract from "; Str (customer contract);
               Str "."]) ;;
      ret true
  end.

(** The object returned by [getContractTimeRemaining]. *)
Record Remaining := { minutes : Z; seconds : Z; percentage : Q }.

(** [getContractTimeRemaining(contract)] for a contract on a board.
    [durationMinutes] is the property of that name, which the generator
    sets on a standard contract. *)
Definition getContractTimeRemaining (contract : Contract.t)
    (durationMinutes : option Q) (w : World) : Remaining :=
  let totalMs := (expiryTime contract - now w)%Z in
  if (totalMs <=? 0)%Z then {| minutes := 0; seconds := 0; percentage := 0 |}
  else
    {| minutes := (totalMs / (1000 * 60))%Z;
       seconds := (totalMs mod (1000 * 60) / 1000)%Z;
       percentage :=
         match durationMinutes with
         | Some duration =>
             if Js.truthy duration
             then (inject_Z totalMs / (duration * 60 * 1000) * 100)%Q
             else 0
         | None => 0
         end |}.

(** A contract as the system puts it on a board: priced, named and
    dated. *)
Definition offered (contract : Contract.t) : Prop :=
  is_Some (payout contract) /\ is_Some (itemName contract) /\
  is_Some (timeCreated contract).

(** Boards in order: no more standard contracts than [maxContracts], and
    every contract as the system offers it. *)
Definition wellKept (board : Contracts.t) : Prop :=
  (length (Contracts.activeContracts board) <= Contracts.maxContracts)%nat /\
  Forall offered (Contracts.activeContracts board) /\
  Forall offered (Contracts.specialContracts board).

End ContractSystem.

(** ** BlueprintSystem (src/unnamed/part_003) *)

Module BlueprintSystem.

(** [isUnlocked(itemId)]. *)
Definition isUnlocked (itemId : string) (w : World) : bool :=
  bool_decide (itemId ∈ unlockedBlueprints w).

(** [unlockBlueprint(itemId)]. The crafting system and then the contract
    system hear [blueprint:unlocked]. *)
Definition unlockBlueprint (itemId : string) : M event World bool :=
  let* known := gets (isUnlocked itemId) in
  if known then ret false
  else
    let* found := gets (fun w => itemsData w !! itemId) in
    match found with
    | None => ret false
    | Some itemData =>
        modify (fun w =>
          set_unlockedBlueprints ({[itemId]} ∪ unlockedBlueprints w) w) ;;
        modify (fun w =>
          set_itemsData (alter (set_unlocked true) itemId (itemsData w)) w) ;;
        emit (blueprint_unlocked itemId (set_unlocked true itemData)) ;;
        emit (notification "success"
                [Str "New item unlocked for crafting: "; Str (name itemData)]) ;;
        ContractSystem.checkForSpecialContracts itemId ;;
        ret true
    end.

(** [purchaseBlueprint(itemId)]. The payload of
    [inventory:purchase-blueprint] holds the callback that would unlock
    the blueprint; nothing in the repository listens to that event, so the
    callback is never called. *)
Definition purchaseBlueprint (itemId : string) : M event World bool :=
  let* known := gets (isUnlocked itemId) in
  if known then
    emit (notification "error" [Str "You already own this blueprint."]) ;;
    ret false
  else
    let* found := gets (fun w => itemsData w !! itemId) in
    match found with
    | None =>
        emit (notification "error" [Str "Invalid blueprint."]) ;;
        ret false
    | Some itemData =>
        if negb (Js.truthy_opt (blueprintPrice itemData)) then
          emit (notification "error"
                  [Str "This blueprint is not available for purchase."]) ;;
          ret false
        else
          emit (inventory_purchase_blueprint itemId
                  (default 0%Q (blueprintPrice itemData))) ;;
          ret true
    end.

(** [serialize()]: the ids of the set, as an array. *)
Definition serialize (w : World) : list string :=
  elements (unlockedBlueprints w).

(** [deserialize(data)]. [saved] is [data.unlockedBlueprints], missing
    also when [data] itself is. *)
Definition deserialize (saved : option (list string)) : M event World unit :=
  match saved with
  | None => ret tt
  | Some ids =>
      modify (set_unlockedBlueprints (list_to_set ids)) ;;
      modify (fun w =>
        set_itemsData
          (map_imap (fun itemId itemData =>
             Some (set_unlocked (bool_decide (itemId ∈ unlockedBlueprints w))
                     itemData))
             (itemsData w)) w)
  end.

(** The flag [unlocked] of every item tells whether its id is in the set
    of unlocked blueprints. *)
Definition flagsAgree (w : World) : Prop :=
  forall itemId itemData, itemsData w !! itemId = Some itemData ->
    unlocked itemData = bool_decide (itemId ∈ unlockedBlueprints w).

End BlueprintSystem.

(** ** WorkerSystem (src/unnamed/part_003) *)

Module WorkerSystem.

Definition workerTypes : gmap string Worker.WorkerType :=
  <["apprentice" := Worker.apprentice]>
  (<["journeyman" := Worker.journeyman]>
  (<["master" := Worker.master]> ∅)).

(** [workers[workerId]] on the entries of the object. *)
Definition findWorker (workerId : string) (hired : list (string * Worker.t))
    : option Worker.t :=
  snd <$> List.find (fun entry => String.eqb entry.1 workerId) hired.

(** [this.workers[workerId]]. *)
Definition lookupWorker (workerId : string) (w : World) : option Worker.t :=
  findWorker workerId (workers w).

(** An assignment to properties of the worker object [workers[workerId]]. *)
Definition onWorker (workerId : string) (f : Worker.t -> Worker.t)
    : M event World unit :=
  modify (fun w =>
    set_workers
      (map (fun entry =>
              if String.eqb entry.1 workerId then (entry.1, f entry.2)
              else entry)
         (workers w)) w).

(** [setWorkerResting(workerId, resting)]. *)
Definition setWorkerResting (workerId : string) (resting : bool)
    : M event World bool :=
  let* found := gets (lookupWorker workerId) in
  match found with
  | None => ret false
  | Some _ =>
      onWorker workerId (Worker.set_resting resting) ;;
      (if resting then
         onWorker workerId (Worker.set_status "Resting") ;;
         onWorker workerId (Worker.set_task None)
       else onWorker workerId (Worker.set_status "Idle")) ;;
      (if resting then emit (worker_resting workerId)
       else emit (worker_working workerId)) ;;
      ret true
  end.

(** [handleCraftingTask(workerId, worker)] for the task of crafting
    [itemId]. The crafting system hears [crafting:start]. *)
Definition handleCraftingTask (workerId : string) (worker : Worker.t)
    (itemId : string) : M event World unit :=
  let* busy :=
    gets (fun w =>
      bool_decide (is_Some (Crafting.currentCraft (crafting w)))
      || negb (length (Crafting.craftingQueue (crafting w)) =? 0)%nat) in
  if busy then ret tt
  else
    let* verdict := gets (CraftingSystem.canCraft itemId) in
    if CraftingSystem.canCraft_ok verdict then
      let* originalSpeedMultiplier :=
        gets (fun w => Crafting.speedMultiplier (crafting w)) in
      modify (fun w =>
        set_crafting
          (Crafting.set_speed
             (Worker.speedMultiplier (Worker.workerType worker))
             (crafting w)) w) ;;
      emit (crafting_start itemId 1 (Some workerId)) ;;
      let* _ := CraftingSystem.startCrafting itemId 1 (Some workerId) in
      modify (fun w =>
        set_crafting
          (Crafting.set_speed originalSpeedMultiplier (crafting w)) w)
    else
      emit (notification "warning"
              ([Str (Worker.name worker); Str " can't craft "; Str itemId;
                Str ": "] ++ default [] (CraftingSystem.reason verdict))) ;;
      onWorker workerId (Worker.set_task None) ;;
      onWorker workerId (Worker.set_status "idle").

(** [handleCoalTask(workerId, worker)]. The coal system hears
    [worker:refill-coal]. *)
Definition handleCoalTask (workerId : string) (worker : Worker.t)
    : M event World unit :=
  let* level := gets CoalSystem.getLevel in
  if Js.leb level 20 then
    emit (worker_refill_coal (Worker.name worker)) ;;
    let* success := CoalSystem.refill in
    if success then
      emit (notification "info"
              [Str (Worker.name worker);
               Str " has refilled the forge with coal."])
    else ret tt
  else ret tt.

(** The increase computed by [increaseFatigue] for a worker. *)
Definition fatigueIncrease (worker : Worker.t) : Q :=
  match Worker.currentTask worker with
  | Some (Worker.CraftingTask _) =>
      (0.2 * Worker.fatigueRate (Worker.workerType worker))%Q
  | Some Worker.CoalTask => 0.05%Q
  | None => 0.1%Q
  end.

(** [increaseFatigue(workerId, worker)]. *)
Definition increaseFatigue (workerId : string) : M event World unit :=
  onWorker workerId (fun worker =>
    Worker.set_fatigue (Worker.fatigue worker + fatigueIncrease worker)%Q
      worker) ;;
  onWorker workerId (fun worker =>
    if Js.ltb (Worker.maxFatigue (Worker.workerType worker))
         (Worker.fatigue worker)
    then Worker.set_fatigue (Worker.maxFatigue (Worker.workerType worker))
           worker
    else worker) ;;
  let* found := gets (lookupWorker workerId) in
  match found with
  | None => ret tt
  | Some worker =>
      if Js.geb (Worker.fatigue worker)
           (Worker.maxFatigue (Worker.workerType worker) * 0.8)%Q
         && negb (Worker.highFatigueWarning worker)
      then
        onWorker workerId (Worker.set_highFatigueWarning true) ;;
        emit (notification "warning"
                [Str (Worker.name worker); Str " is getting very tired (";
                 Num (inject_Z (Qfloor (Worker.fatigue worker)));
                 Str "% fatigue)."])
      else ret tt
  end.

(** [recoverFatigue(workerId, worker)]. *)
Definition recoverFatigue (workerId : string) : M event World unit :=
  onWorker workerId (fun worker =>
    Worker.set_fatigue
      (Worker.fatigue worker
       - 0.2 * Worker.recoveryRate (Worker.workerType worker))%Q worker) ;;
  onWorker workerId (fun worker =>
    if Js.ltb (Worker.fatigue worker) 0 then Worker.set_fatigue 0 worker
    else worker) ;;
  onWorker workerId (fun worker =>
    if Js.ltb (Worker.fatigue worker)
         (Worker.maxFatigue (Worker.workerType worker) * 0.5)%Q
    then Worker.set_highFatigueWarning false worker
    else worker) ;;
  let* found := gets (lookupWorker workerId) in
  (match found with
   | None => ret tt
   | Some worker =>
       if Qeq_bool (Worker.fatigue worker) 0 && Worker.wasResting worker
       then
         onWorker workerId (Worker.set_wasResting false) ;;
         emit (notification "info"
                 [Str (Worker.name worker);
                  Str " is fully rested and ready to work."])
       else ret tt
   end) ;;
  onWorker workerId (fun worker =>
    if Js.ltb 0 (Worker.fatigue worker) then Worker.set_wasResting true worker
    else worker).

(** [updateWorker(workerId, worker)]. *)
Definition updateWorker (workerId : string) : M event World unit :=
  let* found := gets (lookupWorker workerId) in
  match found with
  | None => ret tt
  | Some worker =>
      if Worker.resting worker then recoverFatigue workerId
      else if Js.geb (Worker.fatigue worker)
                (Worker.maxFatigue (Worker.workerType worker))
      then
        let* _ := setWorkerResting workerId true in
        emit (notification "warning"
                [Str (Worker.name worker);
                 Str " is too fatigued to work and needs to rest."])
      else
        match Worker.currentTask worker with
        | None => ret tt
        | Some task =>
            (match task with
             | Worker.CraftingTask itemId =>
                 handleCraftingTask workerId worker itemId
             | Worker.CoalTask => handleCoalTask workerId worker
             end) ;;
            increaseFatigue workerId
        end
  end.

(** [getHiringDiscount(workerTypeId)]: the discount of the type, else the
    one for all types, while not expired. *)
Definition findDiscount (key : string) (w : World) : option (Q * Z) :=
  snd <$> List.find (fun entry => String.eqb entry.1 key) (hiringDiscounts w).

Definition getHiringDiscount (workerTypeId : string) (w : World) : option Q :=
  match findDiscount workerTypeId w with
  | Some (multiplier, expiry) =>
      if (now w <? expiry)%Z then Some multiplier
      else
        match findDiscount "all" w with
        | Some (multiplier, expiry) =>
            if (now w <? expiry)%Z then Some multiplier else None
        | None => None
        end
  | None =>
      match findDiscount "all" w with
      | Some (multiplier, expiry) =>
          if (now w <? expiry)%Z then Some multiplier else None
      | None => None
      end
  end.

(** [hireWorker(workerTypeId)], for a [workerTypeId] that
    [Object.prototype] does not define (the read of [workerTypes]).
    [workerId] is the id made from the type and the clock, [name] the
    name drawn at random. *)
Definition hireWorker (workerTypeId workerId name : string)
    : M event World bool :=
  match workerTypes !! workerTypeId with
  | None =>
      emit (notification "error" [Str "Unknown worker type: "; Str workerTypeId]) ;;
      ret false
  | Some workerType =>
      let* discount := gets (getHiringDiscount workerTypeId) in
      let hireCost :=
        match discount with
        | Some multiplier =>
            if Js.truthy multiplier
            then (Worker.hireCost workerType * multiplier)%Q
            else Worker.hireCost workerType
        | None => Worker.hireCost workerType
        end in
      let* balance := gets (fun w => Inventory.money (inventory w)) in
      if Js.ltb balance hireCost then
        emit (notification "error"
                [Str "Not enough money to hire a ";
                 Str (Worker.typeName workerType); Str ". Cost: $";
                 Num hireCost]) ;;
        ret false
      else
        let* today := gets now in
        let worker := Worker.hired workerId name workerTypeId workerType today in
        modify (fun w =>
          set_workers
            (if bool_decide (is_Some (findWorker workerId (workers w)))
             then map (fun entry =>
                         if String.eqb entry.1 workerId then (entry.1, worker)
                         else entry) (workers w)
             else workers w ++ [(workerId, worker)]) w) ;;
        let* _ := inInventory (Inventory.removeMoney hireCost) in
        emit (worker_hired worker) ;;
        emit (notification "success"
                [Str "Hired "; Str name; Str " as a ";
                 Str (Worker.typeName workerType); Str " for $"; Num hireCost]) ;;
        ret true
  end.

(** [fireWorker(workerId)]. *)
Definition fireWorker (workerId : string) : M event World bool :=
  let* found := gets (lookupWorker workerId) in
  match found with
  | None =>
      emit (notification "error" [Str "Worker not found."]) ;;
      ret false
  | Some worker =>
      modify (fun w =>
        set_workers
          (List.filter (fun entry => negb (String.eqb entry.1 workerId))
             (workers w)) w) ;;
      emit (worker_fired worker) ;;
      emit (notification "info" [Str "Fired "; Str (Worker.name worker); Str "."]) ;;
      ret true
  end.

(** [assignTask(workerId, task)] for a task object with the given [type]
    and [itemId] (empty when missing): only the two kinds of [Worker.Task]
    get through. *)
Definition assignTask (workerId type itemId : string) : M event World bool :=
  let* found := gets (lookupWorker workerId) in
  match found with
  | None =>
      emit (notification "error" [Str "Worker not found."]) ;;
      ret false
  | Some worker =>
      if Worker.resting worker then
        emit (notification "error"
                [Str (Worker.name worker);
                 Str " is resting and cannot be assigned tasks."]) ;;
        ret false
      else if Js.geb (Worker.fatigue worker)
                (Worker.maxFatigue (Worker.workerType worker)) then
        emit (notification "error"
                [Str (Worker.name worker); Str " is too fatigued to work."]) ;;
        ret false
      else if String.eqb type "crafting" then
        if String.eqb itemId "" then
          emit (notification "error"
                  [Str "No item specified for crafting task."]) ;;
          ret false
        else
          onWorker workerId (Worker.set_task (Some (Worker.CraftingTask itemId))) ;;
          onWorker workerId
            (Worker.set_status (String.append "Crafting " itemId)) ;;
          emit (worker_task_assigned workerId (Worker.CraftingTask itemId)) ;;
          emit (notification "info"
                  [Str "Assigned "; Str (Worker.name worker); Str " to ";
                   Str type; Str " duty."]) ;;
          ret true
      else if String.eqb type "coal" then
        onWorker workerId (Worker.set_task (Some Worker.CoalTask)) ;;
        onWorker workerId (Worker.set_status "Monitoring coal") ;;
        emit (worker_task_assigned workerId Worker.CoalTask) ;;
        emit (notification "info"
                [Str "Assigned "; Str (Worker.name worker); Str " to ";
                 Str type; Str " duty."]) ;;
        ret true
      else
        emit (notification "error" [Str "Unknown task type: "; Str type]) ;;
        ret false
  end.

(** [updateHiringDiscounts()]. *)
Definition updateHiringDiscounts : M event World unit :=
  let* today := gets now in
  let* discounts := gets hiringDiscounts in
  for_each discounts (fun entry =>
    if (entry.2.2 <=? today)%Z then
      modify (fun w =>
        set_hiringDiscounts
          (List.filter (fun other => negb (String.eqb other.1 entry.1))
             (hiringDiscounts w)) w) ;;
      let typeDesc :=
        if String.eqb entry.1 "all" then "all workers"
        else default "undefined"
               (Worker.typeName <$> workerTypes !! entry.1) in
      emit (notification "info"
              [Str "Hiring discount for "; Str typeDesc;
               Str " has expired."])
    else ret tt).

(** [update()], called on each game tick. *)
Definition update : M event World unit :=
  let* hired := gets workers in
  for_each hired (fun entry => updateWorker entry.1) ;;
  updateHiringDiscounts.

(** [processDailyWages()], the listener of [time:new-day]. *)
Definition processDailyWages : M event World unit :=
  let* hired := gets workers in
  let totalWages :=
    foldl (fun total entry => (total + Worker.salary entry.2)%Q) 0%Q hired in
  if Qeq_bool totalWages 0 then ret tt
  else
    let* paid := inInventory (Inventory.removeMoney totalWages) in
    if paid then
      emit (notification "info"
              [Str "Paid $"; Num totalWages; Str " in wages to ";
               Num (inject_Z (Z.of_nat (length hired))); Str " worker(s)."])
    else
      emit (notification "error"
              [Str "Not enough money to pay worker wages! ($";
               Num totalWages; Str " needed)"]).

(** [setHiringDiscount(workerTypeId, multiplier, expiryTime)];
    [Math.round(x)] is the floor of [x + 0.5]. *)
Definition setHiringDiscount (workerTypeId : string) (multiplier : Q)
    (expiryTime : Z) : M event World unit :=
  modify (fun w =>
    set_hiringDiscounts
      (if bool_decide (is_Some (findDiscount workerTypeId w))
       then map (fun entry =>
                   if String.eqb entry.1 workerTypeId
                   then (entry.1, (multiplier, expiryTime))
                   else entry) (hiringDiscounts w)
       else hiringDiscounts w ++ [(workerTypeId, (multiplier, expiryTime))])
      w) ;;
  let discountPercent :=
    inject_Z (Qfloor ((1 - multiplier) * 100 + 0.5)) in
  let typeDesc :=
    if String.eqb workerTypeId "all" then "all workers"
    else default "undefined"
           (Worker.typeName <$> workerTypes !! workerTypeId) in
  emit (notification "info"
          [Str "Worker hiring discount: "; Num discountPercent;
           Str "% off "; Str typeDesc]).

(** The fatigue of a worker lies between zero and the maximum of its
    type, and its type is one of the three of [workerTypes]. *)
Definition fit (worker : Worker.t) : Prop :=
  (0 <= Worker.fatigue worker)%Q /\
  (Worker.fatigue worker <= Worker.maxFatigue (Worker.workerType worker))%Q /\
  exists workerTypeId,
    workerTypes !! workerTypeId = Some (Worker.workerType worker).

End WorkerSystem.

(** ** TimeSystem (src/systems/TimeSystem.js) *)

(** The clock, on its own fields. The listeners of its events belong to
    WorkerSystem ([processDailyWages], on [time:new-day]) and to
    EventSystem; none of them touches the clock. The timer behind
    [start()] and [stop()] is left out. *)
Module TimeSystem.

Record t := {
  day : Q;
  hour : Q;
  minute : Q;
  totalMinutes : Q;
  timeMultiplier : Q;
  workStart : Q;
  workEnd : Q
}.

(** The fields set by the constructor. *)
Definition initial : t :=
  {| day := 1; hour := 8; minute := 0; totalMinutes := 0;
     timeMultiplier := 60; workStart := 8; workEnd := 18 |}.

Definition set_day (q : Q) (c : t) : t :=
  {| day := q; hour := hour c; minute := minute c;
     totalMinutes := totalMinutes c; timeMultiplier := timeMultiplier c;
     workStart := workStart c; workEnd := workEnd c |}.
Definition set_hour (q : Q) (c : t) : t :=
  {| day := day c; hour := q; minute := minute c;
     totalMinutes := totalMinutes c; timeMultiplier := timeMultiplier c;
     workStart := workStart c; workEnd := workEnd c |}.
Definition set_minute (q : Q) (c : t) : t :=
  {| day := day c; hour := hour c; minute := q;
     totalMinutes := totalMinutes c; timeMultiplier := timeMultiplier c;
     workStart := workStart c; workEnd := workEnd c |}.
Definition set_totalMinutes (q : Q) (c : t) : t :=
  {| day := day c; hour := hour c; minute := minute c;
     totalMinutes := q; timeMultiplier := timeMultiplier c;
     workStart := workStart c; workEnd := workEnd c |}.
Definition set_timeMultiplier (q : Q) (c : t) : t :=
  {| day := day c; hour := hour c; minute := minute c;
     totalMinutes := totalMinutes c; timeMultiplier := q;
     workStart := workStart c; workEnd := workEnd c |}.

(** One turn of the loop of [incrementTime]. *)
Definition rollOver : M event t unit :=
  modify (fun c => set_minute (minute c - 60)%Q c) ;;
  modify (fun c => set_hour (hour c + 1)%Q c) ;;
  let* reached := gets hour in
  emit (time_hour_changed reached) ;;
  (if Js.geb reached 24 then
     modify (set_hour 0) ;;
     modify (fun c => set_day (day c + 1)%Q c) ;;
     let* dawn := gets day in
     emit (time_new_day dawn)
   else ret tt) ;;
  let* c := gets (fun c => c) in
  if Qeq_bool (hour c) (workStart c) then emit time_workday_start
  else if Qeq_bool (hour c) (workEnd c) then emit time_workday_end
  else ret tt.

(** [while (this.time.minute >= 60) { ... }], for at most [turns]
    turns. *)
Fixpoint whileOverflow (turns : nat) : M event t unit :=
  match turns with
  | O => ret tt
  | S rest =>
      let* m := gets minute in
      if Js.geb m 60 then rollOver ;; whileOverflow rest
      else ret tt
  end.

(** The turns that the loop takes from [m] minutes: one for each full
    hour in them. *)
Definition hoursIn (m : Q) : nat := Z.to_nat (Qfloor (m / 60)).

(** [incrementTime(realSeconds)]. *)
Definition incrementTime (realSeconds : Q) : M event t unit :=
  let* multiplier := gets timeMultiplier in
  let gameMinutes := (realSeconds * multiplier)%Q in
  modify (fun c => set_totalMinutes (totalMinutes c + gameMinutes)%Q c) ;;
  modify (fun c => set_minute (minute c + gameMinutes)%Q c) ;;
  let* m := gets minute in
  whileOverflow (hoursIn m).

(** [tick()], called every second. *)
Definition tick : M event t unit :=
  incrementTime 1 ;;
  let* c := gets (fun c => c) in
  emit (time_tick (day c) (hour c) (minute c) (totalMinutes c)).

(** [isDuringWorkHours()]. *)
Definition isDuringWorkHours (c : t) : bool :=
  Js.geb (hour c) (workStart c) && Js.ltb (hour c) (workEnd c).

(** [setTimeMultiplier(multiplier)]. *)
Definition setTimeMultiplier (multiplier : Q) : M event t unit :=
  if Js.leb multiplier 0 then ret tt
  else
    modify (set_timeMultiplier multiplier) ;;
    emit (time_multiplier_changed multiplier).

(** The object returned by [getTimeUntil]. *)
Record Until := { hours : Q; minutes : Q }.

(** [getTimeUntil(targetHour)]. *)
Definition getTimeUntil (targetHour : Q) (c : t) : Until :=
  let minutesUntil := (60 - minute c)%Q in
  if Qeq_bool targetHour (hour c) then
    {| hours := 0;
       minutes := if Qeq_bool minutesUntil 60 then 0 else minutesUntil |}
  else if Js.ltb (hour c) targetHour then
    let hoursUntil := (targetHour - hour c - 1)%Q in
    if Qeq_bool minutesUntil 60
    then {| hours := hoursUntil + 1; minutes := 0 |}
    else {| hours := hoursUntil; minutes := minutesUntil |}
  else
    let hoursUntil := (24 - hour c + targetHour - 1)%Q in
    if Qeq_bool minutesUntil 60
    then {| hours := hoursUntil + 1; minutes := 0 |}
    else {| hours := hoursUntil; minutes := minutesUntil |}.

(** [getMinutesUntil(targetHour, targetMinute = 0)]. *)
Definition getMinutesUntil (targetHour targetMinute : Q) (c : t) : Q :=
  if Qeq_bool targetHour (hour c) && Js.ltb (minute c) targetMinute then
    (targetMinute - minute c)%Q
  else if Qeq_bool targetHour (hour c) && Js.leb targetMinute (minute c) then
    (24 * 60 - (minute c - targetMinute))%Q
  else if Js.ltb (hour c) targetHour then
    ((targetHour - hour c) * 60 + (targetMinute - minute c))%Q
  else
    ((24 - hour c + targetHour) * 60 + (targetMinute - minute c))%Q.

(** [skipTime(hours = 0, minutes = 0)], for a multiplier other than zero
    (the division). *)
Definition skipTime (hours minutes : Q) : M event t unit :=
  let total := (hours * 60 + minutes)%Q in
  let* multiplier := gets timeMultiplier in
  incrementTime (total / multiplier) ;;
  emit (time_skipped hours minutes).

(** The minutes since day zero that the clock shows. *)
Definition shown (c : t) : Q := (day c * 1440 + hour c * 60 + minute c)%Q.

(** A clock that shows a time of day: a whole hour from 0 to 23 and a
    minute from 0 up to 60. *)
Definition timeOfDay (c : t) : Prop :=
  (exists h : Z, (0 <= h < 24)%Z /\ (hour c == inject_Z h)%Q) /\
  (0 <= minute c)%Q /\ (minute c < 60)%Q.

End TimeSystem.

(** ** Observations used by the properties *)

(** The amounts of the [coal:consumed] events among [evs], in order. *)
Definition coalDrawn (evs : list event) : list Q :=
  omap (fun e => match e with coal_consumed amount => Some amount | _ => None end) evs.

(** The levels of the [coal:low] events among [evs], in order. *)
Definition lowWarnings (evs : list event) : list Q :=
  omap (fun e => match e with coal_low level => Some level | _ => None end) evs.

(** The level that [CoalSystem.update()] computes from [level > 0]: one
    depletion, clamped at zero. *)
Definition depleted (level : Q) : Q :=
  if Js.ltb (level - Coal.depletionRate) 0 then 0%Q
  else (level - Coal.depletionRate)%Q.

(** Everything in the game but the forge and the crafting system. *)
Definition besidesForge (w : World) :=
  (inventory w, storefront w, contracts w, unlockedBlueprints w,
   itemsData w, workers w, hiringDiscounts w, now w).

(** The fatigue that [increaseFatigue] leaves: the increase added, capped
    at the maximum of the worker's type. *)
Definition accrued (worker : Worker.t) (increase : Q) : Q :=
  if Js.ltb (Worker.maxFatigue (Worker.workerType worker))
       (Worker.fatigue worker + increase)
  then Worker.maxFatigue (Worker.workerType worker)
  else (Worker.fatigue worker + increase)%Q.

(** A computation whose effect on the hired workers stays within [R]. *)
Definition respects {A} (R : relation (list (string * Worker.t)))
    (m : M event World A) : Prop :=
  forall w, R (workers w) (workers (state_of (m w))).

(** The same workers under the same ids, but for the one called
    [workerId]. *)
Definition sameBut (workerId : string)
    (before after : list (string * Worker.t)) : Prop :=
  after.*1 = before.*1 /\
  forall other, other <> workerId ->
    WorkerSystem.findWorker other after = WorkerSystem.findWorker other before.

(** Every hired worker is fit. *)
Definition allFit (hired : list (string * Worker.t)) : Prop :=
  Forall (fun entry => WorkerSystem.fit entry.2) hired.

(** Fit workers leave fit workers. *)
Definition keepsFit (before after : list (string * Worker.t)) : Prop :=
  allFit before -> allFit after.

(** [n] calls of [CraftingSystem.update()]. *)
Fixpoint ticks (n : nat) (w : World) : World :=
  match n with
  | O => w
  | S k => state_of (CraftingSystem.update (ticks k w))
  end.

(** The progress of a job after [n] ticks at speed multiplier 1. *)
Fixpoint progressAfter (n : nat) (progress : Q) : Q :=
  match n with
  | O => progress
  | S k => (progressAfter k progress + 1 * 1)%Q
  end.

(** ** EventEmitter (end of src/systems/StorefrontSystem.js) *)

(** The emitter keeps a [Map] from event names to arrays of listeners. The
    arrays are objects: [emit] iterates the very array that the
    unsubscribe closures of [on] and [once] splice, and [clearEvent] puts
    a fresh array in the map. So the arrays live in a store, and the map
    holds references. *)
Module Emitter.

Abbreviation loc := nat.

(** A listener: a function of the client, known by its identity, or the
    closure that [once] wraps around a listener, which holds the array it
    was pushed on. *)
Inductive callback :=
| Fn (id : nat)
| OnceWrapper (wrapperId : nat) (listeners : loc) (inner : callback).

Fixpoint callback_eqb (a b : callback) : bool :=
  match a, b with
  | Fn i, Fn j => (i =? j)%nat
  | OnceWrapper i l c, OnceWrapper j m d =>
      (i =? j)%nat && (l =? m)%nat && callback_eqb c d
  | _, _ => false
  end.

Record t := {
  events : gmap string loc;
  arrays : gmap loc (list callback);
  next : nat
}.

(** [new EventEmitter()]. *)
Definition empty : t := {| events := ∅; arrays := ∅; next := 0 |}.

Definition set_events (x : gmap string loc) (e : t) : t :=
  {| events := x; arrays := arrays e; next := next e |}.
Definition set_array (l : loc) (x : list callback) (e : t) : t :=
  {| events := events e; arrays := <[l := x]> (arrays e); next := next e |}.
Definition bump (e : t) : t :=
  {| events := events e; arrays := arrays e; next := S (next e) |}.

(** The array behind a reference. *)
Definition array (l : loc) (e : t) : list callback :=
  default [] (arrays e !! l).

(** [listeners.indexOf(callback)]. *)
Fixpoint indexOf (c : callback) (ls : list callback) : option nat :=
  match ls with
  | [] => None
  | x :: rest => if callback_eqb x c then Some 0%nat else S <$> indexOf c rest
  end.

(** The unsubscribe function returned by [on]: it splices the first
    occurrence of [callback] out of the array it closed over. *)
Definition unsubscribe (listeners : loc) (c : callback) (e : t) : t :=
  match indexOf c (array listeners e) with
  | Some index => set_array listeners (delete index (array listeners e)) e
  | None => e
  end.

(** The first lines of [on]: the array of [eventName], made if missing. *)
Definition listenersOf (eventName : string) (e : t) : t * loc :=
  match events e !! eventName with
  | Some l => (e, l)
  | None =>
      let l := next e in
      (bump (set_array l [] (set_events (<[eventName := l]> (events e)) e)), l)
  end.

(** [on(eventName, callback)]; the result carries the array that the
    unsubscribe function closes over. *)
Definition on (eventName : string) (c : callback) (e : t) : t * loc :=
  let '(e1, l) := listenersOf eventName e in
  (set_array l (array l e1 ++ [c]) e1, l).

(** [once(eventName, callback)]; the result carries the wrapper that was
    registered. *)
Definition once (eventName : string) (c : callback) (e : t) : t * callback :=
  let '(e1, l) := listenersOf eventName e in
  let wrapper := OnceWrapper (next e1) l c in
  (bump (set_array l (array l e1 ++ [wrapper]) e1), wrapper).

(** [off(eventName, callback)]. *)
Definition off (eventName : string) (c : callback) (e : t) : t * bool :=
  match events e !! eventName with
  | None => (e, false)
  | Some l =>
      match indexOf c (array l e) with
      | None => (e, false)
      | Some index => (set_array l (delete index (array l e)) e, true)
      end
  end.

(** [clearEvent(eventName)]: the map gets a new, empty array. *)
Definition clearEvent (eventName : string) (e : t) : t * bool :=
  match events e !! eventName with
  | None => (e, false)
  | Some l =>
      let hadListeners := (0 <? length (array l e))%nat in
      let fresh := next e in
      (bump (set_array fresh []
               (set_events (<[eventName := fresh]> (events e)) e)),
       hadListeners)
  end.

(** [clearAll()]. *)
Definition clearAll (e : t) : t := set_events ∅ e.

(** [listenerCount(eventName)]. *)
Definition listenerCount (eventName : string) (e : t) : nat :=
  match events e !! eventName with
  | None => 0%nat
  | Some l => length (array l e)
  end.

Section Dispatch.

(** The arguments of an event, and what the functions of the client do
    when called: they may use the emitter, and they return or throw. *)
Context {A : Type}.
Variable run : nat -> list A -> t -> t * bool.

(** A call of a listener; the boolean tells whether it threw. The wrapper
    of [once] unsubscribes itself, then calls the listener it wraps. *)
Fixpoint call (c : callback) (args : list A) (e : t) : t * bool :=
  match c with
  | Fn id => run id args e
  | OnceWrapper _ listeners inner =>
      call inner args (unsubscribe listeners c e)
  end.

(** [listeners.forEach(...)] from index [k], with [n] indices left of the
    length read at the start: an index that the array no longer has is
    skipped. The log lists the listeners called, with whether each threw
    (and was caught and reported on the console). *)
Fixpoint forEach (n k : nat) (listeners : loc) (args : list A) (e : t)
    : t * list (callback * bool) :=
  match n with
  | O => (e, [])
  | S n' =>
      match array listeners e !! k with
      | Some c =>
          let '(e1, threw) := call c args e in
          let '(e2, log) := forEach n' (S k) listeners args e1 in
          (e2, (c, threw) :: log)
      | None => forEach n' (S k) listeners args e
      end
  end.

(** [emit(eventName, ...args)]: the emitter afterwards, the value
    returned, and the log of the calls made. *)
Definition emit (eventName : string) (args : list A) (e : t)
    : t * bool * list (callback * bool) :=
  match events e !! eventName with
  | None => (e, false, [])
  | Some listeners =>
      let '(e1, log) :=
        forEach (length (array listeners e)) 0 listeners args e in
      (e1, (0 <? length (array listeners e1))%nat, log)
  end.

End Dispatch.

(** Functions of the client that return at once. *)
Definition quiet {A} (id : nat) (args : list A) (e : t) : t * bool :=
  (e, false).

(** Functions of the client of which the one with identity [bad] throws
    at once. *)
Definition throwing {A} (bad : nat) (id : nat) (args : list A) (e : t)
    : t * bool :=
  (e, (id =? bad)%nat).

End Emitter.

(** ** The inventory as objects *)

(** [this.materials], [this.items] and [this.tools] are objects, and each
    tool is an object [{ uses, maxUses }] of its own. The accessors copy
    with the spread syntax, which copies the properties of one object and
    shares the objects they refer to. This module keeps the objects in a
    store to tell a copy from an alias. *)
Module Objects.

Abbreviation loc := nat.

(** The value of a property: a number or a reference to an object. *)
Inductive value :=
| VNum (q : Q)
| VRef (l : loc).

Abbreviation object := (gmap string value).
Abbreviation store := (gmap nat (gmap string value)).

(** The three references held by an [InventorySystem]. *)
Record refs := { materials : loc; items : loc; tools : loc }.

(** [{ ...o }] for the object [o] at [l]: a new object with the
    properties of [o]. *)
Definition spread (l : loc) (s : store) : store * loc :=
  let copy := fresh (dom s) in
  (<[copy := default ∅ (s !! l)]> s, copy).

(** [getMaterials()], [getItems()], [getTools()]. *)
Definition getMaterials (inv : refs) (s : store) : store * loc :=
  spread (materials inv) s.
Definition getItems (inv : refs) (s : store) : store * loc :=
  spread (items inv) s.
Definition getTools (inv : refs) (s : store) : store * loc :=
  spread (tools inv) s.

(** A change made by the caller to an object it holds: [o[k] = v] or
    [delete o[k]]. *)
Inductive mutation :=
| SetProp (k : string) (v : value)
| DeleteProp (k : string).

Definition mutate (l : loc) (m : mutation) (s : store) : store :=
  match m with
  | SetProp k v => alter (insert k v) l s
  | DeleteProp k => alter (delete k) l s
  end.

Definition mutateAll (l : loc) (ms : list mutation) (s : store) : store :=
  foldl (fun s m => mutate l m s) s ms.

(** [o[k]] for the object [o] at [l]. *)
Definition get (l : loc) (k : string) (s : store) : option value :=
  s !! l ≫= (fun o => o !! k).

(** [o[k].uses = v]: a write through the reference stored in [o[k]]. *)
Definition setUses (l : loc) (k : string) (v : Q) (s : store) : store :=
  match get l k s with
  | Some (VRef tool) => mutate tool (SetProp "uses" (VNum v)) s
  | _ => s
  end.

(** What the inventory holds: its materials, its items, and each of its
    tools with the record it refers to. *)
Definition resolve (s : store) (v : value) : option object :=
  match v with
  | VRef l => s !! l
  | VNum _ => None
  end.

Definition toolRecords (s : store) (o : object)
    : gmap string (option object) :=
  resolve s <$> o.

Definition ledger (inv : refs) (s : store)
    : option object * option object * option (gmap string (option object)) :=
  (s !! materials inv, s !! items inv, toolRecords s <$> s !! tools inv).

(** [repairTool(toolName, repairAmount)] of ToolDurability, which works
    on the object returned by [getTools()], for a [toolName] that
    [Object.prototype] does not define (the copy inherits from it). *)
Definition repairTool (inv : refs) (toolName : string) (repairAmount : Q)
    (s : store) : store * bool :=
  let '(s1, tools) := getTools inv s in
  match get tools toolName s1 with
  | Some (VRef tool) =>
      match get tool "uses" s1, get tool "maxUses" s1 with
      | Some (VNum currentDurability), Some (VNum maxDurability) =>
          let newDurability :=
            Qmin (currentDurability + repairAmount) maxDurability in
          (setUses tools toolName newDurability s1, true)
      | _, _ => (s1, true)
      end
  | _ => (s1, false)
  end.

(** Every reference stored in the tools object points into the store. *)
Definition closed (inv : refs) (s : store) : Prop :=
  materials inv ∈ dom s /\ items inv ∈ dom s /\ tools inv ∈ dom s /\
  forall o k l, s !! tools inv = Some o -> o !! k = Some (VRef l) -> l ∈ dom s.

(** The objects of the default starting inventory. *)
Definition toolObject (uses maxUses : Q) : object :=
  <["uses" := VNum uses]> (<["maxUses" := VNum maxUses]> ∅).

Definition initialRefs : refs := {| materials := 0; items := 1; tools := 2 |}.

Definition initialStore : store :=
  <[0%nat := VNum <$> Inventory.materials Inventory.initial]>
  (<[1%nat := VNum <$> Inventory.items Inventory.initial]>
  (<[2%nat := <["hammer" := VRef 3]> (<["anvil" := VRef 4]>
               (<["tongs" := VRef 5]> ∅))]>
  (<[3%nat := toolObject 25 30]>
  (<[4%nat := toolObject 50 50]>
  (<[5%nat := toolObject 40 40]> ∅))))).

End Objects.
(** * Properties *)

(** ** Comparisons *)

Module JsFacts.

Lemma truthy_false (x : Q) : Js.truthy x = false <-> (x == 0)%Q.
Proof.
  unfold Js.truthy. rewrite negb_false_iff. apply Qeq_bool_iff.
Qed.

Lemma ltb_false (x y : Q) : Js.ltb x y = false <-> (y <= x)%Q.
Proof.
  unfold Js.ltb. rewrite negb_false_iff. apply Qle_bool_iff.
Qed.

Lemma ltb_true (x y : Q) : Js.ltb x y = true <-> (x < y)%Q.
Proof.
  unfold Js.ltb. rewrite negb_true_iff. split.
  - intros H. apply Qnot_le_lt. intros Hle.
    apply Qle_bool_iff in Hle. congruence.
  - intros H. destruct (Qle_bool y x) eqn:E; [|reflexivity].
    apply Qle_bool_iff in E. lra.
Qed.

Lemma leb_true (x y : Q) : Js.leb x y = true <-> (x <= y)%Q.
Proof. apply Qle_bool_iff. Qed.

Lemma leb_false (x y : Q) : Js.leb x y = false <-> (y < x)%Q.
Proof.
  unfold Js.leb. split.
  - intros H. apply Qnot_le_lt. intros Hle.
    apply Qle_bool_iff in Hle. congruence.
  - intros H. destruct (Qle_bool x y) eqn:E; [|reflexivity].
    apply Qle_bool_iff in E. lra.
Qed.

Lemma geb_true (x y : Q) : Js.geb x y = true <-> (y <= x)%Q.
Proof. apply Qle_bool_iff. Qed.

Lemma geb_false (x y : Q) : Js.geb x y = false <-> (x < y)%Q.
Proof. apply (leb_false y x). Qed.

End JsFacts.

(** ** The monad *)

Section MonadFacts.
Context {E S : Type}.

Lemma for_each_modify {X} (f : X -> S -> S) (xs : list X) (s : S) :
  for_each (E := E) xs (fun x => modify (f x)) s
  = (tt, foldl (fun s x => f x s) s xs, []).
Proof.
  revert s. induction xs as [|x xs IH]; intros s; [reflexivity|].
  simpl. unfold bind at 1. unfold modify at 1. rewrite IH. reflexivity.
Qed.

(** A loop whose body leaves the state alone leaves the state alone. *)
Lemma for_each_state {X} (xs : list X) (body : X -> M E S unit) (s : S) :
  (forall x s, state_of (body x s) = s) ->
  state_of (for_each xs body s) = s.
Proof.
  intros Hbody. revert s. induction xs as [|x xs IH]; intros s;
    [reflexivity|].
  cbn [for_each]. unfold bind, state_of in *.
  specialize (Hbody x s). destruct (body x s) as [[a s1] l1].
  cbn in Hbody. subst s1. specialize (IH s).
  by destruct (for_each xs body s) as [[b s2] l2].
Qed.

(** What a sequence returns, leaves and publishes, from its two parts. *)
Lemma result_bind {A B} (m : M E S A) (k : A -> M E S B) (s : S) :
  result (bind m k s) = result (k (result (m s)) (state_of (m s))).
Proof.
  unfold bind, result, state_of. destruct (m s) as [[a s1] l1]. simpl.
  destruct (k a s1) as [[b s2] l2]. reflexivity.
Qed.

Lemma state_of_bind {A B} (m : M E S A) (k : A -> M E S B) (s : S) :
  state_of (bind m k s) = state_of (k (result (m s)) (state_of (m s))).
Proof.
  unfold bind, result, state_of. destruct (m s) as [[a s1] l1]. simpl.
  destruct (k a s1) as [[b s2] l2]. reflexivity.
Qed.

Lemma events_of_bind {A B} (m : M E S A) (k : A -> M E S B) (s : S) :
  events_of (bind m k s)
  = events_of (m s) ++ events_of (k (result (m s)) (state_of (m s))).
Proof.
  unfold bind, result, state_of, events_of. destruct (m s) as [[a s1] l1].
  simpl. destruct (k a s1) as [[b s2] l2]. reflexivity.
Qed.

Lemma result_zoom {T A} (get : T -> S) (set : S -> T -> T) (m : M E S A)
    (t : T) :
  result (zoom get set m t) = result (m (get t)).
Proof. unfold zoom, result. by destruct (m (get t)) as [[a s1] l1]. Qed.

Lemma state_of_zoom {T A} (get : T -> S) (set : S -> T -> T) (m : M E S A)
    (t : T) :
  state_of (zoom get set m t) = set (state_of (m (get t))) t.
Proof. unfold zoom, state_of. by destruct (m (get t)) as [[a s1] l1]. Qed.

Lemma events_of_zoom {T A} (get : T -> S) (set : S -> T -> T) (m : M E S A)
    (t : T) :
  events_of (zoom get set m t) = events_of (m (get t)).
Proof. unfold zoom, events_of. by destruct (m (get t)) as [[a s1] l1]. Qed.

Lemma run_eta {A} (r : A * S * list E) :
  r = (result r, state_of r, events_of r).
Proof. by destruct r as [[a s] l]. Qed.

End MonadFacts.


(** ** The inventory *)

Section InventoryFacts.
Import Inventory.

Lemma nonneg_initial : nonneg (materials initial).
Proof.
  intros k q H. unfold initial in H. simpl in H.
  repeat (rewrite lookup_insert in H; case_decide;
          [injection H as <-; discriminate|]).
  rewrite lookup_empty in H. discriminate.
Qed.

(** The guard of [removeMaterial] and of [hasMaterials], read as a fact. *)
Lemma lacks_false (m : gmap string Q) (k : string) (amount : Q) :
  lacks m (k, amount) = false ->
  exists q, m !! k = Some q /\ (amount <= q)%Q /\ ~ (q == 0)%Q.
Proof.
  unfold lacks. simpl. intros H. apply orb_false_elim in H as [H1 H2].
  destruct (m !! k) as [q|] eqn:Hk; simpl in *; [|discriminate].
  exists q. split; [reflexivity|]. split.
  - by apply JsFacts.ltb_false.
  - intros Hq. apply JsFacts.truthy_false in Hq.
    rewrite Hq in H1. discriminate.
Qed.

Lemma nonneg_alter_sub (m : gmap string Q) (k : string) (amount q : Q) :
  nonneg m -> m !! k = Some q -> (amount <= q)%Q ->
  nonneg (alter (fun q => q - amount)%Q k m).
Proof.
  intros Hm Hk Hle k' q' H. rewrite lookup_alter in H. case_decide.
  - subst k'. rewrite Hk in H. simpl in H. injection H as <-. lra.
  - by apply (Hm k').
Qed.

Lemma addMaterial_nonneg (name : string) (amount : Q) (inv : t) :
  nonneg (materials inv) ->
  nonneg (materials (state_of (addMaterial name amount inv))).
Proof.
  intros Hm. unfold addMaterial.
  destruct (Js.leb amount 0) eqn:Ha; [exact Hm|].
  apply JsFacts.leb_false in Ha.
  unfold state_of, bind, modify, emit, ret. simpl.
  intros k q H. rewrite lookup_alter in H. case_decide as Hk.
  - subst k.
    destruct (negb (Js.truthy_opt (materials inv !! name))) eqn:Ht; simpl in H.
    + rewrite lookup_insert_eq in H. simpl in H. injection H as <-. lra.
    + destruct (materials inv !! name) as [q0|] eqn:Hq; simpl in H;
        [|discriminate].
      injection H as <-. pose proof (Hm name q0 Hq). lra.
  - destruct (negb (Js.truthy_opt (materials inv !! name))); simpl in H.
    + rewrite lookup_insert_ne in H by congruence. by apply (Hm k).
    + by apply (Hm k).
Qed.

Lemma removeMaterial_nonneg (name : string) (amount : Q) (inv : t) :
  nonneg (materials inv) ->
  nonneg (materials (state_of (removeMaterial name amount inv))).
Proof.
  intros Hm. unfold removeMaterial, state_of, bind, gets. simpl.
  destruct (lacks (materials inv) (name, amount)) eqn:Hl;
    unfold lacks in Hl; simpl in Hl; rewrite Hl; simpl; [exact Hm|].
  apply lacks_false in Hl as (q & Hq & Hle & _).
  by apply nonneg_alter_sub with q.
Qed.

(** The loop of [consumeMaterials] on entries with distinct keys, each
    of which is available. *)
Lemma consume_loop_nonneg (required : list (string * Q)) (inv : t) :
  NoDup required.*1 ->
  hasMaterials required inv = true ->
  nonneg (materials inv) ->
  nonneg (materials
    (foldl (fun inv entry =>
       set_materials
         (alter (fun q => q - entry.2)%Q entry.1 (materials inv)) inv)
       inv required)).
Proof.
  revert inv. induction required as [|[k amount] rest IH];
    intros inv Hnd Hhas Hm; [exact Hm|].
  simpl in *. apply NoDup_cons in Hnd as [Hk Hnd].
  apply andb_prop in Hhas as [Hhd Hrest].
  apply negb_true_iff, lacks_false in Hhd as (q & Hq & Hle & _).
  apply IH; [exact Hnd| |by apply nonneg_alter_sub with q].
  unfold hasMaterials in *. simpl.
  rewrite forallb_forall in Hrest. apply forallb_forall.
  intros [k' a'] Hin. specialize (Hrest _ Hin).
  unfold lacks in *. simpl in *.
  rewrite lookup_alter_ne; [exact Hrest|].
  intros ->. apply Hk. apply list_elem_of_fmap.
  exists (k', a'). split; [reflexivity|]. by apply list_elem_of_In.
Qed.

Lemma consumeMaterials_nonneg (required : list (string * Q)) (inv : t) :
  NoDup required.*1 ->
  nonneg (materials inv) ->
  nonneg (materials (state_of (consumeMaterials required inv))).
Proof.
  intros Hnd Hm. unfold consumeMaterials, state_of, bind, gets. simpl.
  destruct (hasMaterials required inv) eqn:Hhas; simpl; [|exact Hm].
  rewrite for_each_modify. simpl.
  by apply consume_loop_nonneg.
Qed.

Lemma reachable_nonneg (inv : t) : reachable inv -> nonneg (materials inv).
Proof.
  induction 1 as [|inv inv' _ IH Hstep]; [apply nonneg_initial|].
  destruct Hstep.
  - by apply addMaterial_nonneg.
  - by apply removeMaterial_nonneg.
  - by apply consumeMaterials_nonneg.
Qed.

Lemma removeMaterial_false (name : string) (amount : Q) (inv : t) :
  result (removeMaterial name amount inv) = false ->
  removeMaterial name amount inv = (false, inv, []).
Proof.
  unfold removeMaterial, result, bind, gets. simpl.
  destruct (negb (Js.truthy_opt (materials inv !! name))
            || Js.ltb_opt (materials inv !! name) amount);
    simpl; [reflexivity|discriminate].
Qed.

Lemma consumeMaterials_false (required : list (string * Q)) (inv : t) :
  result (consumeMaterials required inv) = false ->
  consumeMaterials required inv = (false, inv, []).
Proof.
  unfold consumeMaterials, result, bind, gets. simpl.
  destruct (hasMaterials required inv); simpl; [|reflexivity].
  rewrite for_each_modify. simpl. discriminate.
Qed.

(** The invariant of the materials, on the names that [Object.prototype]
    does not define: in every state the inventory reaches from its
    starting stock by calls of addMaterial, removeMaterial and
    consumeMaterials with such names, each stored quantity of material is
    at least zero; and a call of removeMaterial or consumeMaterials that
    returns false leaves the inventory as it was and publishes nothing. *)
Theorem materials_never_negative :
  (forall inv, reachable inv -> nonneg (materials inv)) /\
  (forall inv name amount,
      Js.inherited name = false ->
      result (removeMaterial name amount inv) = false ->
      state_of (removeMaterial name amount inv) = inv /\
      events_of (removeMaterial name amount inv) = []) /\
  (forall inv required,
      Forall (fun entry => Js.inherited entry.1 = false) required ->
      result (consumeMaterials required inv) = false ->
      state_of (consumeMaterials required inv) = inv /\
      events_of (consumeMaterials required inv) = []).
Proof.
  split; [exact reachable_nonneg|]. split.
  - intros inv name amount _ H.
    by rewrite (removeMaterial_false _ _ _ H).
  - intros inv required _ H.
    by rewrite (consumeMaterials_false _ _ H).
Qed.

(** On a name that [Object.prototype] does not define, a read sees the
    own property, and an assignment makes one. *)
Lemma get_own (m : gmap string Q) (name : string) :
  Js.inherited name = false ->
  PlainObject.get (PlainObject.numbers m) name
  = PlainObject.Num <$> m !! name.
Proof.
  intros Hown. unfold PlainObject.get, PlainObject.numbers.
  rewrite lookup_fmap, Hown. by destruct (m !! name).
Qed.

Lemma set_own (name : string) (v : PlainObject.value)
    (o : PlainObject.object) :
  Js.inherited name = false -> PlainObject.set name v o = <[name := v]> o.
Proof.
  intros Hown. unfold PlainObject.set.
  assert (String.eqb name "__proto__" = false) as ->; [|done].
  unfold Js.inherited, Js.prototypeNames in Hown. cbn [existsb] in Hown.
  repeat (apply orb_false_elim in Hown as [? Hown]). assumption.
Qed.

Lemma numbers_insert (m : gmap string Q) (name : string) (q : Q) :
  PlainObject.numbers (<[name := q]> m)
  = <[name := PlainObject.Num q]> (PlainObject.numbers m).
Proof. unfold PlainObject.numbers. apply fmap_insert. Qed.

Lemma numbers_alter (m : gmap string Q) (name : string) (f : Q -> Q) (q : Q) :
  m !! name = Some q ->
  PlainObject.numbers (alter f name m)
  = <[name := PlainObject.Num (f q)]> (PlainObject.numbers m).
Proof.
  intros Hq. unfold PlainObject.numbers. apply map_eq. intros k.
  rewrite lookup_fmap. destruct (decide (k = name)) as [->|Hne].
  - by rewrite lookup_alter_eq, lookup_insert_eq, Hq.
  - by rewrite lookup_alter_ne, lookup_insert_ne, lookup_fmap.
Qed.

(** On such a name and an object of numbers, the code with its prototype
    does what [Inventory.removeMaterial] and [Inventory.addMaterial]
    do. *)
Lemma removeMaterial_own (name : string) (amount : Q) (inv : t) :
  Js.inherited name = false ->
  PlainObject.removeMaterial name amount (PlainObject.numbers (materials inv))
  = (result (removeMaterial name amount inv),
     PlainObject.numbers (materials (state_of (removeMaterial name amount inv))),
     events_of (removeMaterial name amount inv)).
Proof.
  intros Hown.
  unfold PlainObject.removeMaterial, removeMaterial, bind, gets, modify, emit,
    ret, result, state_of, events_of.
  cbn [fst snd]. rewrite !get_own by exact Hown.
  destruct (materials inv !! name) as [q|] eqn:Hq;
    cbn [fmap option_fmap option_map PlainObject.truthy PlainObject.lt
         PlainObject.minus Js.truthy_opt Js.ltb_opt negb orb];
    [|reflexivity].
  destruct (negb (Js.truthy q) || Js.ltb q amount); cbn [fst snd app];
    [reflexivity|].
  rewrite set_own, get_own by exact Hown. rewrite Hq.
  cbn [fmap option_fmap option_map PlainObject.minus materials set_materials].
  by rewrite (numbers_alter _ _ _ q Hq).
Qed.

Lemma addMaterial_own (name : string) (amount : Q) (inv : t) :
  Js.inherited name = false ->
  PlainObject.addMaterial name amount (PlainObject.numbers (materials inv))
  = (result (addMaterial name amount inv),
     PlainObject.numbers (materials (state_of (addMaterial name amount inv))),
     events_of (addMaterial name amount inv)).
Proof.
  intros Hown.
  unfold PlainObject.addMaterial, addMaterial.
  destruct (Js.leb amount 0); [reflexivity|].
  unfold bind, modify, emit, ret, result, state_of, events_of.
  cbn [fst snd app].
  set (m := materials inv).
  set (m1 := if negb (Js.truthy_opt (m !! name)) then <[name := 0%Q]> m
             else m).
  assert (Hfirst :
    (if negb (PlainObject.truthy (PlainObject.get (PlainObject.numbers m) name))
     then PlainObject.set name (PlainObject.Num 0) (PlainObject.numbers m)
     else PlainObject.numbers m) = PlainObject.numbers m1).
  { unfold m1. rewrite get_own by exact Hown.
    destruct (m !! name) as [q|];
      cbn [fmap option_fmap option_map PlainObject.truthy Js.truthy_opt];
      [destruct (Js.truthy q); cbn [negb]|cbn [negb]];
      rewrite ?set_own, ?numbers_insert by exact Hown; reflexivity. }
  assert (Hthere : exists q1, m1 !! name = Some q1).
  { unfold m1. destruct (m !! name) as [q|] eqn:Hq; cbn [Js.truthy_opt].
    - destruct (Js.truthy q); cbn [negb]; [by exists q|].
      exists 0%Q. apply lookup_insert_eq.
    - exists 0%Q. apply lookup_insert_eq. }
  destruct Hthere as [q1 Hq1].
  assert (Hsame : materials
            (if negb (Js.truthy_opt (m !! name))
             then set_materials (<[name:=0%Q]> m) inv
             else inv) = m1).
  { unfold m1. by destruct (negb _). }
  rewrite Hfirst, set_own, get_own by exact Hown. rewrite Hq1.
  cbn [fmap option_fmap option_map PlainObject.plus materials set_materials].
  by rewrite Hsame, (numbers_alter _ _ _ q1 Hq1).
Qed.

(** C1 fails on the code. [this.materials] is a plain object, so the
    guard of [removeMaterial] finds the function that the prototype holds
    under [constructor]: it is truthy and not less than the amount. The
    call answers true and leaves [NaN] as the quantity of a material,
    which is not a quantity of at least zero; [addMaterial] leaves a
    string there. On the names that [Object.prototype] does not define
    the invariant holds ([materials_never_negative], [removeMaterial_own],
    [addMaterial_own]). *)
Lemma C1_inherited_name_breaks_the_invariant :
  let stock := PlainObject.numbers (materials initial) in
  let removed := PlainObject.removeMaterial "constructor" 1 stock in
  let added := PlainObject.addMaterial "constructor" 1 stock in
  PlainObject.nonneg stock /\
  result removed = true /\
  state_of removed !! "constructor" = Some PlainObject.NaN /\
  events_of removed = [inventory_updated] /\
  ~ PlainObject.nonneg (state_of removed) /\
  result added = true /\
  state_of added !! "constructor" = Some PlainObject.Text.
Proof.
  intros stock removed added. split; [|split; [|split; [|split; [|split]]]].
  - intros name v. unfold stock, PlainObject.numbers. rewrite lookup_fmap.
    destruct (materials initial !! name) as [q|] eqn:Hq; [|discriminate].
    intros [= <-]. exists q. split; [reflexivity|].
    by apply (nonneg_initial name).
  - by vm_compute.
  - by vm_compute.
  - by vm_compute.
  - intros Hnonneg.
    destruct (Hnonneg "constructor" PlainObject.NaN) as (q & Hq & _);
      [by vm_compute|discriminate].
  - split; by vm_compute.
Qed.

End InventoryFacts.

(** ** The forge *)

Section CoalFacts.

Lemma consumeCoal_enough (amount : Q) (w : World) :
  (amount <= Coal.level (coal w))%Q ->
  result (CoalSystem.consumeCoal amount w) = true /\
  Coal.level (coal (state_of (CoalSystem.consumeCoal amount w)))
  = (Coal.level (coal w) - amount)%Q /\
  besidesForge (state_of (CoalSystem.consumeCoal amount w)) = besidesForge w /\
  (Crafting.currentCraft (crafting w) = None ->
   crafting (state_of (CoalSystem.consumeCoal amount w)) = crafting w) /\
  coalDrawn (events_of (CoalSystem.consumeCoal amount w)) = [amount].
Proof.
  intros Hle.
  destruct w as [inv [lvl warned] [queue cur sp auto] sf ct ub idata ws hd t].
  cbn [coal Coal.level] in Hle.
  assert (Hdraw : Js.ltb lvl amount = false) by (by apply JsFacts.ltb_false).
  assert (Hclamp : Js.ltb (lvl - amount) 0 = false)
    by (apply JsFacts.ltb_false; lra).
  unfold CoalSystem.consumeCoal, CoalSystem.warnIfLow, emit_coal_updated,
    inCrafting, zoom, Crafting.onCoalUpdated, bind, gets, modify, emit, ret.
  cbn [coal Coal.level]. rewrite Hdraw.
  cbn [coal Coal.level set_coal Coal.set_level]. rewrite Hclamp.
  cbn [coal Coal.level set_coal Coal.set_level Coal.hasWarnedAboutLowCoal].
  destruct (Js.leb (lvl - amount) Coal.lowThreshold && negb warned);
    cbn [coal Coal.level set_coal Coal.set_level Coal.set_warned crafting
         Crafting.currentCraft];
    (destruct cur as [job|];
     [ destruct (Js.leb (lvl - amount) 0)
     | rewrite andb_false_r ]);
    cbn; repeat split; try reflexivity; intros; discriminate.
Qed.

End CoalFacts.

(** ** Crafting *)

(** Symbolic execution of a computation, one sequencing at a time. *)
Ltac run_steps :=
  repeat first
    [ rewrite state_of_bind | rewrite result_bind | rewrite events_of_bind
    | rewrite state_of_zoom | rewrite result_zoom | rewrite events_of_zoom
    | progress cbn [gets modify emit ret result state_of events_of fst snd] ].

Section CraftingFacts.
Import Inventory.

Lemma useTool_frame (tool : string) (amount : Q) (inv : t) :
  materials (state_of (useTool tool amount inv)) = materials inv /\
  items (state_of (useTool tool amount inv)) = items inv.
Proof.
  unfold useTool, bind, gets, modify, emit, ret, state_of. cbn.
  destruct (tools inv !! tool) as [tl|]; [|done].
  by destruct (Js.leb (uses tl - amount) 0).
Qed.

Lemma useToolsForItem_frame (itemData : ItemData) (inv : t) :
  materials (state_of (ToolDurability.useToolsForItem itemData inv))
  = materials inv /\
  items (state_of (ToolDurability.useToolsForItem itemData inv)) = items inv.
Proof.
  unfold ToolDurability.useToolsForItem.
  generalize (ToolDurability.getRequiredToolsForItem itemData) as toolNames.
  intros toolNames. revert inv.
  induction toolNames as [|tool rest IH]; intros inv; [done|].
  cbn [for_each]. rewrite state_of_bind.
  destruct (IH (state_of
    ((let* present := gets (hasTool tool) in
      if present
      then let* _ := useTool tool
             (Js.or_default
                (ToolDurability.toolUsageCosts
                   !! ToolDurability.or_string (complexity itemData) "medium") 1)
           in ret tt
      else ret tt) inv))) as [IHm IHi].
  rewrite IHm, IHi. clear IH IHm IHi.
  rewrite state_of_bind. cbn [gets result state_of fst snd].
  destruct (hasTool tool inv); [|done].
  rewrite state_of_bind. cbn [ret state_of fst snd].
  apply useTool_frame.
Qed.

(** What [addItem] leaves in the entry it adds to. *)
Lemma addItem_lookup (itemName : string) (amount : Q) (inv : t) :
  (0 < amount)%Q ->
  materials (state_of (addItem itemName amount inv)) = materials inv /\
  items (state_of (addItem itemName amount inv)) !! itemName
  = Some (Js.or_default (items inv !! itemName) 0 + amount)%Q.
Proof.
  intros Hpos. unfold addItem.
  assert (Js.leb amount 0 = false) as -> by (by apply JsFacts.leb_false).
  unfold bind, modify, emit, ret, state_of. cbn.
  split.
  - by destruct (negb (Js.truthy_opt (items inv !! itemName))).
  - rewrite lookup_alter_eq. unfold Js.or_default.
    destruct (items inv !! itemName) as [q|] eqn:Hq; cbn.
    + destruct (Js.truthy q); cbn.
      * by rewrite Hq.
      * by rewrite lookup_insert_eq.
    + by rewrite lookup_insert_eq.
Qed.

(** A tick that does not finish the current job only adds to its
    progress. *)
Lemma update_progress (w : World) (job : Job.t) :
  Crafting.currentCraft (crafting w) = Some job ->
  Job.paused job = false ->
  Coal.hasEnoughCoal 20 (coal w) = true ->
  Js.geb (Job.progress job + 1 * Crafting.speedMultiplier (crafting w))
    (Job.craftingTime job) = false ->
  CraftingSystem.update w
  = (tt,
     set_crafting
       (Crafting.set_current
          (Some (Crafting.set_progress
                   (Job.progress job + 1 * Crafting.speedMultiplier (crafting w))
                   job))
          (crafting w)) w,
     [crafting_progress (Job.itemId job)
        (Job.progress job + 1 * Crafting.speedMultiplier (crafting w))
        (Job.craftingTime job)]).
Proof.
  intros Hcur Hp Hcoal Hlt.
  unfold CraftingSystem.update, bind at 1, gets at 1. rewrite Hcur.
  unfold CraftingSystem.advance. rewrite Hp.
  unfold bind, gets, modify, emit. cbn -[Qplus Qmult Js.geb].
  rewrite Hcoal. cbn -[Qplus Qmult Js.geb]. by rewrite Hlt.
Qed.

(** The tick that finishes a job producing items, with nothing queued and
    the storefront not fed automatically. *)
Lemma update_complete (w : World) (job : Job.t) :
  Crafting.currentCraft (crafting w) = Some job ->
  Crafting.craftingQueue (crafting w) = [] ->
  Crafting.autoAddToStorefront (crafting w) = false ->
  Job.paused job = false ->
  Coal.hasEnoughCoal 20 (coal w) = true ->
  Js.geb (Job.progress job + 1 * Crafting.speedMultiplier (crafting w))
    (Job.craftingTime job) = true ->
  CraftingSystem.createdTool (Job.itemData job) = None ->
  state_of (CraftingSystem.update w)
  = set_crafting (Crafting.set_current None (crafting w))
      (set_inventory
         (state_of
            (addItem (Job.itemId job) (Job.quantity job)
               (state_of
                  (ToolDurability.useToolsForItem (Job.itemData job)
                     (inventory w)))))
         w).
Proof.
  intros Hcur Hqueue Hauto Hp Hcoal Hge Htool.
  unfold CraftingSystem.update. rewrite state_of_bind.
  cbn [gets result state_of fst snd]. rewrite Hcur.
  unfold CraftingSystem.advance. rewrite Hp.
  rewrite state_of_bind. cbn [gets result state_of fst snd].
  rewrite state_of_bind. cbn [modify result state_of fst snd].
  rewrite state_of_bind. cbn [gets result state_of fst snd coal set_crafting].
  rewrite Hcoal. cbn [negb Job.progress Job.craftingTime Crafting.set_progress].
  rewrite Hge.
  unfold CraftingSystem.completeCrafting, inInventory. rewrite state_of_bind.
  cbn [gets result state_of fst snd crafting set_crafting
       Crafting.currentCraft Crafting.set_current Job.itemData
       Crafting.set_progress].
  rewrite state_of_bind, state_of_zoom.
  rewrite Htool.
  run_steps.
  cbn [crafting set_crafting set_inventory inventory
       Crafting.autoAddToStorefront Crafting.set_current
       Job.itemId Job.quantity Crafting.set_progress].
  rewrite Hauto. run_steps.
  unfold CraftingSystem.startNext. run_steps.
  cbn [crafting set_crafting set_inventory inventory
       Crafting.craftingQueue Crafting.set_current].
  rewrite Hqueue. run_steps.
  reflexivity.
Qed.

Lemma progressAfter_eq (n : nat) (p : Q) :
  (progressAfter n p == p + inject_Z (Z.of_nat n))%Q.
Proof.
  induction n as [|n IH].
  - cbn [progressAfter]. change (inject_Z (Z.of_nat 0)) with 0%Q. lra.
  - cbn [progressAfter]. rewrite IH.
    rewrite Nat2Z.inj_succ. unfold Z.succ. rewrite inject_Z_plus.
    change (inject_Z 1) with 1%Q. lra.
Qed.

(** [n] ticks that do not finish the current job. *)
Lemma ticks_progress (n : nat) (w : World) (job : Job.t) :
  Crafting.currentCraft (crafting w) = Some job ->
  Crafting.speedMultiplier (crafting w) = 1%Q ->
  Job.paused job = false ->
  Coal.hasEnoughCoal 20 (coal w) = true ->
  (Job.progress job + inject_Z (Z.of_nat n) < Job.craftingTime job)%Q ->
  crafting (ticks n w)
  = Crafting.set_current
      (Some (Crafting.set_progress (progressAfter n (Job.progress job)) job))
      (crafting w) /\
  inventory (ticks n w) = inventory w /\
  coal (ticks n w) = coal w.
Proof.
  intros Hcur Hspeed Hp Hcoal. induction n as [|n IH]; intros Hlt.
  - cbn. repeat split. destruct (crafting w) as [queue cur sp auto].
    cbn in *. subst cur. by destruct job.
  - destruct IH as (IHc & IHi & IHl).
    { rewrite Nat2Z.inj_succ in Hlt. unfold Z.succ in Hlt.
      rewrite inject_Z_plus in Hlt. change (inject_Z 1) with 1%Q in Hlt. lra. }
    cbn [ticks].
    rewrite (update_progress (ticks n w)
               (Crafting.set_progress (progressAfter n (Job.progress job)) job)).
    + cbn [state_of fst snd crafting inventory coal set_crafting].
      rewrite IHc, IHi, IHl. cbn [Crafting.speedMultiplier Crafting.set_current
        Job.progress Crafting.set_progress]. rewrite Hspeed.
      cbn [progressAfter]. repeat split.
    + by rewrite IHc.
    + exact Hp.
    + by rewrite IHl.
    + rewrite IHc. cbn [Crafting.speedMultiplier Crafting.set_current
        Job.progress Job.craftingTime Crafting.set_progress]. rewrite Hspeed.
      apply JsFacts.geb_false.
      pose proof (progressAfter_eq n (Job.progress job)) as Hn.
      rewrite Nat2Z.inj_succ in Hlt. unfold Z.succ in Hlt.
      rewrite inject_Z_plus in Hlt. change (inject_Z 1) with 1%Q in Hlt. lra.
Qed.

Lemma removeMaterial_enough (name : string) (amount q : Q) (inv : t) :
  materials inv !! name = Some q -> ~ (q == 0)%Q -> (amount <= q)%Q ->
  removeMaterial name amount inv
  = (true,
     set_materials (alter (fun q => q - amount)%Q name (materials inv)) inv,
     [inventory_updated]).
Proof.
  intros Hq Hnz Hle. unfold removeMaterial, bind, gets, modify, emit, ret.
  rewrite Hq. cbn [Js.truthy_opt Js.ltb_opt].
  assert (Js.truthy q = true) as ->.
  { unfold Js.truthy. apply negb_true_iff, not_true_is_false.
    intros H. by apply Qeq_bool_iff in H. }
  assert (Js.ltb q amount = false) as -> by (by apply JsFacts.ltb_false).
  reflexivity.
Qed.

(** Starting one batch of nails on an idle forge. *)
Lemma startCrafting_nail (w : World) (iron : Q) :
  Crafting.currentCraft (crafting w) = None ->
  itemsData w !! "nail" = Some nail ->
  ToolDurability.getMissingTools nail (inventory w) = [] ->
  materials (inventory w) !! "iron" = Some iron ->
  (0.2 <= iron)%Q ->
  (22 <= Coal.level (coal w))%Q ->
  let drawn :=
    CoalSystem.consumeCoal 2
      (set_inventory
         (set_materials
            (alter (fun q => q - 0.2 * 1)%Q "iron" (materials (inventory w)))
            (inventory w)) w) in
  CraftingSystem.startCrafting "nail" 1 None w
  = (true,
     set_crafting
       (Crafting.set_current
          (Some (CraftingSystem.newJob "nail" nail (10 * 1) None))
          (crafting w))
       (state_of drawn),
     [inventory_updated] ++ events_of drawn
     ++ [crafting_started (CraftingSystem.newJob "nail" nail (10 * 1) None)]).
Proof.
  intros Hidle Hitem Htools Hiron Hle Hcoal drawn.
  assert (Hhas : hasMaterials (requiredMaterials nail) (inventory w) = true).
  { unfold hasMaterials, lacks. cbn [requiredMaterials nail forallb fst snd].
    rewrite Hiron. cbn [Js.truthy_opt Js.ltb_opt].
    assert (Js.truthy iron = true) as ->.
    { unfold Js.truthy. apply negb_true_iff, not_true_is_false.
      intros H. apply Qeq_bool_iff in H. lra. }
    assert (Js.ltb iron 0.2 = false) as -> by (by apply JsFacts.ltb_false).
    reflexivity. }
  assert (Hhot : Coal.hasEnoughCoal 20 (coal w) = true).
  { apply JsFacts.geb_true. lra. }
  assert (Hrem : CraftingSystem.removeRequired (requiredMaterials nail) 1
                   (inventory w)
                 = (true,
                    set_materials
                      (alter (fun q => q - 0.2 * 1)%Q "iron"
                         (materials (inventory w))) (inventory w),
                    [inventory_updated])).
  { cbn [requiredMaterials nail CraftingSystem.removeRequired].
    unfold bind. rewrite (removeMaterial_enough "iron" (0.2 * 1) iron);
      [reflexivity|exact Hiron|lra|lra]. }
  destruct (consumeCoal_enough 2
              (set_inventory
                 (set_materials
                    (alter (fun q => q - 0.2 * 1)%Q "iron"
                       (materials (inventory w))) (inventory w)) w))
    as (_ & _ & _ & Hcraft & _).
  { cbn [coal set_inventory]. lra. }
  specialize (Hcraft Hidle). fold drawn in Hcraft.
  cbn [crafting set_inventory] in Hcraft.
  rewrite (run_eta (CraftingSystem.startCrafting "nail" 1 None w)).
  f_equal; [f_equal|];
    unfold CraftingSystem.startCrafting, inInventory; run_steps;
    rewrite Hitem; cbn [unlocked nail negb]; run_steps;
    rewrite Htools; cbn [length Nat.ltb Nat.leb]; run_steps;
    rewrite Hhas; cbn [negb]; run_steps;
    rewrite Hhot; cbn [negb]; run_steps;
    rewrite Hrem; run_steps; cbn [negb]; run_steps;
    change (Js.or_default (coalUsage nail) 5) with 2%Q;
    change (Js.or_default (batchSize nail) 1) with 10%Q;
    fold drawn; rewrite Hcraft, Hidle; run_steps; rewrite ?Hcraft.
  - reflexivity.
  - reflexivity.
  - cbn [app]. reflexivity.
Qed.

(** C3. On an idle forge (no current job, empty queue, speed multiplier 1,
    no automatic listing) that holds the nail recipe, the tools of its
    category, at least 0.2 iron and enough coal to stay at level 20 after
    the draw, [startCrafting('nail', 1)] returns true and makes the job
    current at once; it removes 0.2 iron and draws the recipe's coal cost
    of 2 once; the job is still current after each of the first nine
    calls of [update()], and the tenth call completes it and adds 10 nails
    to the inventory, with no further iron or coal taken. *)
Theorem C3_nail_batch_in_ten_ticks (w : World) (iron : Q) :
  Crafting.currentCraft (crafting w) = None ->
  Crafting.craftingQueue (crafting w) = [] ->
  Crafting.speedMultiplier (crafting w) = 1%Q ->
  Crafting.autoAddToStorefront (crafting w) = false ->
  itemsData w !! "nail" = Some nail ->
  ToolDurability.getMissingTools nail (inventory w) = [] ->
  materials (inventory w) !! "iron" = Some iron ->
  (0.2 <= iron)%Q ->
  (22 <= Coal.level (coal w))%Q ->
  let started := CraftingSystem.startCrafting "nail" 1 None w in
  let w1 := state_of started in
  let w10 := ticks 10 w1 in
  result started = true /\
  (exists job,
      Crafting.currentCraft (crafting w1) = Some job /\
      Job.itemId job = "nail" /\ Job.progress job = 0%Q /\
      Job.paused job = false) /\
  Crafting.craftingQueue (crafting w1) = [] /\
  (exists iron1,
      materials (inventory w1) !! "iron" = Some iron1 /\
      (iron1 == iron - 0.2)%Q) /\
  (Coal.level (coal w1) == Coal.level (coal w) - 2)%Q /\
  coalDrawn (events_of started) = [2%Q] /\
  (forall n, (n < 10)%nat ->
      is_Some (Crafting.currentCraft (crafting (ticks n w1))) /\
      items (inventory (ticks n w1)) = items (inventory w)) /\
  Crafting.currentCraft (crafting w10) = None /\
  (exists nails,
      items (inventory w10) !! "nail" = Some nails /\
      (nails == Js.or_default (items (inventory w) !! "nail") 0 + 10)%Q) /\
  materials (inventory w10) = materials (inventory w1) /\
  coal w10 = coal w1.
Proof.
  intros Hidle Hqueue Hspeed Hauto Hitem Htools Hiron Hle Hcoal
    started w1 w10.
  pose proof (startCrafting_nail w iron Hidle Hitem Htools Hiron Hle Hcoal)
    as Hstart. cbv zeta in Hstart.
  set (fed :=
         set_inventory
           (set_materials
              (alter (fun q => q - 0.2 * 1)%Q "iron" (materials (inventory w)))
              (inventory w)) w) in *.
  destruct (consumeCoal_enough 2 fed)
    as (_ & Hlevel & Hrest & Hcraft & Hdrawn).
  { cbn [coal fed set_inventory]. lra. }
  specialize (Hcraft Hidle).
  assert (Hinv : inventory (state_of (CoalSystem.consumeCoal 2 fed))
                 = inventory fed).
  { unfold besidesForge in Hrest. congruence. }
  set (job := CraftingSystem.newJob "nail" nail (10 * 1) None) in *.
  assert (Hw1 : w1 = set_crafting
                       (Crafting.set_current (Some job) (crafting w))
                       (state_of (CoalSystem.consumeCoal 2 fed))).
  { unfold w1, started. by rewrite Hstart. }
  assert (Hcur1 : Crafting.currentCraft (crafting w1) = Some job)
    by (by rewrite Hw1).
  assert (Hinv1 : inventory w1 = inventory fed) by (by rewrite Hw1).
  assert (Hcoal1 : Coal.level (coal w1) = (Coal.level (coal w) - 2)%Q)
    by (by rewrite Hw1).
  assert (Hspeed1 : Crafting.speedMultiplier (crafting w1) = 1%Q)
    by (by rewrite Hw1).
  assert (Hhot1 : Coal.hasEnoughCoal 20 (coal w1) = true).
  { apply JsFacts.geb_true. rewrite Hcoal1. lra. }
  assert (Hbefore : forall n, (n < 10)%nat ->
            crafting (ticks n w1)
            = Crafting.set_current
                (Some (Crafting.set_progress (progressAfter n 0) job))
                (crafting w1) /\
            inventory (ticks n w1) = inventory w1 /\
            coal (ticks n w1) = coal w1).
  { intros n Hn. apply (ticks_progress n w1 job Hcur1 Hspeed1 eq_refl Hhot1).
    cbn [Job.progress Job.craftingTime job CraftingSystem.newJob
         craftingTime nail].
    assert (inject_Z (Z.of_nat n) <= inject_Z 9)%Q.
    { rewrite <- Zle_Qle. lia. }
    change (inject_Z 9) with 9%Q in *. lra. }
  destruct (Hbefore 9%nat ltac:(lia)) as (Hc9 & Hi9 & Hl9).
  assert (Hlast : w10
            = set_crafting (Crafting.set_current None (crafting (ticks 9 w1)))
                (set_inventory
                   (state_of
                      (addItem "nail" (10 * 1)
                         (state_of
                            (ToolDurability.useToolsForItem nail
                               (inventory (ticks 9 w1))))))
                   (ticks 9 w1))).
  { unfold w10. cbn [ticks].
    apply (update_complete (ticks 9 w1)
             (Crafting.set_progress (progressAfter 9 0) job)).
    - by rewrite Hc9.
    - rewrite Hc9, Hw1. cbn. exact Hqueue.
    - rewrite Hc9, Hw1. cbn. exact Hauto.
    - reflexivity.
    - by rewrite Hl9.
    - rewrite Hc9. cbn [Crafting.speedMultiplier Crafting.set_current].
      rewrite Hspeed1. reflexivity.
    - reflexivity. }
  destruct (useToolsForItem_frame nail (inventory (ticks 9 w1)))
    as [Htm Hti].
  destruct (addItem_lookup "nail" (10 * 1)
              (state_of (ToolDurability.useToolsForItem nail
                           (inventory (ticks 9 w1)))))
    as [Ham Hai]; [reflexivity|].
  repeat split.
  - unfold started. by rewrite Hstart.
  - exists job. by rewrite Hcur1.
  - rewrite Hw1. cbn. exact Hqueue.
  - exists (iron - 0.2 * 1)%Q. split; [|lra].
    rewrite Hinv1. cbn [fed inventory set_inventory materials set_materials].
    by rewrite lookup_alter_eq, Hiron.
  - rewrite Hcoal1. reflexivity.
  - unfold started. rewrite Hstart. cbn [events_of snd].
    unfold coalDrawn in *. rewrite !omap_app, Hdrawn. reflexivity.
  - destruct (Hbefore n H) as (Hc & _ & _). by rewrite Hc.
  - destruct (Hbefore n H) as (_ & Hi & _). by rewrite Hi, Hinv1.
  - by rewrite Hlast.
  - eexists. split.
    + rewrite Hlast. cbn [inventory set_crafting set_inventory]. exact Hai.
    + rewrite Hti, Hi9, Hinv1. cbn [fed inventory set_inventory items set_materials].
      lra.
  - rewrite Hlast. cbn [inventory set_crafting set_inventory].
    by rewrite Ham, Htm, Hi9.
  - rewrite Hlast. cbn [coal set_crafting set_inventory]. exact Hl9.
Qed.

(** The starting game satisfies the conditions of C3. *)
Lemma C3_witness :
  let started := CraftingSystem.startCrafting "nail" 1 None (newGame catalog 0) in
  result started = true /\
  Crafting.currentCraft (crafting (ticks 10 (state_of started))) = None /\
  (exists nails,
      items (inventory (ticks 10 (state_of started))) !! "nail" = Some nails /\
      (nails == Js.or_default
                  (items (inventory (newGame catalog 0)) !! "nail") 0 + 10)%Q).
Proof.
  pose proof (C3_nail_batch_in_ten_ticks (newGame catalog 0) 50
                eq_refl eq_refl eq_refl eq_refl eq_refl eq_refl eq_refl
                ltac:(vm_compute; discriminate)
                ltac:(vm_compute; discriminate)) as H.
  cbv zeta in H. destruct H as (H1 & _ & _ & _ & _ & _ & _ & H2 & H3 & _).
  cbv zeta. exact (conj H1 (conj H2 H3)).
Defined.

End CraftingFacts.

(** ** The forge, tick by tick *)

Section CoalTick.
Import Inventory.

(** A forge at 25 with no coal in stock: ten ticks bring it to 20 with one
    [coal:low]; the eleventh brings it to 19.5 and warns no more. *)
Example forge_without_stock :
  let burn w := state_of (CoalSystem.update w) in
  let heard w := lowWarnings (events_of (CoalSystem.update w)) in
  let w0 :=
    set_inventory (set_materials ∅ initial)
      (set_coal {| Coal.level := 25; Coal.hasWarnedAboutLowCoal := false |}
         (newGame catalog 0)) in
  let w9 := Nat.iter 9 burn w0 in
  let w10 := burn w9 in
  heard w9 = [25 - 0.5 - 0.5 - 0.5 - 0.5 - 0.5 - 0.5 - 0.5 - 0.5 - 0.5 - 0.5]%Q /\
  (Coal.level (coal w10) == 20)%Q /\
  heard w10 = [] /\
  (Coal.level (coal (burn w10)) == 19.5)%Q.
Proof. vm_compute. repeat split. Qed.

(** C4, as stated, fails: with 25 coal in stock and the level falling from
    20.5 to the threshold, [update()] refills the forge and publishes
    [coal:low] all the same. *)
Lemma C4_low_event_despite_refill :
  let w := set_coal {| Coal.level := 20.5; Coal.hasWarnedAboutLowCoal := false |}
             (newGame catalog 0) in
  Js.geb_opt (materials (inventory w) !! "coal") Coal.coalPerRefill = true /\
  Coal.level (coal (state_of (CoalSystem.update w))) = 100%Q /\
  lowWarnings (events_of (CoalSystem.update w)) = [20.5 - 0.5]%Q.
Proof. vm_compute. repeat split. Qed.

(** The crafting listener of [coal:updated] leaves forge and stock alone
    and publishes no warning. *)
Lemma emit_coal_updated_frame (level : Q) (w : World) :
  coal (state_of (emit_coal_updated level w)) = coal w /\
  inventory (state_of (emit_coal_updated level w)) = inventory w /\
  lowWarnings (events_of (emit_coal_updated level w)) = [].
Proof.
  unfold emit_coal_updated, inCrafting, Crafting.onCoalUpdated,
    Crafting.pauseCrafting.
  run_steps.
  destruct (Js.leb level 0 && bool_decide (is_Some (Crafting.currentCraft (crafting w)))).
  - run_steps. by destruct (Crafting.currentCraft (crafting w)).
  - done.
Qed.

Lemma warnIfLow_run (w : World) :
  CoalSystem.warnIfLow w
  = if Js.leb (Coal.level (coal w)) Coal.lowThreshold
       && negb (Coal.hasWarnedAboutLowCoal (coal w))
    then (tt, set_coal (Coal.set_warned true (coal w)) w,
          [coal_low (Coal.level (coal w))])
    else (tt, w, []).
Proof.
  unfold CoalSystem.warnIfLow, bind, gets.
  by destruct (Js.leb (Coal.level (coal w)) Coal.lowThreshold
               && negb (Coal.hasWarnedAboutLowCoal (coal w))).
Qed.

(** A refill of a forge below 100 from a stock of at least
    [coalPerRefill]. *)
Lemma refill_enough (w : World) (q : Q) :
  materials (inventory w) !! "coal" = Some q ->
  (Coal.coalPerRefill <= q)%Q ->
  (Coal.level (coal w) < 100)%Q ->
  result (CoalSystem.refill w) = true /\
  coal (state_of (CoalSystem.refill w))
  = {| Coal.level := 100; Coal.hasWarnedAboutLowCoal := false |} /\
  inventory (state_of (CoalSystem.refill w))
  = set_materials
      (alter (fun q => q - Coal.coalPerRefill)%Q "coal" (materials (inventory w)))
      (inventory w) /\
  lowWarnings (events_of (CoalSystem.refill w)) = [].
Proof.
  intros Hq Hle Hlevel.
  assert (Hrem := removeMaterial_enough "coal" Coal.coalPerRefill q
                    (inventory w) Hq).
  unfold Coal.coalPerRefill in Hle. specialize (Hrem ltac:(lra) Hle).
  assert (Hfull : Js.geb (Coal.level (coal w)) 100 = false)
    by (by apply JsFacts.geb_false).
  assert (Hstock : Js.ltb_opt (materials (inventory w) !! "coal")
                     Coal.coalPerRefill = false).
  { rewrite Hq. by apply JsFacts.ltb_false. }
  unfold CoalSystem.refill, inInventory.
  repeat split; run_steps; rewrite Hstock; run_steps; rewrite Hfull;
    run_steps; rewrite Hrem; run_steps; cbn [negb]; run_steps.
  - reflexivity.
  - apply emit_coal_updated_frame.
  - match goal with
    | |- inventory (state_of (emit_coal_updated ?l ?w')) = _ =>
        destruct (emit_coal_updated_frame l w') as (_ & -> & _)
    end. reflexivity.
  - match goal with
    | |- context [emit_coal_updated ?l ?w'] =>
        destruct (emit_coal_updated_frame l w') as (_ & _ & He)
    end.
    unfold lowWarnings in *. rewrite !omap_app, He. reflexivity.
Qed.

(** The level and the state after the two assignments that open
    [update()]. *)
Lemma deplete_run (w : World) :
  let w1 :=
    set_coal
      (Coal.set_level (Coal.level (coal w) - Coal.depletionRate) (coal w)) w in
  let w2 :=
    if Js.ltb (Coal.level (coal w1)) 0
    then set_coal (Coal.set_level 0 (coal w1)) w1 else w1 in
  coal w2 = Coal.set_level (depleted (Coal.level (coal w))) (coal w) /\
  inventory w2 = inventory w.
Proof.
  cbn [coal set_coal Coal.level Coal.set_level]. unfold depleted.
  by destruct (Js.ltb (Coal.level (coal w) - Coal.depletionRate) 0).
Qed.

(** [update()] on a burning forge, as the sequence of its steps. *)
Lemma update_run (w : World) :
  (0 < Coal.level (coal w))%Q ->
  let w1 :=
    set_coal
      (Coal.set_level (Coal.level (coal w) - Coal.depletionRate) (coal w)) w in
  let w2 :=
    if Js.ltb (Coal.level (coal w1)) 0
    then set_coal (Coal.set_level 0 (coal w1)) w1 else w1 in
  let warned := CoalSystem.warnIfLow w2 in
  let w3 := state_of warned in
  let refilled :=
    (if Js.leb (Coal.level (coal w3)) Coal.lowThreshold
        && Js.geb_opt (materials (inventory w3) !! "coal") Coal.coalPerRefill
     then let* _ := CoalSystem.refill in ret tt
     else ret tt) w3 in
  let told :=
    emit_coal_updated (Coal.level (coal (state_of refilled)))
      (state_of refilled) in
  state_of (CoalSystem.update w) = state_of told /\
  events_of (CoalSystem.update w)
  = events_of warned ++ events_of refilled ++ events_of told.
Proof.
  intros Hpos w1 w2 warned w3 refilled told.
  assert (Hrun : Js.ltb 0 (Coal.level (coal w)) = true)
    by (by apply JsFacts.ltb_true).
  unfold CoalSystem.update.
  split; run_steps; rewrite Hrun; run_steps; fold w1; fold w2; fold warned;
    fold w3; fold refilled; fold told.
  - reflexivity.
  - reflexivity.
Qed.

(** C4, amended. When [update()] runs with a level above zero, the level
    is first depleted by the fixed rate and clamped at zero. If the
    depleted level is at or below the threshold, [coal:low] is published
    with it exactly when no warning is pending, whether or not a refill
    follows; and the forge then refills (level 100, warning flag cleared,
    [coalPerRefill] coal taken from the stock) exactly when the stock
    holds at least [coalPerRefill]. Without a refill the level stays
    depleted, the stock is untouched and the flag records the warning. *)
Theorem C4_update_depletes_warns_refills (w : World) :
  (0 < Coal.level (coal w))%Q ->
  let low := Js.leb (depleted (Coal.level (coal w))) Coal.lowThreshold in
  let stock := materials (inventory w) !! "coal" in
  let after := state_of (CoalSystem.update w) in
  lowWarnings (events_of (CoalSystem.update w))
  = (if low && negb (Coal.hasWarnedAboutLowCoal (coal w))
     then [depleted (Coal.level (coal w))] else []) /\
  (if low && Js.geb_opt stock Coal.coalPerRefill
   then
     Coal.level (coal after) = 100%Q /\
     Coal.hasWarnedAboutLowCoal (coal after) = false /\
     materials (inventory after) !! "coal"
     = (fun q => q - Coal.coalPerRefill)%Q <$> stock
   else
     Coal.level (coal after) = depleted (Coal.level (coal w)) /\
     Coal.hasWarnedAboutLowCoal (coal after)
     = Coal.hasWarnedAboutLowCoal (coal w) || low /\
     inventory after = inventory w).
Proof.
  intros Hpos low stock after.
  destruct (update_run w Hpos) as [Hstate Hevents]. cbv zeta in *.
  destruct (deplete_run w) as [Hc2 Hi2]. cbv zeta in *.
  unfold after. rewrite Hstate, Hevents. clear Hstate Hevents after.
  set (w2 := if Js.ltb _ 0 then _ else _) in *.
  set (warned := CoalSystem.warnIfLow w2).
  assert (Hwarned :
    coal (state_of warned)
    = (if low && negb (Coal.hasWarnedAboutLowCoal (coal w))
       then Coal.set_warned true
              (Coal.set_level (depleted (Coal.level (coal w))) (coal w))
       else Coal.set_level (depleted (Coal.level (coal w))) (coal w)) /\
    inventory (state_of warned) = inventory w /\
    events_of warned
    = (if low && negb (Coal.hasWarnedAboutLowCoal (coal w))
       then [coal_low (depleted (Coal.level (coal w)))] else [])).
  { unfold warned. rewrite warnIfLow_run, Hc2.
    cbn [Coal.level Coal.set_level Coal.hasWarnedAboutLowCoal]. fold low.
    by destruct (low && negb (Coal.hasWarnedAboutLowCoal (coal w))). }
  destruct Hwarned as (Hc3 & Hi3 & He3).
  assert (Hl3 : Coal.level (coal (state_of warned))
                = depleted (Coal.level (coal w))).
  { rewrite Hc3.
    by destruct (low && negb (Coal.hasWarnedAboutLowCoal (coal w))). }
  generalize dependent warned. intros warned Hc3 Hi3 He3 Hl3.
  set (w3 := state_of warned) in *.
  rewrite Hl3, Hi3. fold low. fold stock.
  set (refilled := (if low && Js.geb_opt stock Coal.coalPerRefill
                    then let* _ := CoalSystem.refill in ret tt
                    else ret tt) w3).
  destruct (emit_coal_updated_frame
              (Coal.level (coal (state_of refilled))) (state_of refilled))
    as (Hc5 & Hi5 & He5).
  rewrite Hc5, Hi5. unfold lowWarnings in *. rewrite !omap_app, He5, He3.
  clear Hc5 Hi5 He5.
  destruct (low && Js.geb_opt stock Coal.coalPerRefill) eqn:Hrefill.
  - apply andb_prop in Hrefill as [Hlow Hstock].
    unfold stock in Hstock.
    destruct (materials (inventory w) !! "coal") as [q|] eqn:Hq;
      [|discriminate].
    apply JsFacts.geb_true in Hstock.
    apply JsFacts.leb_true in Hlow. unfold Coal.lowThreshold in Hlow.
    destruct (refill_enough w3 q) as (_ & Hc4 & Hi4 & He4).
    { by rewrite Hi3. }
    { exact Hstock. }
    { rewrite Hl3. lra. }
    unfold refilled. run_steps. rewrite Hc4, Hi4, Hi3.
    unfold lowWarnings in He4. rewrite !omap_app, He4.
    cbn [Coal.level Coal.hasWarnedAboutLowCoal materials set_materials].
    repeat split.
    + by destruct (low && negb (Coal.hasWarnedAboutLowCoal (coal w))).
    + unfold stock. by rewrite lookup_alter_eq, Hq.
  - unfold refilled. cbn [ret state_of events_of fst snd].
    rewrite Hc3, Hi3.
    repeat split.
    + by destruct (low && negb (Coal.hasWarnedAboutLowCoal (coal w))).
    + by destruct (low && negb (Coal.hasWarnedAboutLowCoal (coal w))).
    + destruct low, (Coal.hasWarnedAboutLowCoal (coal w)) eqn:Hw;
        cbn [andb orb negb Coal.hasWarnedAboutLowCoal Coal.set_warned
             Coal.set_level]; rewrite ?Hw; reflexivity.
Qed.

(** A forge and a stock at which C4, amended, applies. *)
Lemma C4_witness :
  let w := set_coal {| Coal.level := 20.5; Coal.hasWarnedAboutLowCoal := false |}
             (newGame catalog 0) in
  lowWarnings (events_of (CoalSystem.update w))
  = [depleted (Coal.level (coal w))].
Proof.
  intros w.
  exact (proj1 (C4_update_depletes_warns_refills w
                  ltac:(vm_compute; reflexivity))).
Defined.

End CoalTick.

(** ** Cancelling a queued job *)

Section CancelQueued.
Import Inventory.

(** C5 fails on the code: a job queued for two horseshoes took 4 iron and
    2 coal from the stock, and [cancelQueuedCraft(0)] gives back 2 iron
    and 1 coal, the amounts of the recipe for one. *)
Lemma C5_refund_ignores_quantity :
  let w1 := state_of (CraftingSystem.startCrafting "nail" 1 None
                        (newGame catalog 0)) in
  let queued := CraftingSystem.startCrafting "horseshoe" 2 None w1 in
  let canceled := CraftingSystem.cancelQueuedCraft 0 (state_of queued) in
  result queued = true /\
  length (Crafting.craftingQueue (crafting (state_of queued))) = 1%nat /\
  result canceled = true /\
  Crafting.craftingQueue (crafting (state_of canceled)) = [] /\
  materials (inventory w1) !! "iron" = Some 49.8%Q /\
  materials (inventory (state_of queued)) !! "iron" = Some 45.8%Q /\
  materials (inventory (state_of canceled)) !! "iron" = Some 47.8%Q /\
  materials (inventory w1) !! "coal" = Some 25%Q /\
  materials (inventory (state_of queued)) !! "coal" = Some 23%Q /\
  materials (inventory (state_of canceled)) !! "coal" = Some 24%Q.
Proof. vm_compute. repeat split. Qed.

End CancelQueued.

Section CancelFrame.
Import Inventory.

Lemma addMaterial_tools (name : string) (amount : Q) (inv : t) :
  tools (state_of (addMaterial name amount inv)) = tools inv.
Proof.
  unfold addMaterial. destruct (Js.leb amount 0); [reflexivity|].
  run_steps. by destruct (negb _).
Qed.

(** The refund loop of [cancelQueuedCraft] touches the materials only. *)
Lemma refund_frame (required : list (string * Q)) (w : World) :
  let refunded :=
    state_of
      (for_each required (fun entry =>
         let* _ := inInventory (addMaterial entry.1 entry.2) in ret tt) w) in
  crafting refunded = crafting w /\
  coal refunded = coal w /\
  tools (inventory refunded) = tools (inventory w).
Proof.
  revert w. induction required as [|[name amount] rest IH]; intros w;
    [done|].
  cbn [for_each]. cbv zeta. rewrite state_of_bind.
  destruct (IH (state_of
                  ((let* _ := inInventory (addMaterial name amount) in ret tt) w)))
    as (Hc & Hl & Ht).
  cbn [fst snd] in *. rewrite Hc, Hl, Ht. unfold inInventory. run_steps.
  cbn [crafting coal inventory set_inventory].
  by rewrite addMaterial_tools.
Qed.

(** What holds of [cancelQueuedCraft] on a valid index: the job at the
    index leaves the queue, the other jobs and the current job stay, and
    neither the tools nor the forge are touched. *)
Lemma cancelQueuedCraft_frame (index : nat) (job : Job.t) (w : World) :
  Crafting.craftingQueue (crafting w) !! index = Some job ->
  let canceled := CraftingSystem.cancelQueuedCraft (Z.of_nat index) w in
  result canceled = true /\
  Crafting.craftingQueue (crafting (state_of canceled))
  = delete index (Crafting.craftingQueue (crafting w)) /\
  Crafting.currentCraft (crafting (state_of canceled))
  = Crafting.currentCraft (crafting w) /\
  tools (inventory (state_of canceled)) = tools (inventory w) /\
  coal (state_of canceled) = coal w.
Proof.
  intros Hjob canceled. unfold canceled, CraftingSystem.cancelQueuedCraft.
  pose proof (lookup_lt_Some _ _ _ Hjob) as Hlt.
  destruct (refund_frame (requiredMaterials (Job.itemData job)) w)
    as (Hc & Hl & Ht). cbv zeta in *.
  repeat split; run_steps;
    (assert ((Z.of_nat index <? 0)%Z
             || (Z.of_nat (length (Crafting.craftingQueue (crafting w)))
                 <=? Z.of_nat index)%Z = false) as ->
       by (apply orb_false_intro; [apply Z.ltb_ge|apply Z.leb_gt]; lia));
    rewrite Nat2Z.id, Hjob; run_steps;
    cbn [crafting coal inventory set_crafting Crafting.craftingQueue
         Crafting.currentCraft Crafting.set_queue];
    rewrite ?Hc, ?Hl, ?Ht; reflexivity.
Qed.

End CancelFrame.

(** ** Blueprints *)

Section BlueprintFacts.

Lemma checkForSpecialContracts_items (itemId : string) (w : World) :
  itemsData (state_of (ContractSystem.checkForSpecialContracts itemId w))
  = itemsData w.
Proof.
  unfold ContractSystem.checkForSpecialContracts.
  destruct (ContractSystem.specialItems !! itemId)
    as [[[[who howMany] multiplier] duration]|]; [|reflexivity].
  unfold ContractSystem.addSpecialContract. run_steps.
  cbn [Contract.item]. destruct (itemsData w !! itemId); run_steps; reflexivity.
Qed.

Lemma checkForSpecialContracts_frame (itemId : string) (w : World) :
  unlockedBlueprints
    (state_of (ContractSystem.checkForSpecialContracts itemId w))
  = unlockedBlueprints w.
Proof.
  unfold ContractSystem.checkForSpecialContracts.
  destruct (ContractSystem.specialItems !! itemId)
    as [[[[who howMany] multiplier] duration]|]; [|reflexivity].
  unfold ContractSystem.addSpecialContract. run_steps.
  cbn [Contract.item]. destruct (itemsData w !! itemId); run_steps; reflexivity.
Qed.

Lemma unlockBlueprint_known (itemId : string) (w : World) :
  BlueprintSystem.isUnlocked itemId w = true ->
  BlueprintSystem.unlockBlueprint itemId w = (false, w, []).
Proof.
  intros Hknown. unfold BlueprintSystem.unlockBlueprint, bind, gets.
  by rewrite Hknown.
Qed.

Lemma unlockBlueprint_unknown (itemId : string) (w : World) :
  BlueprintSystem.isUnlocked itemId w = false ->
  itemsData w !! itemId = None ->
  BlueprintSystem.unlockBlueprint itemId w = (false, w, []).
Proof.
  intros Hknown Hitem. unfold BlueprintSystem.unlockBlueprint, bind, gets.
  by rewrite Hknown, Hitem.
Qed.

(** A call that finds a locked item of the catalog unlocks it. *)
Lemma unlockBlueprint_unlocks (itemId : string) (w : World)
    (itemData : ItemData) :
  BlueprintSystem.isUnlocked itemId w = false ->
  itemsData w !! itemId = Some itemData ->
  result (BlueprintSystem.unlockBlueprint itemId w) = true /\
  BlueprintSystem.isUnlocked itemId
    (state_of (BlueprintSystem.unlockBlueprint itemId w)) = true /\
  itemsData (state_of (BlueprintSystem.unlockBlueprint itemId w)) !! itemId
  = Some (set_unlocked true itemData).
Proof.
  intros Hknown Hitem. unfold BlueprintSystem.unlockBlueprint.
  repeat split; run_steps; rewrite Hknown; run_steps; rewrite Hitem;
    run_steps.
  - reflexivity.
  - unfold BlueprintSystem.isUnlocked.
    rewrite checkForSpecialContracts_frame.
    cbn [unlockedBlueprints set_itemsData set_unlockedBlueprints].
    apply bool_decide_eq_true. set_solver.
  - rewrite checkForSpecialContracts_items.
    cbn [itemsData set_itemsData set_unlockedBlueprints].
    by rewrite lookup_alter_eq, Hitem.
Qed.

(** After any call of [unlockBlueprint], the same call returns false and
    does nothing. *)
Lemma unlockBlueprint_again (itemId : string) (w : World) :
  BlueprintSystem.unlockBlueprint itemId
    (state_of (BlueprintSystem.unlockBlueprint itemId w))
  = (false, state_of (BlueprintSystem.unlockBlueprint itemId w), []).
Proof.
  destruct (BlueprintSystem.isUnlocked itemId w) eqn:Hknown.
  - rewrite (unlockBlueprint_known itemId w Hknown). cbn [state_of fst snd].
    by apply unlockBlueprint_known.
  - destruct (itemsData w !! itemId) as [itemData|] eqn:Hitem.
    + apply unlockBlueprint_known.
      by destruct (unlockBlueprint_unlocks itemId w itemData) as (_ & ? & _).
    + rewrite (unlockBlueprint_unknown itemId w Hknown Hitem).
      cbn [state_of fst snd]. by apply unlockBlueprint_unknown.
Qed.

(** C7. For every item id and every state of the game, a second call of
    [unlockBlueprint] with the same id returns false, publishes nothing
    and leaves the whole game, the set of unlocked blueprints and the item
    data included, as the first call left it. *)
Theorem C7_unlockBlueprint_idempotent (itemId : string) (w : World) :
  let once := BlueprintSystem.unlockBlueprint itemId w in
  let twice := BlueprintSystem.unlockBlueprint itemId (state_of once) in
  result twice = false /\
  events_of twice = [] /\
  state_of twice = state_of once /\
  unlockedBlueprints (state_of twice) = unlockedBlueprints (state_of once) /\
  itemsData (state_of twice) = itemsData (state_of once).
Proof.
  intros once twice. unfold twice, once.
  rewrite unlockBlueprint_again. repeat split.
Qed.

End BlueprintFacts.

(** ** Contracts *)

Section ContractFacts.
Import Contract.

(** The events published by the loop that reports expired contracts. *)
Lemma report_expired (expiredContracts : list Contract.t) (c : Contract.t)
    (w : World) :
  c ∈ expiredContracts ->
  contract_expired c ∈
    events_of
      (for_each expiredContracts (fun contract =>
         emit (contract_expired contract) ;;
         emit (notification "warning"
                 [Str "Contract expired: "; Str (customer contract);
                  Str "'s order for "; Num (quantity contract); Str "x ";
                  Str (default "undefined" (itemName contract))])) w).
Proof.
  revert w. induction expiredContracts as [|c' rest IH]; intros w Hin.
  - by apply elem_of_nil in Hin.
  - cbn [for_each]. rewrite events_of_bind. apply elem_of_app.
    apply elem_of_cons in Hin as [->|Hin].
    + left. run_steps. cbn [app]. apply elem_of_cons. by left.
    + right. by apply IH.
Qed.

(** What [checkExpiredContracts()] leaves on the boards and publishes. *)
Lemma checkExpiredContracts_run (w : World) :
  Contracts.activeContracts
    (contracts (state_of (ContractSystem.checkExpiredContracts w)))
  = List.filter (fun c => negb (ContractSystem.expired (now w) c))
      (Contracts.activeContracts (contracts w)) /\
  Contracts.specialContracts
    (contracts (state_of (ContractSystem.checkExpiredContracts w)))
  = List.filter (fun c => negb (ContractSystem.expired (now w) c))
      (Contracts.specialContracts (contracts w)) /\
  (forall c,
     c ∈ (Contracts.activeContracts (contracts w)
          ++ Contracts.specialContracts (contracts w)) ->
     ContractSystem.expired (now w) c = true ->
     contract_expired c ∈ events_of (ContractSystem.checkExpiredContracts w)).
Proof.
  unfold ContractSystem.checkExpiredContracts. repeat split.
  - run_steps.
    rewrite for_each_state; [reflexivity|]. intros c s. by run_steps.
  - run_steps.
    rewrite for_each_state; [reflexivity|]. intros c s. by run_steps.
  - intros c Hin Hexp. run_steps. cbn [app].
    apply report_expired.
    apply elem_of_app in Hin as [Hin|Hin]; apply elem_of_app; [left|right];
      apply list_elem_of_In, filter_In; by rewrite <- list_elem_of_In.
Qed.

(** The timer and the generation of [update()] add at most one contract
    to the standard board and leave the clock and the special board. *)
Lemma before_check (generated : option Contract.t) (w : World) :
  let timed :=
    set_contracts
      (Contracts.set_timer (Contracts.contractTimer (contracts w) + 1)%Q
         (contracts w)) w in
  let prepared :=
    (if Js.geb (Contracts.contractTimer (contracts timed))
          Contracts.contractInterval
     then
       modify (fun w => set_contracts (Contracts.set_timer 0 (contracts w)) w) ;;
       ContractSystem.generateContract generated
     else ret tt) timed in
  now (state_of prepared) = now w /\
  Contracts.specialContracts (contracts (state_of prepared))
  = Contracts.specialContracts (contracts w) /\
  exists offered,
    Contracts.activeContracts (contracts (state_of prepared))
    = Contracts.activeContracts (contracts w) ++ offered.
Proof.
  cbv zeta.
  destruct (Js.geb _ Contracts.contractInterval).
  - unfold ContractSystem.generateContract. run_steps.
    cbn [contracts set_contracts Contracts.activeContracts
         Contracts.set_timer].
    destruct (Contracts.maxContracts <=? _)%nat.
    { repeat split. exists []. by rewrite app_nil_r. }
    destruct generated as [contract|].
    2:{ repeat split. exists []. by rewrite app_nil_r. }
    run_steps. cbn [itemsData set_contracts].
    destruct (itemsData w !! item contract) as [itemData|].
    2:{ repeat split. exists []. by rewrite app_nil_r. }
    run_steps. repeat split. by eexists.
  - repeat split. exists []. by rewrite app_nil_r.
Qed.

(** C8. Whatever the generation timer shows, however full the standard
    board is and whatever the generator offers, a call of [update()]
    removes from both boards every contract, standard or special, whose
    [expiryTime] is not later than the clock, publishes [contract:expired]
    for it, and keeps on the boards only contracts that expire later. *)
Theorem C8_expired_contracts_leave_the_board (generated : option Contract.t)
    (w : World) (c : Contract.t) :
  c ∈ (Contracts.activeContracts (contracts w)
       ++ Contracts.specialContracts (contracts w)) ->
  (expiryTime c <= now w)%Z ->
  let r := ContractSystem.update generated w in
  contract_expired c ∈ events_of r /\
  (c ∉ (Contracts.activeContracts (contracts (state_of r))
        ++ Contracts.specialContracts (contracts (state_of r)))) /\
  forall kept,
    kept ∈ (Contracts.activeContracts (contracts (state_of r))
            ++ Contracts.specialContracts (contracts (state_of r))) ->
    (now w < expiryTime kept)%Z.
Proof.
  intros Hin Hexp r.
  destruct (before_check generated w) as (Hnow & Hspecial & offered & Hactive).
  cbv zeta in *.
  match type of Hnow with
  | now (state_of ?p) = _ => set (prepared := p) in *
  end.
  destruct (checkExpiredContracts_run (state_of prepared))
    as (Ha & Hs & Hev).
  rewrite Hnow, Hactive in Ha. rewrite Hnow, Hspecial in Hs.
  rewrite Hnow in Hev.
  assert (Hstate : state_of r
            = state_of (ContractSystem.checkExpiredContracts
                          (state_of prepared))).
  { unfold r, ContractSystem.update. by run_steps. }
  assert (Hevents : exists before,
            events_of r
            = before ++ events_of (ContractSystem.checkExpiredContracts
                                     (state_of prepared))).
  { unfold r, ContractSystem.update. run_steps. fold prepared.
    cbn [app]. by eexists. }
  destruct Hevents as [before Hevents].
  assert (Hkept : forall kept,
            kept ∈ (Contracts.activeContracts (contracts (state_of r))
                    ++ Contracts.specialContracts (contracts (state_of r))) ->
            ContractSystem.expired (now w) kept = false).
  { intros kept Hk. rewrite Hstate, Ha, Hs in Hk.
    apply elem_of_app in Hk as [Hk|Hk];
      apply list_elem_of_In, filter_In in Hk as [_ Hk];
      by apply negb_true_iff in Hk. }
  assert (Hc : ContractSystem.expired (now w) c = true).
  { unfold ContractSystem.expired. by apply Z.leb_le. }
  repeat split.
  - rewrite Hevents. apply elem_of_app. right. apply Hev; [|exact Hc].
    rewrite Hactive, Hspecial.
    apply elem_of_app in Hin as [Hin|Hin]; rewrite !elem_of_app; auto.
  - intros Hk. apply Hkept in Hk. congruence.
  - intros kept Hk. apply Hkept in Hk.
    unfold ContractSystem.expired in Hk. by apply Z.leb_gt in Hk.
Qed.

(** A contract that expired an hour ago, on a board whose timer has just
    started. *)
Lemma C8_witness :
  let overdue :=
    {| id := [Str "mine_pickaxes_1"]; customer := "Silver Creek Mine";
       item := "pickaxe"; quantity := 3; expiryTime := 0;
       payoutMultiplier := Some 1.2%Q; payout := Some 54%Q;
       itemName := Some "Pickaxe"; timeCreated := None; isSpecial := false |} in
  let w := set_contracts (Contracts.set_active [overdue] Contracts.initial)
             (newGame catalog 3600000) in
  contract_expired overdue ∈ events_of (ContractSystem.update None w) /\
  overdue ∉ (Contracts.activeContracts
               (contracts (state_of (ContractSystem.update None w)))
             ++ Contracts.specialContracts
                  (contracts (state_of (ContractSystem.update None w)))).
Proof.
  intros overdue w.
  destruct (C8_expired_contracts_leave_the_board None w overdue)
    as (H1 & H2 & _).
  - apply elem_of_app. left. apply elem_of_cons. by left.
  - vm_compute. discriminate.
  - exact (conj H1 H2).
Defined.

End ContractFacts.

(** ** The storefront *)

Section StorefrontFacts.

(** A new listing is priced at the base price of the catalog. *)
Lemma addItemToStorefront_new (itemId : string) (quantity : Q) (w : World) :
  Storefront.storefrontItems (storefront w) !! itemId = None ->
  result (StorefrontSystem.addItemToStorefront itemId quantity w) = true ->
  Storefront.storefrontItems
    (storefront (state_of (StorefrontSystem.addItemToStorefront itemId quantity w)))
    !! itemId
  = Some {| Storefront.quantity := 0 + quantity;
            Storefront.price := StorefrontSystem.getItemBasePrice itemId w;
            Storefront.lastSold := None |}.
Proof.
  unfold StorefrontSystem.addItemToStorefront, inInventory.
  intros Hnew. run_steps.
  destruct (result (Inventory.removeItem itemId quantity (inventory w)));
    run_steps; [|discriminate].
  intros _. cbn [negb]. run_steps.
  cbn [storefront set_inventory set_storefront Storefront.storefrontItems
       Storefront.set_items].
  rewrite Hnew.
  cbn [storefront set_inventory set_storefront Storefront.storefrontItems
       Storefront.set_items].
  by rewrite lookup_alter_eq, lookup_insert_eq.
Qed.

(** A listing with a price other than zero sells at that price. *)
Lemma getItemPrice_listing (itemId : string) (w : World)
    (listing : Storefront.Listing) :
  Storefront.storefrontItems (storefront w) !! itemId = Some listing ->
  Js.truthy (Storefront.price listing) = true ->
  StorefrontSystem.getItemPrice itemId w = Storefront.price listing.
Proof.
  intros Hlisting Hprice. unfold StorefrontSystem.getItemPrice.
  by rewrite Hlisting, Hprice.
Qed.

Lemma setPriceModifier_listings (type : string) (value : Q) (target : string)
    (w : World) :
  Storefront.storefrontItems
    (storefront (state_of (StorefrontSystem.setPriceModifier type value target w)))
  = Storefront.storefrontItems (storefront w).
Proof.
  unfold StorefrontSystem.setPriceModifier.
  repeat (match goal with
          | |- context [if ?b then _ else _] => destruct b
          end; run_steps); reflexivity.
Qed.

(** C10. [addItemToStorefront] gives a listing it creates, for an item id
    that [Object.prototype] does not define, the base price of the
    catalog; [getItemPrice] returns the price of a listing whenever
    that price is not zero; so for a listed item with such a price no
    global, category or item modifier, however it is set, changes the
    price [getItemPrice] returns or the price at which [sellItem] sells,
    and only [setItemPrice] does. *)
Theorem C10_listing_price_overrides_modifiers :
  (forall itemId quantity w,
      Js.inherited itemId = false ->
      Storefront.storefrontItems (storefront w) !! itemId = None ->
      result (StorefrontSystem.addItemToStorefront itemId quantity w) = true ->
      Storefront.price <$>
        Storefront.storefrontItems
          (storefront
             (state_of (StorefrontSystem.addItemToStorefront itemId quantity w)))
          !! itemId
      = Some (StorefrontSystem.getItemBasePrice itemId w)) /\
  (forall itemId w listing,
      Storefront.storefrontItems (storefront w) !! itemId = Some listing ->
      Js.truthy (Storefront.price listing) = true ->
      StorefrontSystem.getItemPrice itemId w = Storefront.price listing /\
      (forall modifiers,
          StorefrontSystem.getItemPrice itemId
            (set_storefront
               (Storefront.set_modifiers modifiers (storefront w)) w)
          = Storefront.price listing) /\
      (forall type value target,
          StorefrontSystem.getItemPrice itemId
            (state_of (StorefrontSystem.setPriceModifier type value target w))
          = Storefront.price listing) /\
      (forall quantity,
          result (StorefrontSystem.sellItem itemId quantity w) = true ->
          item_sold itemId (Storefront.price listing * quantity) quantity
          ∈ events_of (StorefrontSystem.sellItem itemId quantity w)) /\
      (forall price,
          Js.truthy price = true ->
          StorefrontSystem.getItemPrice itemId
            (state_of (StorefrontSystem.setItemPrice itemId price w))
          = price)).
Proof.
  split.
  - intros itemId quantity w _ Hnew Hok.
    by rewrite (addItemToStorefront_new itemId quantity w Hnew Hok).
  - intros itemId w listing Hlisting Hprice. repeat split.
    + by apply getItemPrice_listing.
    + intros modifiers. by apply getItemPrice_listing.
    + intros type value target. apply getItemPrice_listing; [|exact Hprice].
      by rewrite setPriceModifier_listings.
    + intros quantity. unfold StorefrontSystem.sellItem, inInventory.
      run_steps. rewrite Hlisting.
      destruct (Js.ltb (Storefront.quantity listing) quantity); run_steps;
        [discriminate|].
      intros _. rewrite (getItemPrice_listing itemId w listing Hlisting Hprice).
      rewrite !elem_of_app, !elem_of_cons. auto 20.
    + intros price Hp. unfold StorefrontSystem.setItemPrice. run_steps.
      rewrite Hlisting. run_steps.
      apply getItemPrice_listing with (listing := Storefront.set_price price listing).
      * cbn [storefront set_storefront Storefront.storefrontItems
             Storefront.set_items]. by rewrite lookup_insert_eq.
      * exact Hp.
Qed.

(** Two horseshoes listed at the opening of the game keep their price of
    5 when every price is doubled. *)
Lemma C10_witness :
  let listed :=
    state_of (StorefrontSystem.addItemToStorefront "horseshoe" 2
                (newGame catalog 0)) in
  StorefrontSystem.getItemPrice "horseshoe"
    (state_of (StorefrontSystem.setPriceModifier "global" 2 "" listed))
  = 5%Q.
Proof.
  intros listed.
  destruct C10_listing_price_overrides_modifiers as [Hnew Hprice].
  specialize (Hnew "horseshoe" 2%Q (newGame catalog 0) eq_refl eq_refl
                eq_refl).
  fold listed in Hnew.
  destruct (Storefront.storefrontItems (storefront listed) !! "horseshoe")
    as [listing|] eqn:Hlisting; [|discriminate].
  assert (Hbase : Storefront.price listing = 5%Q).
  { cbn [fmap option_fmap option_map] in Hnew. by injection Hnew. }
  destruct (Hprice "horseshoe" listed listing Hlisting) as (_ & _ & H & _).
  - by rewrite Hbase.
  - rewrite H. exact Hbase.
Defined.

End StorefrontFacts.

(** ** The event emitter *)

Section EmitterFacts.
Import Emitter.
Context {A : Type} (run : nat -> list A -> t -> t * bool).

(** When no listener of the event changes the array being iterated,
    [forEach] calls the listeners from index [k] on, each once and in
    order, whether or not one throws. *)
Lemma forEach_stable (listeners : loc) (ls : list callback) (args : list A) :
  (forall c e, c ∈ ls -> array listeners e = ls ->
               array listeners (call run c args e).1 = ls) ->
  forall n k e,
    array listeners e = ls ->
    (k + n = length ls)%nat ->
    array listeners (forEach run n k listeners args e).1 = ls /\
    (forEach run n k listeners args e).2.*1 = drop k ls.
Proof.
  intros Hstable. induction n as [|n IH]; intros k e He Hlen.
  - cbn [forEach fst snd]. split; [exact He|].
    rewrite drop_ge; [reflexivity|lia].
  - cbn [forEach]. rewrite He.
    destruct (ls !! k) as [c|] eqn:Hk.
    + destruct (call run c args e) as [e1 threw] eqn:Hcall.
      assert (He1 : array listeners e1 = ls).
      { pose proof (Hstable c e) as H. rewrite Hcall in H. apply H; [|exact He].
        by apply list_elem_of_lookup_2 in Hk. }
      destruct (IH (S k) e1 He1 ltac:(lia)) as [IH1 IH2].
      destruct (forEach run n (S k) listeners args e1) as [e2 log].
      cbn [fst snd] in *. split; [exact IH1|].
      rewrite fmap_cons. cbn [fst]. rewrite IH2.
      symmetry. by apply drop_S.
    + apply lookup_ge_None in Hk. lia.
Qed.

(** [emit] among listeners that leave the array of the event alone: every
    registered listener is called, in registration order, before [emit]
    returns, a throwing listener included and passed over; and the value
    returned tells whether there was a listener. *)
Lemma emit_stable (eventName : string) (listeners : loc)
    (ls : list callback) (args : list A) (e : t) :
  events e !! eventName = Some listeners ->
  array listeners e = ls ->
  (forall c e, c ∈ ls -> array listeners e = ls ->
               array listeners (call run c args e).1 = ls) ->
  (emit run eventName args e).2.*1 = ls /\
  (emit run eventName args e).1.2 = (0 <? length ls)%nat.
Proof.
  intros Hevent He Hstable. unfold emit. rewrite Hevent.
  destruct (forEach_stable listeners ls args Hstable (length ls) 0 e He
              ltac:(lia)) as [H1 H2].
  rewrite He.
  destruct (forEach run (length ls) 0 listeners args e) as [e1 log].
  cbn [fst snd] in *. by rewrite H1, H2.
Qed.

End EmitterFacts.

Section EmitterDefect.
Import Emitter.

(** C2 fails on the code. A listener registered with [once] splices
    itself out of the array that [emit] is iterating, so the listener
    registered after it is never called; and when it was the only
    listener, [emit] calls it and then returns false. A listener that
    throws, by contrast, does not keep the later ones from being called. *)
Lemma C2_once_listener_hides_the_next :
  let first := once "tick" (Fn 0) empty in
  let both := (on "tick" (Fn 1) first.1).1 in
  listenerCount "tick" both = 2%nat /\
  (emit (A := unit) quiet "tick" [] both).2 = [(first.2, false)] /\
  listenerCount "tick" first.1 = 1%nat /\
  (emit (A := unit) quiet "tick" [] first.1).2 = [(first.2, false)] /\
  (emit (A := unit) quiet "tick" [] first.1).1.2 = false /\
  let three := (on "tick" (Fn 2) (on "tick" (Fn 1)
                 (on "tick" (Fn 0) empty).1).1).1 in
  (emit (A := unit) (throwing 1) "tick" [] three).2
  = [(Fn 0, false); (Fn 1, true); (Fn 2, false)] /\
  (emit (A := unit) (throwing 1) "tick" [] three).1.2 = true.
Proof. vm_compute. repeat split. Qed.

End EmitterDefect.

(** ** The accessors of the inventory *)

Section AccessorFacts.
Import Objects.

(** C9 fails on the code: a write to [uses] in the object returned by
    [getTools()] lands in the hammer of the inventory, which
    [repairTool] relies on. *)
Lemma C9_tool_records_are_shared :
  let got := getTools initialRefs initialStore in
  get (tools initialRefs) "hammer" initialStore = Some (VRef 3) /\
  get got.2 "hammer" got.1 = Some (VRef 3) /\
  get 3 "uses" initialStore = Some (VNum 25) /\
  get 3 "uses" (setUses got.2 "hammer" 30 got.1) = Some (VNum 30) /\
  ledger initialRefs (setUses got.2 "hammer" 30 got.1)
  <> ledger initialRefs initialStore /\
  get 3 "uses" (repairTool initialRefs "hammer" 3 initialStore).1
  = Some (VNum (Qmin (25 + 3) 30)).
Proof.
  repeat split; try (vm_compute; reflexivity).
  intros H.
  assert (Hget : forall s,
            (ledger initialRefs s).2 ≫= (fun ts => ts !! "hammer")
            = (ledger initialRefs s).2 ≫= (fun ts => ts !! "hammer"))
    by reflexivity.
  specialize (Hget initialStore). rewrite <- H in Hget at 1.
  vm_compute in Hget. discriminate Hget.
Qed.

Lemma mutate_other (c l : loc) (m : mutation) (s : store) :
  l <> c -> mutate c m s !! l = s !! l.
Proof.
  intros Hne. destruct m; cbn [mutate]; by rewrite lookup_alter_ne.
Qed.

Lemma mutateAll_other (c l : loc) (ms : list mutation) (s : store) :
  l <> c -> mutateAll c ms s !! l = s !! l.
Proof.
  intros Hne. unfold mutateAll. revert s.
  induction ms as [|m ms IH]; intros s; [reflexivity|].
  cbn [foldl]. rewrite IH. by apply mutate_other.
Qed.

(** A store that agrees with [s] on the objects of [s] shows the same
    inventory. *)
Lemma ledger_agree (inv : refs) (s s' : store) :
  closed inv s ->
  (forall l, l ∈ dom s -> s' !! l = s !! l) ->
  ledger inv s' = ledger inv s.
Proof.
  intros (Hm & Hi & Ht & Hrefs) Hagree. unfold ledger.
  rewrite (Hagree _ Hm), (Hagree _ Hi), (Hagree _ Ht). f_equal.
  destruct (s !! tools inv) as [o|] eqn:Ho; [|reflexivity].
  cbn [fmap option_fmap option_map]. f_equal.
  unfold toolRecords. apply map_fmap_ext. intros k v Hk.
  destruct v as [q|l]; [reflexivity|]. cbn [resolve].
  apply Hagree. by apply (Hrefs o k l).
Qed.

(** The object made by a spread is new, has the properties of the object
    spread, and can be changed at will without a change to the
    inventory. *)
Lemma spread_copy (inv : refs) (l : loc) (s : store) (ms : list mutation) :
  closed inv s ->
  l ∈ dom s ->
  ((spread l s).2 ∉ dom s) /\
  (spread l s).1 !! (spread l s).2 = s !! l /\
  ledger inv (spread l s).1 = ledger inv s /\
  ledger inv (mutateAll (spread l s).2 ms (spread l s).1) = ledger inv s.
Proof.
  intros Hclosed Hl. cbn [spread fst snd].
  assert (Hfresh : fresh (dom s) ∉ dom s) by apply is_fresh.
  repeat split.
  - exact Hfresh.
  - rewrite lookup_insert_eq. apply elem_of_dom in Hl as [o Ho].
    by rewrite Ho.
  - apply ledger_agree; [exact Hclosed|]. intros l' Hl'.
    apply lookup_insert_ne. intros <-. by apply Hfresh.
  - apply ledger_agree; [exact Hclosed|]. intros l' Hl'.
    assert (l' <> fresh (dom s)) by (intros ->; by apply Hfresh).
    rewrite mutateAll_other by assumption. by apply lookup_insert_ne.
Qed.

(** C9, amended. [getMaterials], [getItems] and [getTools] return a new
    object with the properties of the stored one: setting or deleting
    properties of the returned object, in any number, never changes the
    materials, items or tools of the inventory. The copy is one level
    deep: each property of the object returned by [getTools] is the very
    reference to the [{ uses, maxUses }] record that the inventory
    holds. *)
Theorem C9_accessors_copy_one_level (inv : refs) (s : store)
    (ms : list mutation) :
  closed inv s ->
  ledger inv (mutateAll (getMaterials inv s).2 ms (getMaterials inv s).1)
  = ledger inv s /\
  ledger inv (mutateAll (getItems inv s).2 ms (getItems inv s).1)
  = ledger inv s /\
  ledger inv (mutateAll (getTools inv s).2 ms (getTools inv s).1)
  = ledger inv s /\
  ((getMaterials inv s).2 ∉ dom s) /\
  ((getItems inv s).2 ∉ dom s) /\
  ((getTools inv s).2 ∉ dom s) /\
  forall toolName,
    get (getTools inv s).2 toolName (getTools inv s).1
    = get (tools inv) toolName s.
Proof.
  intros Hclosed. pose proof Hclosed as (Hm & Hi & Ht & _).
  unfold getMaterials, getItems, getTools.
  destruct (spread_copy inv (materials inv) s ms Hclosed Hm)
    as (Hm1 & _ & _ & Hm2).
  destruct (spread_copy inv (items inv) s ms Hclosed Hi)
    as (Hi1 & _ & _ & Hi2).
  destruct (spread_copy inv (tools inv) s ms Hclosed Ht)
    as (Ht1 & Ht3 & _ & Ht2).
  repeat split; try assumption.
  intros toolName. unfold get. by rewrite Ht3.
Qed.

Lemma initialStore_closed : closed initialRefs initialStore.
Proof.
  repeat split; try (vm_compute; reflexivity).
  intros o k l Ho Hk.
  assert (Ho' : o = <["hammer" := VRef 3]> (<["anvil" := VRef 4]>
                      (<["tongs" := VRef 5]> ∅))).
  { vm_compute in Ho. injection Ho as <-. reflexivity. }
  subst o.
  repeat (rewrite lookup_insert in Hk; case_decide;
          [injection Hk as <-; vm_compute; reflexivity|]).
  by rewrite lookup_empty in Hk.
Qed.

(** The starting inventory, with a caller that overwrites the iron of the
    materials it was given and drops the hammer from the tools it
    was given. *)
Lemma C9_witness :
  ledger initialRefs
    (mutateAll (getMaterials initialRefs initialStore).2
       [SetProp "iron" (VNum 0)]
       (getMaterials initialRefs initialStore).1)
  = ledger initialRefs initialStore /\
  ledger initialRefs
    (mutateAll (getTools initialRefs initialStore).2
       [DeleteProp "hammer"]
       (getTools initialRefs initialStore).1)
  = ledger initialRefs initialStore.
Proof.
  split.
  - exact (proj1 (C9_accessors_copy_one_level initialRefs initialStore
                    [SetProp "iron" (VNum 0)] initialStore_closed)).
  - exact (proj1 (proj2 (proj2
             (C9_accessors_copy_one_level initialRefs initialStore
                [DeleteProp "hammer"] initialStore_closed)))).
Defined.

End AccessorFacts.

(** ** Workers *)

(** Computations that keep the hired workers within a preorder. *)
Section Respects.
Context (R : relation (list (string * Worker.t))).
Hypothesis R_refl : forall ws, R ws ws.
Hypothesis R_trans : forall a b c, R a b -> R b c -> R a c.

Lemma respects_ret {A} (a : A) : respects R (ret a).
Proof. intros w. apply R_refl. Qed.

Lemma respects_gets {A} (f : World -> A) : respects R (gets f).
Proof. intros w. apply R_refl. Qed.

Lemma respects_emit (e : event) : respects R (emit e).
Proof. intros w. apply R_refl. Qed.

Lemma respects_modify (f : World -> World) :
  (forall w, workers (f w) = workers w) -> respects R (modify f).
Proof. intros Hf w. cbn. rewrite Hf. apply R_refl. Qed.

Lemma respects_bind {A B} (m : M event World A) (k : A -> M event World B) :
  respects R m -> (forall a, respects R (k a)) -> respects R (bind m k).
Proof.
  intros Hm Hk w. rewrite state_of_bind.
  eapply R_trans; [apply Hm|apply Hk].
Qed.

Lemma respects_inInventory {A} (m : M event Inventory.t A) :
  respects R (inInventory m).
Proof. intros w. unfold inInventory. rewrite state_of_zoom. apply R_refl. Qed.

Lemma respects_inCrafting {A} (m : M event Crafting.t A) :
  respects R (inCrafting m).
Proof. intros w. unfold inCrafting. rewrite state_of_zoom. apply R_refl. Qed.

Lemma respects_for_each {X} (xs : list X) (body : X -> M event World unit) :
  (forall x, respects R (body x)) -> respects R (for_each xs body).
Proof.
  intros Hbody. induction xs as [|x xs IH]; cbn [for_each].
  - apply respects_ret.
  - apply respects_bind; [apply Hbody|intros _; exact IH].
Qed.

End Respects.

Create HintDb frame.

(** Decompose a computation along its sequencing and its tests. *)
Ltac respects_steps :=
  repeat first
    [ solve [eauto with frame]
    | solve [apply respects_ret; eauto with frame]
    | solve [apply respects_gets; eauto with frame]
    | solve [apply respects_emit; eauto with frame]
    | solve [apply respects_inInventory; eauto with frame]
    | solve [apply respects_inCrafting; eauto with frame]
    | solve [apply respects_modify; eauto with frame; intros;
             repeat match goal with
                    | |- context [if ?b then _ else _] => destruct b
                    | |- context [match ?x with _ => _ end] => destruct x
                    end; reflexivity]
    | apply respects_bind; [solve [eauto with frame] | | intros ?]
    | match goal with
      | |- respects _ (if ?b then _ else _) => destruct b
      | |- respects _ (match ?x with _ => _ end) => destruct x
      end ].

Section WorkerFacts.
Context (R : relation (list (string * Worker.t))).
Hypothesis R_refl : forall ws, R ws ws.
Hypothesis R_trans : forall a b c, R a b -> R b c -> R a c.

Lemma respects_emit_coal_updated (level : Q) :
  respects R (emit_coal_updated level).
Proof. unfold emit_coal_updated. respects_steps. Qed.

Hint Resolve respects_emit_coal_updated : frame.

Lemma respects_refill : respects R CoalSystem.refill.
Proof. unfold CoalSystem.refill. respects_steps. Qed.

Lemma respects_consumeCoal (amount : Q) :
  respects R (CoalSystem.consumeCoal amount).
Proof.
  unfold CoalSystem.consumeCoal, CoalSystem.warnIfLow. respects_steps.
Qed.

Hint Resolve respects_consumeCoal : frame.

Lemma respects_startCrafting (itemId : string) (quantity : Q)
    (workerId : option string) :
  respects R (CraftingSystem.startCrafting itemId quantity workerId).
Proof. unfold CraftingSystem.startCrafting. respects_steps. Qed.

Lemma respects_updateHiringDiscounts :
  respects R WorkerSystem.updateHiringDiscounts.
Proof.
  unfold WorkerSystem.updateHiringDiscounts. respects_steps.
  apply respects_for_each; [assumption|assumption|]. intros entry.
  respects_steps.
Qed.

End WorkerFacts.

#[global] Hint Resolve respects_refill respects_startCrafting
  respects_updateHiringDiscounts : frame.

Section WorkerTick.
Import WorkerSystem.

Lemma findWorker_map (workerId other : string) (f : Worker.t -> Worker.t)
    (hired : list (string * Worker.t)) :
  findWorker other
    (map (fun entry =>
            if String.eqb entry.1 workerId then (entry.1, f entry.2)
            else entry) hired)
  = if String.eqb other workerId then f <$> findWorker other hired
    else findWorker other hired.
Proof.
  unfold findWorker. induction hired as [|[k x] rest IH]; cbn [map find].
  - by destruct (String.eqb other workerId).
  - cbn [fst snd]. destruct (String.eqb k workerId) eqn:Hk; cbn [fst snd].
    + apply String.eqb_eq in Hk as ->.
      destruct (String.eqb workerId other) eqn:Ho.
      * apply String.eqb_eq in Ho as ->. by rewrite String.eqb_refl.
      * exact IH.
    + destruct (String.eqb k other) eqn:Ho; [|exact IH].
      apply String.eqb_eq in Ho as ->. by rewrite Hk.
Qed.

Lemma keys_map (workerId : string) (f : Worker.t -> Worker.t)
    (hired : list (string * Worker.t)) :
  (map (fun entry =>
          if String.eqb entry.1 workerId then (entry.1, f entry.2)
          else entry) hired).*1
  = hired.*1.
Proof.
  induction hired as [|[k x] rest IH]; [reflexivity|].
  cbn [map fmap list_fmap fst snd] in *. rewrite IH.
  by destruct (String.eqb k workerId).
Qed.

Lemma sameBut_refl (workerId : string) (hired : list (string * Worker.t)) :
  sameBut workerId hired hired.
Proof. by split. Qed.

Lemma sameBut_trans (workerId : string)
    (a b c : list (string * Worker.t)) :
  sameBut workerId a b -> sameBut workerId b c -> sameBut workerId a c.
Proof.
  intros [Hk1 Hf1] [Hk2 Hf2]. split; [congruence|].
  intros other Hne. rewrite Hf2, Hf1; auto.
Qed.

Lemma respects_onWorker (workerId : string) (f : Worker.t -> Worker.t) :
  respects (sameBut workerId) (onWorker workerId f).
Proof.
  intros w. unfold onWorker. cbn [modify state_of fst snd workers set_workers].
  split; [apply keys_map|]. intros other Hne. rewrite findWorker_map.
  destruct (String.eqb other workerId) eqn:Ho; [|reflexivity].
  by apply String.eqb_eq in Ho.
Qed.

Hint Resolve sameBut_refl sameBut_trans respects_onWorker : frame.

(** A worker's tick changes no other worker and no id. *)
Lemma respects_updateWorker (workerId : string) :
  respects (sameBut workerId) (updateWorker workerId).
Proof.
  unfold updateWorker, recoverFatigue, setWorkerResting, handleCraftingTask,
    handleCoalTask, increaseFatigue.
  respects_steps.
Qed.

Lemma lookup_onWorker (workerId : string) (f : Worker.t -> Worker.t)
    (w : World) :
  lookupWorker workerId (state_of (onWorker workerId f w))
  = f <$> lookupWorker workerId w.
Proof.
  unfold lookupWorker, onWorker.
  cbn [modify state_of fst snd workers set_workers].
  by rewrite findWorker_map, String.eqb_refl.
Qed.

(** A computation that leaves the hired workers finds each of them as it
    was. *)
Lemma lookup_kept {A} (m : M event World A) (workerId : string) (w : World) :
  respects eq m ->
  lookupWorker workerId (state_of (m w)) = lookupWorker workerId w.
Proof. intros Hm. unfold lookupWorker. by rewrite <- (Hm w). Qed.

Hint Resolve eq_trans : frame.

(** What [increaseFatigue] does to the worker it is called for. *)
Lemma increaseFatigue_target (workerId : string) (worker : Worker.t)
    (w : World) :
  lookupWorker workerId w = Some worker ->
  exists tired,
    lookupWorker workerId (state_of (increaseFatigue workerId w)) = Some tired /\
    Worker.currentTask tired = Worker.currentTask worker /\
    Worker.fatigue tired = accrued worker (fatigueIncrease worker).
Proof.
  intros Hworker. unfold increaseFatigue. run_steps.
  rewrite !lookup_onWorker, Hworker.
  cbn [fmap option_fmap option_map].
  set (tired := if Js.ltb _ _ then _ else _).
  assert (Htired : Worker.currentTask tired = Worker.currentTask worker /\
                   Worker.fatigue tired = accrued worker (fatigueIncrease worker)).
  { unfold tired, accrued.
    cbn [Worker.fatigue Worker.set_fatigue Worker.workerType
         Worker.currentTask].
    by destruct (Js.ltb _ _). }
  destruct (Js.geb _ _ && negb _); run_steps.
  - rewrite !lookup_onWorker, Hworker. cbn [fmap option_fmap option_map].
    fold tired. eexists. split; [reflexivity|]. exact Htired.
  - rewrite !lookup_onWorker, Hworker. cbn [fmap option_fmap option_map].
    fold tired. eexists. split; [reflexivity|]. exact Htired.
Qed.

(** [handleCraftingTask] leaves the worker as it was or, when the item
    cannot be crafted, idle and without a task. *)
Lemma handleCraftingTask_target (workerId itemId : string)
    (worker : Worker.t) (w : World) :
  lookupWorker workerId w = Some worker ->
  lookupWorker workerId
    (state_of (handleCraftingTask workerId worker itemId w)) = Some worker \/
  lookupWorker workerId
    (state_of (handleCraftingTask workerId worker itemId w))
  = Some (Worker.set_status "idle" (Worker.set_task None worker)).
Proof.
  intros Hworker. unfold handleCraftingTask. run_steps.
  destruct (bool_decide _ || negb _); [by left|].
  run_steps.
  destruct (CraftingSystem.canCraft_ok (CraftingSystem.canCraft itemId w)).
  - left. run_steps.
    match goal with
    | |- lookupWorker _ (set_crafting ?c (state_of (?m ?w'))) = _ =>
        change (lookupWorker workerId (state_of (m w')) = Some worker);
        rewrite (lookup_kept m workerId w')
    end; [exact Hworker|].
    apply respects_startCrafting; eauto with frame.
  - right. run_steps. by rewrite !lookup_onWorker, Hworker.
Qed.

(** The tick of a worker who is at work and below the maximum. *)
Lemma updateWorker_target (workerId : string) (worker : Worker.t)
    (w : World) :
  lookupWorker workerId w = Some worker ->
  Worker.resting worker = false ->
  (Worker.fatigue worker < Worker.maxFatigue (Worker.workerType worker))%Q ->
  exists tired,
    lookupWorker workerId (state_of (updateWorker workerId w)) = Some tired /\
    match Worker.currentTask worker with
    | None => tired = worker
    | Some Worker.CoalTask =>
        Worker.currentTask tired = Some Worker.CoalTask /\
        Worker.fatigue tired = accrued worker 0.05
    | Some (Worker.CraftingTask itemId) =>
        (Worker.currentTask tired = Some (Worker.CraftingTask itemId) /\
         Worker.fatigue tired
         = accrued worker
             (0.2 * Worker.fatigueRate (Worker.workerType worker))) \/
        (Worker.currentTask tired = None /\
         Worker.fatigue tired = accrued worker 0.1)
    end.
Proof.
  intros Hworker Hawake Hfit. unfold updateWorker. run_steps.
  rewrite Hworker, Hawake.
  assert (Js.geb (Worker.fatigue worker)
            (Worker.maxFatigue (Worker.workerType worker)) = false) as ->
    by (by apply JsFacts.geb_false).
  destruct (Worker.currentTask worker) as [[itemId|]|] eqn:Htask.
  - run_steps.
    destruct (handleCraftingTask_target workerId itemId worker w Hworker)
      as [Hsame|Hidle].
    + destruct (increaseFatigue_target workerId worker _ Hsame)
        as (tired & Htired & Ht & Hf).
      exists tired. split; [exact Htired|]. left.
      rewrite Ht, Hf. unfold fatigueIncrease. by rewrite Htask.
    + destruct (increaseFatigue_target workerId _ _ Hidle)
        as (tired & Htired & Ht & Hf).
      exists tired. split; [exact Htired|]. right.
      rewrite Ht, Hf. split; reflexivity.
  - run_steps.
    assert (Hsame : lookupWorker workerId
                      (state_of (handleCoalTask workerId worker w))
                    = Some worker).
    { rewrite lookup_kept; [exact Hworker|].
      unfold handleCoalTask. respects_steps. }
    destruct (increaseFatigue_target workerId worker _ Hsame)
      as (tired & Htired & Ht & Hf).
    exists tired. split; [exact Htired|].
    rewrite Ht, Hf. unfold fatigueIncrease. by rewrite Htask.
  - exists worker. by run_steps.
Qed.

(** The ticks of other workers leave a worker as it was. *)
Lemma loop_others (hired : list (string * Worker.t)) (workerId : string)
    (w : World) :
  workerId ∉ hired.*1 ->
  lookupWorker workerId
    (state_of (for_each hired (fun entry => updateWorker entry.1) w))
  = lookupWorker workerId w.
Proof.
  revert w. induction hired as [|[k x] rest IH]; intros w Hnot;
    [reflexivity|].
  cbn [for_each]. rewrite state_of_bind. cbn [fst].
  rewrite fmap_cons in Hnot. cbn [fst] in Hnot.
  apply not_elem_of_cons in Hnot as [Hne Hnot].
  rewrite IH by exact Hnot.
  destruct (respects_updateWorker k w) as [_ Hfind].
  by apply Hfind.
Qed.

Lemma for_each_app {E S X} (xs ys : list X) (body : X -> M E S unit)
    (s : S) :
  state_of (for_each (xs ++ ys) body s)
  = state_of (for_each ys body (state_of (for_each xs body s))).
Proof.
  revert s. induction xs as [|x xs IH]; intros s; [reflexivity|].
  cbn [app for_each]. rewrite !state_of_bind. apply IH.
Qed.




End WorkerTick.

(** ** The inventory: items, money and tools *)

Section ItemFacts.
Import Inventory.

Lemma positive_initial : positive (items initial).
Proof.
  intros k q H. unfold initial in H. simpl in H.
  repeat (rewrite lookup_insert in H; case_decide;
          [injection H as <-; reflexivity|]).
  rewrite lookup_empty in H. discriminate.
Qed.

(** [addItem] leaves the other entries and the rest of the inventory
    alone. *)
Lemma addItem_others (itemName : string) (amount : Q) (inv : t) :
  let inv' := state_of (addItem itemName amount inv) in
  (forall other, other <> itemName -> items inv' !! other = items inv !! other) /\
  tools inv' = tools inv /\ money inv' = money inv.
Proof.
  unfold addItem. destruct (Js.leb amount 0); [done|].
  unfold bind, modify, emit, ret, state_of. cbn.
  split; [|by destruct (negb (Js.truthy_opt (items inv !! itemName)))].
  intros other Hne. rewrite lookup_alter_ne by congruence.
  destruct (negb (Js.truthy_opt (items inv !! itemName))); cbn; [|done].
  by rewrite lookup_insert_ne by congruence.
Qed.

(** A call of [removeItem] that removes. *)
Lemma removeItem_enough (itemName : string) (amount q : Q) (inv : t) :
  items inv !! itemName = Some q -> ~ (q == 0)%Q -> (amount <= q)%Q ->
  removeItem itemName amount inv
  = (true,
     set_items
       (if Qeq_bool (q - amount) 0 then delete itemName (items inv)
        else <[itemName := (q - amount)%Q]> (items inv)) inv,
     [inventory_updated]).
Proof.
  intros Hq Hnz Hle. unfold removeItem, bind, gets, modify, emit, ret.
  rewrite Hq. cbn [Js.truthy_opt Js.ltb_opt].
  assert (Js.truthy q = true) as ->.
  { unfold Js.truthy. apply negb_true_iff, not_true_is_false.
    intros H. by apply Qeq_bool_iff in H. }
  assert (Js.ltb q amount = false) as -> by (by apply JsFacts.ltb_false).
  cbn [negb orb items set_items]. rewrite lookup_alter_eq, Hq. cbn [fmap option_fmap option_map].
  destruct inv as [ms its ts mn]. cbn [items set_items materials tools money] in *.
  destruct (Qeq_bool (q - amount) 0); cbn [items set_items materials tools money app].
  - do 2 f_equal. unfold set_items. cbn. f_equal.
    apply map_eq. intros k. rewrite !lookup_delete, lookup_alter.
    by case_decide.
  - do 2 f_equal. unfold set_items. cbn. f_equal.
    apply map_eq. intros k. rewrite lookup_alter, lookup_insert.
    case_decide; [subst k; by rewrite Hq|done].
Qed.

(** A call of [removeItem] that refuses. *)
Lemma removeItem_false (itemName : string) (amount : Q) (inv : t) :
  result (removeItem itemName amount inv) = false ->
  removeItem itemName amount inv = (false, inv, []).
Proof.
  unfold removeItem, result, bind, gets. simpl.
  destruct (negb (Js.truthy_opt (items inv !! itemName))
            || Js.ltb_opt (items inv !! itemName) amount);
    simpl; [reflexivity|discriminate].
Qed.

(** The two outcomes of [removeItem]. *)
Lemma removeItem_cases (itemName : string) (amount : Q) (inv : t) :
  removeItem itemName amount inv = (false, inv, []) \/
  exists q, items inv !! itemName = Some q /\ ~ (q == 0)%Q /\ (amount <= q)%Q.
Proof.
  destruct (lacks (items inv) (itemName, amount)) eqn:Hl.
  - left. apply removeItem_false. unfold removeItem, result, bind, gets.
    unfold lacks in Hl. simpl in *. by rewrite Hl.
  - right. apply lacks_false in Hl as (q & Hq & Hle & Hnz). by exists q.
Qed.

(** The count that [addItem] starts from is the count held. *)
Lemma or_default_held (m : gmap string Q) (k : string) :
  (Js.or_default (m !! k) 0 == held m k)%Q.
Proof.
  unfold Js.or_default, held. destruct (m !! k) as [q|]; cbn; [|reflexivity].
  destruct (Js.truthy q) eqn:Hq; [reflexivity|].
  apply JsFacts.truthy_false in Hq. by rewrite Hq.
Qed.

(** X1. Starting from item counts that are all above zero, a call of
    addItem or of removeItem for an item name that Object.prototype does
    not define, whatever the amount, leaves item counts that are all
    above zero: removeItem deletes the entry that it brings to zero, and
    refuses to take more than is there. *)
Theorem X1_item_counts_stay_positive (inv : t) (itemName : string)
    (amount : Q) :
  Js.inherited itemName = false ->
  positive (items inv) ->
  positive (items (state_of (addItem itemName amount inv))) /\
  positive (items (state_of (removeItem itemName amount inv))).
Proof.
  intros _ Hpos. split.
  - destruct (Js.leb amount 0) eqn:Ha.
    { unfold addItem. by rewrite Ha. }
    apply JsFacts.leb_false in Ha.
    destruct (addItem_lookup itemName amount inv Ha) as [_ Hk].
    destruct (addItem_others itemName amount inv) as (Hother & _).
    intros k q Hq. destruct (decide (k = itemName)) as [->|Hne].
    + rewrite Hk in Hq. injection Hq as <-.
      pose proof (or_default_held (items inv) itemName) as Hheld.
      assert (0 <= held (items inv) itemName)%Q; [|lra].
      unfold held. destruct (items inv !! itemName) as [q0|] eqn:Hq0; cbn;
        [apply Qlt_le_weak; by apply (Hpos itemName)|lra].
    + rewrite Hother in Hq by done. by apply (Hpos k).
  - destruct (removeItem_cases itemName amount inv) as [->|(q & Hq & Hnz & Hle)];
      [exact Hpos|].
    rewrite (removeItem_enough _ _ _ _ Hq Hnz Hle).
    cbn [state_of fst snd items set_items].
    pose proof (Hpos _ _ Hq) as Hq0.
    intros k q' Hk. destruct (Qeq_bool (q - amount) 0) eqn:Hz.
    + apply lookup_delete_Some in Hk as [_ Hk]. by apply (Hpos k).
    + apply lookup_insert_Some in Hk as [[_ <-]|[_ Hk]]; [|by apply (Hpos k)].
      apply Qeq_bool_neq in Hz. lra.
Qed.

Lemma X1_witness :
  positive (items (state_of (addItem "horseshoe" 2 initial))) /\
  positive (items (state_of (removeItem "horseshoe" 2 initial))).
Proof.
  apply X1_item_counts_stay_positive; [reflexivity|apply positive_initial].
Defined.

(** X2. After addItem has added an amount above zero, under an item name
    that Object.prototype does not define, to counts none of which is
    negative, removeItem of the same amount succeeds and every item is
    held in the quantity it was held in before; materials, tools and
    money are as before. *)
Theorem X2_removeItem_undoes_addItem (inv : t) (itemName : string)
    (amount : Q) :
  Js.inherited itemName = false ->
  (0 < amount)%Q ->
  nonneg (items inv) ->
  let added := state_of (addItem itemName amount inv) in
  let back := state_of (removeItem itemName amount added) in
  result (removeItem itemName amount added) = true /\
  (forall k, (held (items back) k == held (items inv) k)%Q) /\
  materials back = materials inv /\ tools back = tools inv /\
  money back = money inv.
Proof.
  intros _ Ha Hnn added back.
  destruct (addItem_lookup itemName amount inv Ha) as [Hm Hk].
  destruct (addItem_others itemName amount inv) as (Hother & Ht & Hmn).
  fold added in Hm, Hk, Hother, Ht, Hmn.
  pose proof (or_default_held (items inv) itemName) as Hheld.
  assert (Hh0 : (0 <= held (items inv) itemName)%Q).
  { unfold held. destruct (items inv !! itemName) as [q0|] eqn:Hq0; cbn;
      [by apply (Hnn itemName)|lra]. }
  set (c := (Js.or_default (items inv !! itemName) 0 + amount)%Q) in *.
  assert (Hrun := removeItem_enough itemName amount c added Hk).
  unfold back. rewrite Hrun by (unfold c; lra).
  cbn [result state_of fst snd items set_items materials tools money].
  repeat split; try done.
  intros k. unfold held at 1. destruct (decide (k = itemName)) as [->|Hne].
  - destruct (Qeq_bool (c - amount) 0) eqn:Hz.
    + rewrite lookup_delete_eq. cbn. apply Qeq_bool_iff in Hz.
      unfold c in Hz. lra.
    + rewrite lookup_insert_eq. cbn. unfold c. lra.
  - destruct (Qeq_bool (c - amount) 0).
    + rewrite lookup_delete_ne by done. unfold held. by rewrite Hother.
    + rewrite lookup_insert_ne by done. unfold held. by rewrite Hother.
Qed.

Lemma X2_witness :
  result (removeItem "nail" 10 (state_of (addItem "nail" 10 initial))) = true.
Proof.
  apply (X2_removeItem_undoes_addItem initial "nail" 10);
    [reflexivity|reflexivity|].
  intros k q Hq. apply Qlt_le_weak. by apply (positive_initial k).
Defined.

End ItemFacts.

Section MoneyFacts.
Import Inventory.

(** X3. With a balance that is not negative, addMoney and removeMoney
    leave a balance that is not negative. removeMoney answers true exactly
    for an amount above zero that the balance covers; it then takes the
    amount and publishes the new balance, and otherwise it changes
    nothing and publishes nothing. *)
Theorem X3_balance_never_negative (inv : t) (amount : Q) :
  (0 <= money inv)%Q ->
  (0 <= money (state_of (addMoney amount inv)))%Q /\
  (0 <= money (state_of (removeMoney amount inv)))%Q /\
  (result (removeMoney amount inv) = true
   <-> (0 < amount)%Q /\ (amount <= money inv)%Q) /\
  (result (removeMoney amount inv) = true ->
   removeMoney amount inv
   = (true, set_money (money inv - amount)%Q inv,
      [money_updated (money inv - amount)%Q])) /\
  (result (removeMoney amount inv) = false ->
   removeMoney amount inv = (false, inv, [])).
Proof.
  intros Hm. unfold addMoney, removeMoney, bind, gets, modify, emit, ret,
    result, state_of.
  cbn [fst snd money set_money app].
  destruct (Js.leb amount 0) eqn:Ha; cbn [orb fst snd money set_money app].
  - apply JsFacts.leb_true in Ha.
    repeat split; try done; try lra; intros [? ?]; lra.
  - apply JsFacts.leb_false in Ha.
    destruct (Js.ltb (money inv) amount) eqn:Hb;
      cbn [fst snd money set_money app].
    + apply JsFacts.ltb_true in Hb.
      repeat split; try done; try lra; intros [? ?]; lra.
    + apply JsFacts.ltb_false in Hb. repeat split; try done; lra.
Qed.

Lemma X3_witness :
  (0 <= money (state_of (removeMoney 40 initial)))%Q /\
  removeMoney 250 initial = (false, initial, []).
Proof.
  destruct (X3_balance_never_negative initial 40) as (_ & H & _);
    [discriminate|].
  destruct (X3_balance_never_negative initial 250) as (_ & _ & _ & _ & H');
    [discriminate|].
  split; [exact H|]. apply H'. reflexivity.
Defined.

End MoneyFacts.

Section ToolFacts.
Import Inventory.








End ToolFacts.

Section PurchaseFacts.
Import Inventory.

(** What [addMaterial] does to each entry and to the rest of the
    inventory. *)
Lemma addMaterial_effect (name : string) (amount : Q) (inv : t) :
  let inv' := state_of (addMaterial name amount inv) in
  ((0 < amount)%Q ->
   (held (materials inv') name == held (materials inv) name + amount)%Q) /\
  ((amount <= 0)%Q -> inv' = inv) /\
  (forall other, other <> name ->
     materials inv' !! other = materials inv !! other) /\
  items inv' = items inv /\ tools inv' = tools inv /\ money inv' = money inv.
Proof.
  unfold addMaterial. destruct (Js.leb amount 0) eqn:Ha.
  - apply JsFacts.leb_true in Ha. cbn. split; [intros; lra|done].
  - apply JsFacts.leb_false in Ha.
    unfold bind, modify, emit, ret, state_of.
    cbn [fst snd materials set_materials items tools money].
    split; [intros _|split; [intros; lra|]].
    + unfold held. rewrite lookup_alter_eq.
      destruct (materials inv !! name) as [q|] eqn:Hq; cbn.
      * destruct (Js.truthy q) eqn:Hz; cbn.
        -- rewrite Hq. cbn. reflexivity.
        -- rewrite lookup_insert_eq. cbn.
           apply JsFacts.truthy_false in Hz. lra.
      * rewrite lookup_insert_eq. cbn. reflexivity.
    + split; [|by destruct (negb (Js.truthy_opt (materials inv !! name)))].
      intros other Hne. rewrite lookup_alter_ne by congruence.
      destruct (negb (Js.truthy_opt (materials inv !! name))); cbn; [|done].
      by rewrite lookup_insert_ne by congruence.
Qed.

(** The loop that delivers the materials of a purchase. *)
Lemma deliver_effect (purchased : list (string * Q)) (inv : t) :
  NoDup purchased.*1 ->
  let inv' :=
    state_of
      (for_each purchased (fun entry =>
         let* _ := addMaterial entry.1 entry.2 in ret tt) inv) in
  (forall name amount, (name, amount) ∈ purchased -> (0 < amount)%Q ->
     (held (materials inv') name == held (materials inv) name + amount)%Q) /\
  (forall name amount, (name, amount) ∈ purchased -> (amount <= 0)%Q ->
     materials inv' !! name = materials inv !! name) /\
  (forall name, name ∉ purchased.*1 ->
     materials inv' !! name = materials inv !! name) /\
  items inv' = items inv /\ tools inv' = tools inv /\ money inv' = money inv.
Proof.
  revert inv. induction purchased as [|[k a] rest IH]; intros inv Hnd.
  { cbn. repeat split; try done; intros name amount H;
      by apply elem_of_nil in H. }
  rewrite fmap_cons in Hnd. cbn [fst] in Hnd.
  apply NoDup_cons in Hnd as [Hk Hnd]. cbn [for_each fst snd]. cbv zeta.
  rewrite state_of_bind. cbn [ret result fst snd].
  set (inv1 := state_of ((let* _ := addMaterial k a in ret tt) inv)).
  assert (Hinv1 : inv1 = state_of (addMaterial k a inv)).
  { unfold inv1. rewrite state_of_bind. reflexivity. }
  destruct (addMaterial_effect k a inv) as (Hadd & Hskip & Hoth & Hi & Ht & Hmn).
  cbv zeta in Hadd, Hskip, Hoth, Hi, Ht, Hmn. rewrite <- Hinv1 in *.
  destruct (IH inv1 Hnd) as (IHadd & IHskip & IHoth & IHi & IHt & IHmn).
  cbv zeta in IHadd, IHskip, IHoth, IHi, IHt, IHmn.
  assert (Hrest : forall name amount, (name, amount) ∈ rest -> name <> k).
  { intros name amount Hin ->. apply Hk. apply list_elem_of_fmap.
    by exists (k, amount). }
  split; [|split; [|split]].
  - intros name amount Hin Hpos. apply elem_of_cons in Hin as [Heq|Hin].
    + injection Heq as -> ->.
      transitivity (held (materials inv1) k); [|by apply Hadd].
      unfold held. by rewrite (IHoth k Hk).
    + etransitivity; [by apply (IHadd name amount)|]. unfold held.
      rewrite Hoth by (by apply (Hrest name amount)). reflexivity.
  - intros name amount Hin Hle. apply elem_of_cons in Hin as [Heq|Hin].
    + injection Heq as -> ->.
      etransitivity; [by apply IHoth|]. by rewrite (Hskip Hle).
    + etransitivity; [by apply (IHskip name amount)|].
      apply Hoth. by apply (Hrest name amount).
  - intros name Hname. cbn in Hname.
    apply not_elem_of_cons in Hname as [Hne Hname].
    etransitivity; [by apply IHoth|]. by apply Hoth.
  - split; [congruence|]. split; congruence.
Qed.

(** X5. For a purchase of materials whose names Object.prototype does not
    define, the listener of purchase:materials either refuses the
    purchase, when the cost is not above zero or exceeds the balance, and
    then changes nothing; or it takes exactly the cost and adds each
    amount above zero to its material. An amount that is not above zero
    is paid for and not delivered. Items and tools are left alone. *)
Theorem X5_purchase_is_paid_or_refused (inv : t)
    (purchased : list (string * Q)) (cost : Q) :
  NoDup purchased.*1 ->
  Forall (fun entry => Js.inherited entry.1 = false) purchased ->
  let run := onPurchaseMaterials purchased cost inv in
  ((cost <= 0)%Q \/ (money inv < cost)%Q ->
   state_of run = inv /\
   events_of run
   = [notification "error" [Str "Not enough money to purchase materials."]]) /\
  ((0 < cost)%Q /\ (cost <= money inv)%Q ->
   money (state_of run) = (money inv - cost)%Q /\
   (forall name amount, (name, amount) ∈ purchased -> (0 < amount)%Q ->
      (held (materials (state_of run)) name
       == held (materials inv) name + amount)%Q) /\
   (forall name amount, (name, amount) ∈ purchased -> (amount <= 0)%Q ->
      materials (state_of run) !! name = materials inv !! name) /\
   (forall name, name ∉ purchased.*1 ->
      materials (state_of run) !! name = materials inv !! name) /\
   items (state_of run) = items inv /\ tools (state_of run) = tools inv).
Proof.
  intros Hnd _ run. unfold run, onPurchaseMaterials. split.
  - intros Hbad.
    assert (Hpay : removeMoney cost inv = (false, inv, [])).
    { unfold removeMoney, bind, gets. cbn.
      destruct (Js.leb cost 0) eqn:Ha; [done|].
      destruct (Js.ltb (money inv) cost) eqn:Hb; [done|].
      apply JsFacts.leb_false in Ha. apply JsFacts.ltb_false in Hb. lra. }
    rewrite state_of_bind, events_of_bind, Hpay. done.
  - intros [Hpos Hle].
    assert (Hpay : removeMoney cost inv
                   = (true, set_money (money inv - cost)%Q inv,
                      [money_updated (money inv - cost)%Q])).
    { unfold removeMoney, bind, gets, modify, emit, ret. cbn.
      assert (Js.leb cost 0 = false) as -> by (by apply JsFacts.leb_false).
      assert (Js.ltb (money inv) cost = false) as ->
        by (by apply JsFacts.ltb_false).
      done. }
    rewrite state_of_bind, Hpay.
    cbn [result state_of fst snd negb]. rewrite state_of_bind.
    destruct (deliver_effect purchased
                (set_money (money inv - cost)%Q inv) Hnd)
      as (Hadd & Hskip & Hoth & Hi & Ht & Hmn).
    cbv zeta in Hadd, Hskip, Hoth, Hi, Ht, Hmn.
    rewrite state_of_bind. cbn [emit ret result state_of fst snd].
    rewrite Hmn, Hi, Ht. done.
Qed.

Lemma X5_witness :
  money (state_of (onPurchaseMaterials [("iron", 10%Q); ("wood", 5%Q)] 30 initial))
  = (100 - 30)%Q.
Proof.
  apply (X5_purchase_is_paid_or_refused initial
           [("iron", 10%Q); ("wood", 5%Q)] 30).
  - apply NoDup_cons. split.
    + intros H. apply list_elem_of_singleton in H. discriminate H.
    + apply NoDup_singleton.
  - by repeat constructor.
  - split; [reflexivity|discriminate].
Defined.

End PurchaseFacts.

(** ** The forge: refills and the range of the level *)

Section ForgeFacts.
Import Inventory.

Lemma set_inventory_same (w : World) : set_inventory (inventory w) w = w.
Proof. by destruct w. Qed.

(** The crafting listener of [coal:updated] acts on a forge that has gone
    out only. *)
Lemma emit_coal_updated_lit (level : Q) (w : World) :
  (0 < level)%Q ->
  emit_coal_updated level w = (tt, w, [coal_updated level]).
Proof.
  intros Hlit. unfold emit_coal_updated, inCrafting, zoom,
    Crafting.onCoalUpdated, bind, gets, emit, ret.
  assert (Js.leb level 0 = false) as -> by (by apply JsFacts.leb_false).
  cbn. by destruct w.
Qed.

(** The two outcomes of [removeMaterial]. *)
Lemma removeMaterial_cases (name : string) (amount : Q) (inv : t) :
  removeMaterial name amount inv = (false, inv, []) \/
  exists q, materials inv !! name = Some q /\ ~ (q == 0)%Q /\ (amount <= q)%Q.
Proof.
  destruct (lacks (materials inv) (name, amount)) eqn:Hl.
  - left. apply removeMaterial_false. unfold removeMaterial, result, bind, gets.
    unfold lacks in Hl. simpl in *. by rewrite Hl.
  - right. apply lacks_false in Hl as (q & Hq & Hle & Hnz). by exists q.
Qed.

(** The two outcomes of [refill()]. *)
Lemma refill_cases (w : World) :
  (result (CoalSystem.refill w) = false /\ state_of (CoalSystem.refill w) = w) \/
  (result (CoalSystem.refill w) = true /\
   exists q,
     materials (inventory w) !! "coal" = Some q /\
     (Coal.coalPerRefill <= q)%Q /\ (Coal.level (coal w) < 100)%Q /\
     state_of (CoalSystem.refill w)
     = set_coal {| Coal.level := 100; Coal.hasWarnedAboutLowCoal := false |}
         (set_inventory
            (set_materials
               (alter (fun q => q - Coal.coalPerRefill)%Q "coal"
                  (materials (inventory w)))
               (inventory w)) w)).
Proof.
  unfold CoalSystem.refill. run_steps.
  destruct (Js.ltb_opt (materials (inventory w) !! "coal") Coal.coalPerRefill)
    eqn:Hstock; run_steps; [by left|].
  destruct (Js.geb (Coal.level (coal w)) 100) eqn:Hfull; run_steps;
    [by left|].
  apply JsFacts.geb_false in Hfull.
  unfold inInventory. run_steps.
  destruct (removeMaterial_cases "coal" Coal.coalPerRefill (inventory w))
    as [Hno|(q & Hq & Hnz & Hle)].
  - left. rewrite Hno. run_steps. cbn [negb]. run_steps.
    split; [reflexivity|apply set_inventory_same].
  - right. rewrite (removeMaterial_enough _ _ _ _ Hq Hnz Hle). run_steps.
    cbn [negb]. run_steps.
    cbn [coal set_coal Coal.level Coal.set_level Coal.set_warned].
    rewrite emit_coal_updated_lit by reflexivity.
    split; [reflexivity|]. by exists q.
Qed.

(** X6. refill() answers true exactly when the stock holds at least
    coalPerRefill coal and the forge is below 100. It then takes exactly
    coalPerRefill from the stock, sets the level to 100 and clears the
    warning flag, and changes nothing else in the game; otherwise it
    changes nothing at all. *)
Theorem X6_refill_all_or_nothing (w : World) :
  (result (CoalSystem.refill w) = true <->
   (exists q, materials (inventory w) !! "coal" = Some q /\
              (Coal.coalPerRefill <= q)%Q) /\
   (Coal.level (coal w) < 100)%Q) /\
  (result (CoalSystem.refill w) = false -> state_of (CoalSystem.refill w) = w) /\
  (result (CoalSystem.refill w) = true ->
   state_of (CoalSystem.refill w)
   = set_coal {| Coal.level := 100; Coal.hasWarnedAboutLowCoal := false |}
       (set_inventory
          (set_materials
             (alter (fun q => q - Coal.coalPerRefill)%Q "coal"
                (materials (inventory w)))
             (inventory w)) w)).
Proof.
  destruct (refill_cases w) as [[Hr Hs]|(Hr & q & Hq & Hle & Hlvl & Hs)].
  - split; [|split; [done|congruence]].
    split; [congruence|]. intros [(q & Hq & Hle) Hlvl].
    destruct (refill_enough w q Hq Hle Hlvl) as [Hyes _]. congruence.
  - split; [|split; [congruence|done]].
    split; [|done]. intros _. split; [by exists q|done].
Qed.

(** The level that one tick leaves. *)
Lemma depleted_inRange (level : Q) :
  (0 <= level)%Q -> (level <= 100)%Q ->
  (0 <= depleted level)%Q /\ (depleted level <= 100)%Q.
Proof.
  intros H0 H100. unfold depleted, Coal.depletionRate.
  destruct (Js.ltb (level - 0.5) 0) eqn:Hb; [lra|].
  apply JsFacts.ltb_false in Hb. lra.
Qed.

Lemma update_inRange (w : World) :
  Coal.inRange (coal w) -> Coal.inRange (coal (state_of (CoalSystem.update w))).
Proof.
  intros [H0 H100].
  destruct (Js.ltb 0 (Coal.level (coal w))) eqn:Hlit.
  2: { unfold CoalSystem.update. run_steps. rewrite Hlit. by split. }
  apply JsFacts.ltb_true in Hlit.
  destruct (update_run w Hlit) as [Hstate _]. cbv zeta in Hstate.
  destruct (deplete_run w) as [Hc2 Hi2]. cbv zeta in Hc2, Hi2.
  rewrite Hstate. clear Hstate.
  set (w2 := if Js.ltb _ 0 then _ else _) in *.
  match goal with
  | |- context [emit_coal_updated ?l ?w'] =>
      destruct (emit_coal_updated_frame l w') as (-> & _ & _)
  end.
  assert (Hw3 : Coal.inRange (coal (state_of (CoalSystem.warnIfLow w2)))).
  { rewrite warnIfLow_run.
    destruct (Js.leb _ _ && negb _);
      cbn [state_of fst snd coal set_coal Coal.level Coal.set_warned];
      rewrite Hc2; by apply depleted_inRange. }
  destruct (Js.leb _ _ && Js.geb_opt _ _); [|exact Hw3].
  run_steps.
  destruct (refill_cases (state_of (CoalSystem.warnIfLow w2)))
    as [[_ ->]|(_ & q & _ & _ & _ & ->)]; [exact Hw3|].
  split; cbn; discriminate.
Qed.

(** X7. A forge whose level lies from 0 to 100 keeps a level from 0 to
    100 through update(), through refill() and through consumeCoal of any
    amount that is not negative; consumeCoal refuses an amount above the
    level and changes nothing then. *)
Theorem X7_forge_level_stays_in_range (w : World) (amount : Q) :
  (0 <= amount)%Q ->
  Coal.inRange (coal w) ->
  Coal.inRange (coal (state_of (CoalSystem.update w))) /\
  Coal.inRange (coal (state_of (CoalSystem.refill w))) /\
  Coal.inRange (coal (state_of (CoalSystem.consumeCoal amount w))) /\
  ((Coal.level (coal w) < amount)%Q ->
   CoalSystem.consumeCoal amount w = (false, w, [])).
Proof.
  intros Ha Hrange. split; [by apply update_inRange|]. split; [|split].
  - destruct (refill_cases w) as [[_ ->]|(_ & q & _ & _ & _ & ->)];
      [exact Hrange|].
    split; cbn; discriminate.
  - destruct Hrange as [H0 H100].
    destruct (Js.ltb (Coal.level (coal w)) amount) eqn:Hb.
    + unfold CoalSystem.consumeCoal. run_steps. rewrite Hb. by split.
    + apply JsFacts.ltb_false in Hb.
      destruct (consumeCoal_enough amount w Hb) as (_ & Hl & _).
      split; rewrite Hl; lra.
  - intros Hlt. apply JsFacts.ltb_true in Hlt.
    unfold CoalSystem.consumeCoal, bind, gets. by rewrite Hlt.
Qed.

Lemma X7_witness :
  Coal.inRange (coal (state_of (CoalSystem.update (newGame catalog 0)))) /\
  CoalSystem.consumeCoal 120 (newGame catalog 0)
  = (false, newGame catalog 0, []).
Proof.
  destruct (X7_forge_level_stays_in_range (newGame catalog 0) 120)
    as (Hu & _ & _ & Hc).
  - discriminate.
  - split; cbn; discriminate.
  - split; [exact Hu|]. apply Hc. reflexivity.
Defined.

End ForgeFacts.

(** ** Crafting: starting, pausing and cancelling *)

Section StartFacts.
Import Inventory.

(** [canCraft] answers yes exactly when its four checks pass. *)
Lemma canCraft_ok_iff (itemId : string) (w : World) :
  CraftingSystem.canCraft_ok (CraftingSystem.canCraft itemId w) = true <->
  exists itemData,
    itemsData w !! itemId = Some itemData /\
    unlocked itemData = true /\
    ToolDurability.getMissingTools itemData (inventory w) = [] /\
    hasMaterials (requiredMaterials itemData) (inventory w) = true /\
    Coal.hasEnoughCoal 20 (coal w) = true.
Proof.
  unfold CraftingSystem.canCraft.
  destruct (itemsData w !! itemId) as [d|]; cbn;
    [|split; [discriminate|by intros (? & ? & _)]].
  destruct (unlocked d) eqn:Hu; cbn.
  2: { split; [discriminate|]. intros (d' & Hd & Hu' & _).
       injection Hd as <-. congruence. }
  destruct (ToolDurability.getMissingTools d (inventory w)) as [|t ts] eqn:Ht;
    cbn.
  2: { split; [discriminate|]. intros (d' & Hd & _ & Ht' & _).
       injection Hd as <-. congruence. }
  destruct (hasMaterials (requiredMaterials d) (inventory w)) eqn:Hm; cbn.
  2: { split; [discriminate|]. intros (d' & Hd & _ & _ & Hm' & _).
       injection Hd as <-. congruence. }
  destruct (Coal.hasEnoughCoal 20 (coal w)) eqn:Hc; cbn.
  2: { split; [discriminate|]. intros (d' & Hd & _ & _ & _ & Hc').
       injection Hd as <-. congruence. }
  split; [|done]. intros _. by exists d.
Qed.

(** [startCrafting] refuses, and changes nothing, where [canCraft] says
    no. *)
Lemma startCrafting_refused (itemId : string) (quantity : Q)
    (workerId : option string) (w : World) :
  CraftingSystem.canCraft_ok (CraftingSystem.canCraft itemId w) = false ->
  result (CraftingSystem.startCrafting itemId quantity workerId w) = false /\
  state_of (CraftingSystem.startCrafting itemId quantity workerId w) = w.
Proof.
  unfold CraftingSystem.canCraft, CraftingSystem.startCrafting.
  intros Hno. split; run_steps;
    (destruct (itemsData w !! itemId) as [d|]; [|done]);
    (destruct (unlocked d); cbn [negb]; [|done]); run_steps;
    (destruct (ToolDurability.getMissingTools d (inventory w)) as [|t ts];
       cbn [length Nat.ltb Nat.leb]; [|done]); run_steps;
    (destruct (hasMaterials (requiredMaterials d) (inventory w));
       cbn [negb]; [|done]); run_steps;
    (destruct (Coal.hasEnoughCoal 20 (coal w)); cbn [negb]; [|done]);
    cbn in Hno; discriminate.
Qed.

(** [startCrafting] where [canCraft] says yes: the materials are taken
    one after the other, and the job starts if all could be taken. *)
Lemma startCrafting_run (itemId : string) (quantity : Q)
    (workerId : option string) (w : World) (itemData : ItemData) :
  itemsData w !! itemId = Some itemData ->
  CraftingSystem.canCraft_ok (CraftingSystem.canCraft itemId w) = true ->
  let removal :=
    CraftingSystem.removeRequired (requiredMaterials itemData) quantity
      (inventory w) in
  let drawn :=
    CoalSystem.consumeCoal (Js.or_default (coalUsage itemData) 5)
      (set_inventory (state_of removal) w) in
  let job :=
    CraftingSystem.newJob itemId itemData
      (Js.or_default (batchSize itemData) 1 * quantity) workerId in
  result (CraftingSystem.startCrafting itemId quantity workerId w)
  = result removal /\
  state_of (CraftingSystem.startCrafting itemId quantity workerId w)
  = (if result removal then
       match Crafting.currentCraft (crafting (state_of drawn)) with
       | Some _ =>
           set_crafting
             (Crafting.set_queue
                (Crafting.craftingQueue (crafting (state_of drawn)) ++ [job])
                (crafting (state_of drawn))) (state_of drawn)
       | None =>
           set_crafting
             (Crafting.set_current (Some job) (crafting (state_of drawn)))
             (state_of drawn)
       end
     else set_inventory (state_of removal) w).
Proof.
  intros Hitem Hok removal drawn job.
  apply canCraft_ok_iff in Hok as (d & Hd & Hu & Ht & Hm & Hc).
  rewrite Hitem in Hd. injection Hd as <-.
  unfold CraftingSystem.startCrafting, inInventory.
  split; run_steps; rewrite Hitem, Hu; cbn [negb]; run_steps;
    rewrite Ht; cbn [length Nat.ltb Nat.leb]; run_steps;
    rewrite Hm; cbn [negb]; run_steps; rewrite Hc; cbn [negb]; run_steps;
    fold removal; destruct (result removal); cbn [negb]; run_steps;
    try reflexivity; fold drawn;
    destruct (Crafting.currentCraft (crafting (state_of drawn)));
    run_steps; reflexivity.
Qed.

(** The test of [removeMaterial], from the quantity held. *)
Lemma lacks_held (m : gmap string Q) (name : string) (amount need : Q) :
  lacks m (name, amount) = false ->
  lacks m (name, need) = negb (Qle_bool need (held m name)).
Proof.
  intros Hl. apply lacks_false in Hl as (q & Hq & _ & Hnz).
  unfold lacks, held. cbn [fst snd]. rewrite Hq. cbn.
  assert (Js.truthy q = true) as ->; [|reflexivity].
  unfold Js.truthy. apply negb_true_iff, not_true_is_false.
  intros H. by apply Qeq_bool_iff in H.
Qed.

(** The loop of [startCrafting] on materials that are all there in the
    quantity asked for. *)
Lemma removeRequired_all (required : list (string * Q)) (quantity : Q)
    (inv : t) :
  NoDup required.*1 ->
  (forall name amount, (name, amount) ∈ required ->
     lacks (materials inv) (name, (amount * quantity)%Q) = false) ->
  let run := CraftingSystem.removeRequired required quantity inv in
  result run = true /\
  (forall name amount, (name, amount) ∈ required ->
     materials (state_of run) !! name
     = (fun q => q - amount * quantity)%Q <$> materials inv !! name) /\
  (forall name, name ∉ required.*1 ->
     materials (state_of run) !! name = materials inv !! name) /\
  items (state_of run) = items inv /\ tools (state_of run) = tools inv /\
  money (state_of run) = money inv.
Proof.
  revert inv. induction required as [|[k a] rest IH]; intros inv Hnd Hall.
  { cbn. repeat split; try done. intros name amount H.
    by apply elem_of_nil in H. }
  rewrite fmap_cons in Hnd. cbn [fst] in Hnd.
  apply NoDup_cons in Hnd as [Hk Hnd].
  assert (Hrest : forall name amount, (name, amount) ∈ rest -> name <> k).
  { intros name amount Hin ->. apply Hk. apply list_elem_of_fmap.
    by exists (k, amount). }
  destruct (lacks_false _ _ _ (Hall k a ltac:(apply elem_of_cons; by left)))
    as (q & Hq & Hle & Hnz).
  cbn [CraftingSystem.removeRequired]. cbv zeta.
  rewrite result_bind, state_of_bind.
  rewrite (removeMaterial_enough _ _ _ _ Hq Hnz Hle).
  cbn [result state_of fst snd negb].
  set (inv1 := set_materials _ inv).
  destruct (IH inv1 Hnd) as (IHr & IHin & IHout & IHi & IHt & IHmn).
  { intros name amount Hin. unfold inv1, lacks. cbn [fst snd materials set_materials].
    rewrite lookup_alter_ne by (symmetry; by apply (Hrest name amount)).
    apply (Hall name amount). apply elem_of_cons. by right. }
  cbv zeta in IHr, IHin, IHout, IHi, IHt, IHmn.
  split; [exact IHr|]. split; [|split].
  - intros name amount Hin. apply elem_of_cons in Hin as [Heq|Hin].
    + injection Heq as -> ->. rewrite (IHout k Hk). unfold inv1.
      cbn [materials set_materials]. by rewrite lookup_alter_eq.
    + rewrite (IHin name amount Hin). unfold inv1.
      cbn [materials set_materials].
      by rewrite lookup_alter_ne by (symmetry; by apply (Hrest name amount)).
  - intros name Hname. rewrite fmap_cons in Hname. cbn [fst] in Hname.
    apply not_elem_of_cons in Hname as [Hne Hname].
    rewrite (IHout name Hname). unfold inv1. cbn [materials set_materials].
    by rewrite lookup_alter_ne by done.
  - rewrite IHi, IHt, IHmn. done.
Qed.

(** The loop of [startCrafting] on materials of which one falls short:
    those listed before it are taken all the same. *)
Lemma removeRequired_short (before after : list (string * Q))
    (short : string) (need quantity : Q) (inv : t) :
  NoDup (before ++ (short, need) :: after).*1 ->
  (forall name amount, (name, amount) ∈ before ->
     lacks (materials inv) (name, (amount * quantity)%Q) = false) ->
  lacks (materials inv) (short, (need * quantity)%Q) = true ->
  let run :=
    CraftingSystem.removeRequired (before ++ (short, need) :: after) quantity
      inv in
  result run = false /\
  (forall name amount, (name, amount) ∈ before ->
     materials (state_of run) !! name
     = (fun q => q - amount * quantity)%Q <$> materials inv !! name) /\
  (forall name, name ∉ before.*1 ->
     materials (state_of run) !! name = materials inv !! name) /\
  items (state_of run) = items inv /\ tools (state_of run) = tools inv /\
  money (state_of run) = money inv.
Proof.
  revert inv. induction before as [|[k a] rest IH]; intros inv Hnd Hall Hshort.
  { cbn [app CraftingSystem.removeRequired]. cbv zeta.
    rewrite result_bind, state_of_bind.
    assert (Hno : removeMaterial short (need * quantity) inv = (false, inv, [])).
    { apply removeMaterial_false. unfold removeMaterial, result, bind, gets.
      unfold lacks in Hshort. cbn in *. by rewrite Hshort. }
    rewrite Hno. cbn. repeat split; try done. intros name amount H.
    by apply elem_of_nil in H. }
  rewrite <- app_comm_cons, fmap_cons in Hnd. cbn [fst] in Hnd.
  apply NoDup_cons in Hnd as [Hk Hnd].
  assert (Hrest : forall name amount, (name, amount) ∈ rest -> name <> k).
  { intros name amount Hin ->. apply Hk. rewrite fmap_app.
    apply elem_of_app. left. apply list_elem_of_fmap. by exists (k, amount). }
  assert (Hsk : short <> k).
  { intros ->. apply Hk. rewrite fmap_app, fmap_cons. apply elem_of_app.
    right. apply elem_of_cons. by left. }
  destruct (lacks_false _ _ _ (Hall k a ltac:(apply elem_of_cons; by left)))
    as (q & Hq & Hle & Hnz).
  rewrite <- app_comm_cons. cbn [CraftingSystem.removeRequired]. cbv zeta.
  rewrite result_bind, state_of_bind.
  rewrite (removeMaterial_enough _ _ _ _ Hq Hnz Hle).
  cbn [result state_of fst snd negb].
  set (inv1 := set_materials _ inv).
  destruct (IH inv1 Hnd) as (IHr & IHin & IHout & IHi & IHt & IHmn).
  { intros name amount Hin. unfold inv1, lacks. cbn [fst snd materials set_materials].
    rewrite lookup_alter_ne by (symmetry; by apply (Hrest name amount)).
    apply (Hall name amount). apply elem_of_cons. by right. }
  { unfold inv1, lacks. cbn [fst snd materials set_materials].
    by rewrite lookup_alter_ne by done. }
  cbv zeta in IHr, IHin, IHout, IHi, IHt, IHmn.
  split; [exact IHr|]. split; [|split].
  - intros name amount Hin. apply elem_of_cons in Hin as [Heq|Hin].
    + injection Heq as -> ->. rewrite IHout.
      * unfold inv1. cbn [materials set_materials]. by rewrite lookup_alter_eq.
      * intros Hin. apply Hk. rewrite fmap_app. apply elem_of_app. by left.
    + rewrite (IHin name amount Hin). unfold inv1.
      cbn [materials set_materials].
      by rewrite lookup_alter_ne by (symmetry; by apply (Hrest name amount)).
  - intros name Hname. rewrite fmap_cons in Hname. cbn [fst] in Hname.
    apply not_elem_of_cons in Hname as [Hne Hname].
    rewrite (IHout name Hname). unfold inv1. cbn [materials set_materials].
    by rewrite lookup_alter_ne by done.
  - rewrite IHi, IHt, IHmn. done.
Qed.

(** A draw of coal leaves the inventory and the queue alone, and starts
    no job. *)
Lemma consumeCoal_frame (amount : Q) (w : World) :
  let w' := state_of (CoalSystem.consumeCoal amount w) in
  inventory w' = inventory w /\
  Crafting.craftingQueue (crafting w') = Crafting.craftingQueue (crafting w) /\
  (Crafting.currentCraft (crafting w) = None ->
   Crafting.currentCraft (crafting w') = None) /\
  (is_Some (Crafting.currentCraft (crafting w)) ->
   is_Some (Crafting.currentCraft (crafting w'))).
Proof.
  destruct w as [inv [lvl warned] [queue cur sp auto] sf ct ub idata ws hd t].
  unfold CoalSystem.consumeCoal, CoalSystem.warnIfLow, emit_coal_updated,
    inCrafting, zoom, Crafting.onCoalUpdated, Crafting.pauseCrafting,
    bind, gets, modify, emit, ret, state_of.
  cbn [coal Coal.level]. destruct (Js.ltb lvl amount); [by cbn|].
  cbn [coal Coal.level set_coal Coal.set_level fst snd].
  destruct (Js.ltb (lvl - amount) 0);
    cbn [coal Coal.level set_coal Coal.set_level Coal.hasWarnedAboutLowCoal
         fst snd];
    match goal with
    | |- context [Js.leb ?l Coal.lowThreshold && negb warned] =>
        destruct (Js.leb l Coal.lowThreshold && negb warned)
    end;
    cbn [coal Coal.level set_coal Coal.set_level Coal.set_warned crafting
         Crafting.currentCraft fst snd];
    match goal with
    | |- context [Js.leb ?l 0 && _] => destruct (Js.leb l 0)
    end; destruct cur as [job|]; cbn; repeat split; try done;
    intros [? ?]; discriminate.
Qed.

(** X8. For one unit of an item, startCrafting answers what canCraft
    answers; and where it answers false it has changed nothing: no
    material, no coal and no job. (The materials of a recipe are the
    entries of an object, so their names differ.) *)
Theorem X8_canCraft_agrees_with_startCrafting (w : World) (itemId : string)
    (workerId : option string) :
  (forall itemData, itemsData w !! itemId = Some itemData ->
     NoDup (requiredMaterials itemData).*1) ->
  result (CraftingSystem.startCrafting itemId 1 workerId w)
  = CraftingSystem.canCraft_ok (CraftingSystem.canCraft itemId w) /\
  (result (CraftingSystem.startCrafting itemId 1 workerId w) = false ->
   state_of (CraftingSystem.startCrafting itemId 1 workerId w) = w).
Proof.
  intros Hnd.
  destruct (CraftingSystem.canCraft_ok (CraftingSystem.canCraft itemId w))
    eqn:Hok.
  2: { destruct (startCrafting_refused itemId 1 workerId w Hok) as [Hr Hs].
       by rewrite Hr, Hs. }
  pose proof Hok as Hchecks.
  apply canCraft_ok_iff in Hchecks as (d & Hd & _ & _ & Hm & _).
  destruct (startCrafting_run itemId 1 workerId w d Hd Hok) as [Hr _].
  cbv zeta in Hr.
  destruct (removeRequired_all (requiredMaterials d) 1 (inventory w))
    as [Hall _]; [by apply Hnd| |].
  { intros name amount Hin. unfold hasMaterials in Hm.
    rewrite forallb_forall in Hm.
    specialize (Hm (name, amount) ltac:(by apply list_elem_of_In)).
    apply negb_true_iff in Hm. rewrite (lacks_held _ _ _ _ Hm).
    apply lacks_false in Hm as (q & Hq & Hle & _).
    apply negb_false_iff, Qle_bool_iff. unfold held. rewrite Hq. cbn. lra. }
  cbv zeta in Hall. rewrite Hr, Hall. split; [done|discriminate].
Qed.

Lemma X8_witness :
  result (CraftingSystem.startCrafting "horseshoe" 1 None (newGame catalog 0))
  = CraftingSystem.canCraft_ok
      (CraftingSystem.canCraft "horseshoe" (newGame catalog 0)).
Proof.
  apply (X8_canCraft_agrees_with_startCrafting (newGame catalog 0)).
  intros itemData Hitem. vm_compute in Hitem. injection Hitem as <-.
  apply NoDup_cons. split.
  - intros H. apply list_elem_of_singleton in H. discriminate H.
  - apply NoDup_singleton.
Defined.

(** The test of [removeMaterial] on a material that passed the test of
    [canCraft] for one unit. *)
Lemma lacks_after_check (itemData : ItemData) (inv : t) (name : string)
    (amount need : Q) :
  hasMaterials (requiredMaterials itemData) inv = true ->
  (name, amount) ∈ requiredMaterials itemData ->
  lacks (materials inv) (name, need) = negb (Qle_bool need (held (materials inv) name)).
Proof.
  intros Hm Hin. unfold hasMaterials in Hm. rewrite forallb_forall in Hm.
  specialize (Hm (name, amount) ltac:(by apply list_elem_of_In)).
  apply negb_true_iff in Hm. by apply lacks_held with amount.
Qed.

(** X9. Where canCraft says yes and the stock covers the recipe's amount
    times the quantity of every material, startCrafting answers true and
    takes exactly that product of each material, and nothing else from the
    inventory; the new job, for the batch size times the quantity,
    becomes the current job of an idle forge and goes to the end of the
    queue of a busy one. *)
Theorem X9_startCrafting_takes_each_unit (w : World) (itemId : string)
    (quantity : Q) (workerId : option string) (itemData : ItemData) :
  itemsData w !! itemId = Some itemData ->
  CraftingSystem.canCraft_ok (CraftingSystem.canCraft itemId w) = true ->
  NoDup (requiredMaterials itemData).*1 ->
  (forall name amount, (name, amount) ∈ requiredMaterials itemData ->
     (amount * quantity <= held (materials (inventory w)) name)%Q) ->
  let run := CraftingSystem.startCrafting itemId quantity workerId w in
  let job :=
    CraftingSystem.newJob itemId itemData
      (Js.or_default (batchSize itemData) 1 * quantity) workerId in
  result run = true /\
  (forall name amount, (name, amount) ∈ requiredMaterials itemData ->
     materials (inventory (state_of run)) !! name
     = (fun q => q - amount * quantity)%Q <$> materials (inventory w) !! name) /\
  (forall name, name ∉ (requiredMaterials itemData).*1 ->
     materials (inventory (state_of run)) !! name
     = materials (inventory w) !! name) /\
  items (inventory (state_of run)) = items (inventory w) /\
  tools (inventory (state_of run)) = tools (inventory w) /\
  money (inventory (state_of run)) = money (inventory w) /\
  match Crafting.currentCraft (crafting w) with
  | None =>
      Crafting.currentCraft (crafting (state_of run)) = Some job /\
      Crafting.craftingQueue (crafting (state_of run))
      = Crafting.craftingQueue (crafting w)
  | Some _ =>
      Crafting.craftingQueue (crafting (state_of run))
      = Crafting.craftingQueue (crafting w) ++ [job]
  end.
Proof.
  intros Hitem Hok Hnd Hstock run job.
  pose proof Hok as Hchecks.
  apply canCraft_ok_iff in Hchecks as (d & Hd & _ & _ & Hm & _).
  rewrite Hitem in Hd. injection Hd as <-.
  destruct (startCrafting_run itemId quantity workerId w itemData Hitem Hok)
    as [Hr Hs].
  cbv zeta in Hr, Hs. fold run in Hr, Hs. fold job in Hs.
  destruct (removeRequired_all (requiredMaterials itemData) quantity
              (inventory w) Hnd)
    as (Hall & Hin & Hout & Hi & Ht & Hmn).
  { intros name amount Hent.
    rewrite (lacks_after_check itemData _ name amount) by done.
    apply negb_false_iff, Qle_bool_iff. by apply Hstock. }
  cbv zeta in Hall, Hin, Hout, Hi, Ht, Hmn.
  rewrite Hall in Hr, Hs.
  set (removal := CraftingSystem.removeRequired _ _ _) in *.
  destruct (consumeCoal_frame (Js.or_default (coalUsage itemData) 5)
              (set_inventory (state_of removal) w))
    as (Hinv & Hqueue & Hidle & Hbusy).
  cbv zeta in Hinv, Hqueue, Hidle, Hbusy.
  set (drawn := CoalSystem.consumeCoal _ _) in *.
  cbn [inventory crafting set_inventory] in Hinv, Hqueue, Hidle, Hbusy.
  split; [exact Hr|].
  assert (Hafter : inventory (state_of run) = state_of removal).
  { rewrite Hs. destruct (Crafting.currentCraft (crafting (state_of drawn)));
      cbn [inventory set_crafting]; exact Hinv. }
  rewrite Hafter. do 5 (split; [done|]).
  rewrite Hs. destruct (Crafting.currentCraft (crafting w)) as [current|] eqn:Hcur.
  - destruct (Hbusy ltac:(by eexists)) as [current' ->].
    cbn [crafting set_crafting Crafting.craftingQueue Crafting.set_queue].
    by rewrite Hqueue.
  - rewrite (Hidle eq_refl).
    cbn [crafting set_crafting Crafting.craftingQueue Crafting.currentCraft
         Crafting.set_current].
    by rewrite Hqueue.
Qed.

Lemma X9_witness :
  result (CraftingSystem.startCrafting "horseshoe" 3 None (newGame catalog 0))
  = true.
Proof.
  apply (X9_startCrafting_takes_each_unit (newGame catalog 0) "horseshoe" 3
           None horseshoe).
  - reflexivity.
  - reflexivity.
  - apply NoDup_cons. split.
    + intros H. apply list_elem_of_singleton in H. discriminate H.
    + apply NoDup_singleton.
  - intros name amount Hin.
    apply elem_of_cons in Hin as [Heq|Hin]; [injection Heq as -> ->|].
    { vm_compute. discriminate. }
    apply list_elem_of_singleton in Hin. injection Hin as -> ->.
    vm_compute. discriminate.
Defined.

(** X10. startCrafting checks the stock for one unit and then takes the
    materials for the whole quantity one after the other. Where canCraft
    says yes but the stock of one material does not cover the recipe's
    amount times the quantity, while it does for the materials listed
    before it, startCrafting answers false after it has taken those
    earlier materials; it draws no coal and starts no job. *)
Theorem X10_startCrafting_can_fail_after_taking (w : World) (itemId : string)
    (quantity : Q) (workerId : option string) (itemData : ItemData)
    (before after : list (string * Q)) (short : string) (need : Q) :
  itemsData w !! itemId = Some itemData ->
  CraftingSystem.canCraft_ok (CraftingSystem.canCraft itemId w) = true ->
  requiredMaterials itemData = before ++ (short, need) :: after ->
  NoDup (requiredMaterials itemData).*1 ->
  (forall name amount, (name, amount) ∈ before ->
     (amount * quantity <= held (materials (inventory w)) name)%Q) ->
  (held (materials (inventory w)) short < need * quantity)%Q ->
  let run := CraftingSystem.startCrafting itemId quantity workerId w in
  result run = false /\
  (forall name amount, (name, amount) ∈ before ->
     materials (inventory (state_of run)) !! name
     = (fun q => q - amount * quantity)%Q <$> materials (inventory w) !! name) /\
  (forall name, name ∉ before.*1 ->
     materials (inventory (state_of run)) !! name
     = materials (inventory w) !! name) /\
  coal (state_of run) = coal w /\ crafting (state_of run) = crafting w.
Proof.
  intros Hitem Hok Hsplit Hnd Hstock Hshort run.
  pose proof Hok as Hchecks.
  apply canCraft_ok_iff in Hchecks as (d & Hd & _ & _ & Hm & _).
  rewrite Hitem in Hd. injection Hd as <-.
  destruct (startCrafting_run itemId quantity workerId w itemData Hitem Hok)
    as [Hr Hs].
  cbv zeta in Hr, Hs. fold run in Hr, Hs.
  rewrite Hsplit in Hr, Hs, Hnd.
  destruct (removeRequired_short before after short need quantity
              (inventory w) Hnd)
    as (Hno & Hin & Hout & _).
  { intros name amount Hent.
    rewrite (lacks_after_check itemData _ name amount); [|done|].
    - apply negb_false_iff, Qle_bool_iff. by apply Hstock.
    - rewrite Hsplit. apply elem_of_app. by left. }
  { rewrite (lacks_after_check itemData _ short need); [|done|].
    - apply negb_true_iff. apply not_true_is_false. intros Hle.
      apply Qle_bool_iff in Hle. lra.
    - rewrite Hsplit. apply elem_of_app. right. apply elem_of_cons. by left. }
  cbv zeta in Hno, Hin, Hout.
  rewrite Hno in Hr, Hs. rewrite Hs. cbn [inventory coal crafting set_inventory].
  done.
Qed.

Lemma X10_witness :
  let w :=
    set_inventory
      (set_materials (<["wood" := 1%Q]> (materials initial)) initial)
      (newGame catalog 0) in
  result (CraftingSystem.startCrafting "new_hammer" 2 None w) = false /\
  materials (inventory (state_of
    (CraftingSystem.startCrafting "new_hammer" 2 None w))) !! "iron"
  = Some (50 - 2 * 2)%Q.
Proof.
  intros w.
  destruct (X10_startCrafting_can_fail_after_taking w "new_hammer" 2 None
              new_hammer [("iron", 2%Q)] [] "wood" 1)
    as (Hr & Hin & _).
  - reflexivity.
  - reflexivity.
  - reflexivity.
  - apply NoDup_cons. split.
    + intros H. apply list_elem_of_singleton in H. discriminate H.
    + apply NoDup_singleton.
  - intros name amount Hin. apply list_elem_of_singleton in Hin.
    injection Hin as -> ->. vm_compute. discriminate.
  - reflexivity.
  - split; [exact Hr|]. apply (Hin "iron" 2%Q). apply elem_of_cons. by left.
Defined.

End StartFacts.

(** ** Crafting: refunds *)

Section LoopFacts.
Context {E S : Type}.

(** Loops whose bodies leave the same states leave the same state. *)
Lemma for_each_state_ext {X} (xs : list X) (b1 b2 : X -> M E S unit) (s : S) :
  (forall x s, state_of (b1 x s) = state_of (b2 x s)) ->
  state_of (for_each xs b1 s) = state_of (for_each xs b2 s).
Proof.
  intros Hb. revert s. induction xs as [|x xs IH]; intros s; [reflexivity|].
  cbn [for_each]. rewrite !state_of_bind, Hb. apply IH.
Qed.

Lemma for_each_map {X Y} (g : X -> Y) (xs : list X) (body : Y -> M E S unit)
    (s : S) :
  for_each (map g xs) body s = for_each xs (fun x => body (g x)) s.
Proof.
  revert s. induction xs as [|x xs IH]; intros s; [reflexivity|].
  cbn [map for_each]. unfold bind. destruct (body (g x) s) as [[a s1] l1].
  by rewrite IH.
Qed.

End LoopFacts.

Section RefundFacts.
Import Inventory.

(** A loop over the inventory, run in the game. *)
Lemma inventory_loop {X} (xs : list X) (inGame : X -> M event World unit)
    (inStock : X -> M event Inventory.t unit) (w : World) :
  (forall x w, state_of (inGame x w)
               = set_inventory (state_of (inStock x (inventory w))) w) ->
  state_of (for_each xs inGame w)
  = set_inventory (state_of (for_each xs inStock (inventory w))) w.
Proof.
  intros Hbody. revert w. induction xs as [|x xs IH]; intros w.
  { cbn. by destruct w. }
  cbn [for_each]. rewrite !state_of_bind, IH, Hbody.
  cbn [inventory set_inventory]. by destruct w.
Qed.

(** The refund loop of [cancelCurrentCraft] gives each material what
    [addMaterial] accepts of its refund. *)
Lemma refund_loop (job : Job.t) (required : list (string * Q)) (w : World) :
  state_of
    (for_each required (fun entry =>
       if Js.ltb 0 (CraftingSystem.refundAmount job entry.2) then
         let* _ :=
           inInventory
             (addMaterial entry.1 (CraftingSystem.refundAmount job entry.2)) in
         ret tt
       else ret tt) w)
  = set_inventory
      (state_of
         (for_each
            (map (fun entry => (entry.1, CraftingSystem.refundAmount job entry.2))
               required)
            (fun entry => let* _ := addMaterial entry.1 entry.2 in ret tt)
            (inventory w))) w.
Proof.
  rewrite for_each_map. cbn [fst snd]. apply inventory_loop.
  intros [name amount] w'. cbn [fst snd].
  destruct (Js.ltb 0 (CraftingSystem.refundAmount job amount)) eqn:Hpos.
  - unfold inInventory. by run_steps.
  - apply JsFacts.ltb_false in Hpos.
    destruct (addMaterial_effect name (CraftingSystem.refundAmount job amount)
                (inventory w')) as (_ & Hskip & _).
    cbv zeta in Hskip. run_steps. rewrite (Hskip Hpos). by destruct w'.
Qed.

(** The refund of a material never exceeds the amount that the recipe
    takes of it for one unit. *)
Lemma refundAmount_le (job : Job.t) (amount : Q) :
  (0 < Job.craftingTime job)%Q -> (0 <= Job.progress job)%Q ->
  (0 <= amount)%Q ->
  (CraftingSystem.refundAmount job amount <= amount)%Q.
Proof.
  intros Hc Hp Ha. unfold CraftingSystem.refundAmount.
  eapply Qle_trans; [apply Qfloor_le|].
  unfold CraftingSystem.refundRatio.
  assert (0 <= Job.progress job / Job.craftingTime job)%Q
    by (apply Qle_shift_div_l; lra).
  assert (0 <= amount * (Job.progress job / Job.craftingTime job))%Q
    by (by apply Qmult_le_0_compat).
  lra.
Qed.

(** From half of the crafting time on, the refund ratio is no more than
    one half. *)
Lemma refundRatio_late (job : Job.t) :
  (0 < Job.craftingTime job)%Q ->
  (Job.craftingTime job <= 2 * Job.progress job)%Q ->
  Js.ltb 0.5 (CraftingSystem.refundRatio job) = false.
Proof.
  intros Hc Hhalf. apply JsFacts.ltb_false. unfold CraftingSystem.refundRatio.
  assert (0.5 <= Job.progress job / Job.craftingTime job)%Q
    by (apply Qle_shift_div_l; lra).
  lra.
Qed.

(** X11. cancelCurrentCraft on a forge at work answers true and puts the
    head of the queue in the place of the cancelled job. For a job whose
    crafting time is not zero it gives back, of each material of the
    recipe, the whole part of the amount for one unit times the share of
    the crafting time that is left, provided that share is above one
    half. It touches nothing else in the inventory and leaves the forge as
    it is. The refund of a material is never more than the recipe's
    amount for one unit, and from half of the crafting time on nothing is
    given back. *)
Theorem X11_cancelCurrentCraft_refunds_by_progress (w : World) (job : Job.t) :
  Crafting.currentCraft (crafting w) = Some job ->
  NoDup (requiredMaterials (Job.itemData job)).*1 ->
  let run := CraftingSystem.cancelCurrentCraft w in
  let back amount :=
    if Js.ltb 0.5 (CraftingSystem.refundRatio job)
       && Js.ltb 0 (CraftingSystem.refundAmount job amount)
    then CraftingSystem.refundAmount job amount else 0%Q in
  result run = true /\
  Crafting.currentCraft (crafting (state_of run))
  = head (Crafting.craftingQueue (crafting w)) /\
  Crafting.craftingQueue (crafting (state_of run))
  = tail (Crafting.craftingQueue (crafting w)) /\
  (~ (Job.craftingTime job == 0)%Q ->
   forall name amount, (name, amount) ∈ requiredMaterials (Job.itemData job) ->
     (held (materials (inventory (state_of run))) name
      == held (materials (inventory w)) name + back amount)%Q) /\
  (forall name, name ∉ (requiredMaterials (Job.itemData job)).*1 ->
     materials (inventory (state_of run)) !! name
     = materials (inventory w) !! name) /\
  items (inventory (state_of run)) = items (inventory w) /\
  tools (inventory (state_of run)) = tools (inventory w) /\
  money (inventory (state_of run)) = money (inventory w) /\
  coal (state_of run) = coal w /\
  (forall amount,
     (0 < Job.craftingTime job)%Q -> (0 <= Job.progress job)%Q ->
     (0 <= amount)%Q -> (back amount <= amount)%Q) /\
  ((0 < Job.craftingTime job)%Q ->
   (Job.craftingTime job <= 2 * Job.progress job)%Q ->
   forall amount, back amount = 0%Q).
Proof.
  intros Hcur Hnd run back.
  set (required := requiredMaterials (Job.itemData job)) in *.
  set (w1 :=
    if Js.ltb 0.5 (CraftingSystem.refundRatio job) then
      set_inventory
        (state_of
           (for_each
              (map (fun entry =>
                      (entry.1, CraftingSystem.refundAmount job entry.2))
                 required)
              (fun entry => let* _ := addMaterial entry.1 entry.2 in ret tt)
              (inventory w))) w
    else w).
  assert (Hstate : state_of run
    = match Crafting.craftingQueue (crafting w) with
      | next :: rest =>
          set_crafting
            (Crafting.set_current (Some next)
               (Crafting.set_queue rest
                  (Crafting.set_current None (crafting w)))) w1
      | [] => set_crafting (Crafting.set_current None (crafting w)) w1
      end).
  { unfold run, CraftingSystem.cancelCurrentCraft, CraftingSystem.startNext.
    run_steps. rewrite Hcur. run_steps. fold required.
    assert (Hw1 : state_of
      ((if Js.ltb 0.5 (CraftingSystem.refundRatio job)
        then for_each required (fun entry =>
               if Js.ltb 0 (CraftingSystem.refundAmount job entry.2) then
                 let* _ :=
                   inInventory
                     (addMaterial entry.1
                        (CraftingSystem.refundAmount job entry.2)) in
                 ret tt
               else ret tt)
        else ret tt) w) = w1).
    { unfold w1. destruct (Js.ltb 0.5 (CraftingSystem.refundRatio job));
        [apply refund_loop|reflexivity]. }
    rewrite Hw1.
    assert (Hc1 : crafting w1 = crafting w).
    { unfold w1. by destruct (Js.ltb 0.5 (CraftingSystem.refundRatio job)). }
    cbn [crafting set_crafting Crafting.craftingQueue Crafting.set_current].
    rewrite Hc1.
    destruct (Crafting.craftingQueue (crafting w)) as [|next rest];
      run_steps; cbn [crafting set_crafting]; by rewrite ?Hc1. }
  assert (Hresult : result run = true).
  { unfold run, CraftingSystem.cancelCurrentCraft. run_steps. rewrite Hcur.
    by run_steps. }
  assert (Hinv : inventory (state_of run) = inventory w1).
  { rewrite Hstate. by destruct (Crafting.craftingQueue (crafting w)). }
  assert (Hcoal : coal (state_of run) = coal w).
  { assert (Hl1 : coal w1 = coal w).
    { unfold w1. by destruct (Js.ltb 0.5 (CraftingSystem.refundRatio job)). }
    rewrite Hstate.
    destruct (Crafting.craftingQueue (crafting w)); exact Hl1. }
  split; [exact Hresult|]. split; [|split].
  { rewrite Hstate. by destruct (Crafting.craftingQueue (crafting w)). }
  { rewrite Hstate.
    destruct (Crafting.craftingQueue (crafting w)) as [|next rest] eqn:Hq;
      cbn [crafting set_crafting Crafting.craftingQueue Crafting.set_current
           Crafting.set_queue tail]; [exact Hq|reflexivity]. }
  rewrite Hinv. split; [|split; [|split; [|split; [|split; [|split; [exact Hcoal|]]]]]].
  - intros _ name amount Hin. unfold back, w1.
    destruct (Js.ltb 0.5 (CraftingSystem.refundRatio job)); cbn [andb];
      [|cbn [inventory]; lra].
    cbn [inventory set_inventory].
    destruct (deliver_effect
                (map (fun entry =>
                        (entry.1, CraftingSystem.refundAmount job entry.2))
                   required) (inventory w)) as (Hadd & Hskip & _).
    { rewrite <- list_fmap_compose. exact Hnd. }
    cbv zeta in Hadd, Hskip.
    assert (Hin' : (name, CraftingSystem.refundAmount job amount)
                   ∈ map (fun entry =>
                            (entry.1, CraftingSystem.refundAmount job entry.2))
                       required).
    { apply list_elem_of_fmap. by exists (name, amount). }
    destruct (Js.ltb 0 (CraftingSystem.refundAmount job amount)) eqn:Hpos.
    + apply JsFacts.ltb_true in Hpos. by apply Hadd.
    + apply JsFacts.ltb_false in Hpos. unfold held.
      rewrite (Hskip _ _ Hin' Hpos). lra.
  - intros name Hname. unfold w1.
    destruct (Js.ltb 0.5 (CraftingSystem.refundRatio job)); [|done].
    cbn [inventory set_inventory].
    destruct (deliver_effect
                (map (fun entry =>
                        (entry.1, CraftingSystem.refundAmount job entry.2))
                   required) (inventory w)) as (_ & _ & Hout & _).
    { rewrite <- list_fmap_compose. exact Hnd. }
    apply Hout. by rewrite <- list_fmap_compose.
  - unfold w1. destruct (Js.ltb 0.5 (CraftingSystem.refundRatio job)); [|done].
    cbn [inventory set_inventory].
    destruct (deliver_effect
                (map (fun entry =>
                        (entry.1, CraftingSystem.refundAmount job entry.2))
                   required) (inventory w)) as (_ & _ & _ & Hi & _);
      [by rewrite <- list_fmap_compose|exact Hi].
  - unfold w1. destruct (Js.ltb 0.5 (CraftingSystem.refundRatio job)); [|done].
    cbn [inventory set_inventory].
    destruct (deliver_effect
                (map (fun entry =>
                        (entry.1, CraftingSystem.refundAmount job entry.2))
                   required) (inventory w)) as (_ & _ & _ & _ & Ht & _);
      [by rewrite <- list_fmap_compose|exact Ht].
  - unfold w1. destruct (Js.ltb 0.5 (CraftingSystem.refundRatio job)); [|done].
    cbn [inventory set_inventory].
    destruct (deliver_effect
                (map (fun entry =>
                        (entry.1, CraftingSystem.refundAmount job entry.2))
                   required) (inventory w)) as (_ & _ & _ & _ & _ & Hm);
      [by rewrite <- list_fmap_compose|exact Hm].
  - split.
    + intros amount Hc Hp Ha. unfold back.
      destruct (Js.ltb 0.5 _ && Js.ltb 0 _);
        [by apply refundAmount_le|exact Ha].
    + intros Hc Hhalf amount. unfold back. by rewrite refundRatio_late.
Qed.

Lemma X11_witness :
  let w := state_of (CraftingSystem.startCrafting "horseshoe" 1 None
                       (newGame catalog 0)) in
  result (CraftingSystem.cancelCurrentCraft w) = true /\
  Crafting.currentCraft (crafting (state_of (CraftingSystem.cancelCurrentCraft w)))
  = None.
Proof.
  intros w.
  destruct (X11_cancelCurrentCraft_refunds_by_progress w
              (CraftingSystem.newJob "horseshoe" horseshoe (1 * 1) None))
    as (Hr & Hc & _).
  - reflexivity.
  - apply NoDup_cons. split.
    + intros H. apply list_elem_of_singleton in H. discriminate H.
    + apply NoDup_singleton.
  - split; [exact Hr|exact Hc].
Defined.

(** X12. cancelQueuedCraft with an index outside the queue answers false
    and changes nothing. With an index inside it, it answers true and
    gives back, of each material of the recipe, the amount that the
    recipe takes for one unit, whatever the quantity of the job; it
    touches nothing else in the inventory. *)
Theorem X12_cancelQueuedCraft_refunds_one_unit (w : World) (index : Z) :
  (forall job, job ∈ Crafting.craftingQueue (crafting w) ->
     NoDup (requiredMaterials (Job.itemData job)).*1) ->
  let run := CraftingSystem.cancelQueuedCraft index w in
  match (if (0 <=? index)%Z
         then Crafting.craftingQueue (crafting w) !! Z.to_nat index
         else None) with
  | None => run = (false, w, [])
  | Some job =>
      result run = true /\
      (forall name amount,
         (name, amount) ∈ requiredMaterials (Job.itemData job) ->
         (0 < amount)%Q ->
         (held (materials (inventory (state_of run))) name
          == held (materials (inventory w)) name + amount)%Q) /\
      (forall name, name ∉ (requiredMaterials (Job.itemData job)).*1 ->
         materials (inventory (state_of run)) !! name
         = materials (inventory w) !! name) /\
      items (inventory (state_of run)) = items (inventory w) /\
      money (inventory (state_of run)) = money (inventory w)
  end.
Proof.
  intros Hnd run. unfold run, CraftingSystem.cancelQueuedCraft.
  destruct (0 <=? index)%Z eqn:Hsign.
  2: { apply Z.leb_gt in Hsign. unfold bind, gets.
       assert ((index <? 0)%Z = true) as -> by (by apply Z.ltb_lt). done. }
  apply Z.leb_le in Hsign.
  destruct (Crafting.craftingQueue (crafting w) !! Z.to_nat index)
    as [job|] eqn:Hjob.
  2: { unfold bind, gets. rewrite Hjob.
       by destruct ((index <? 0)%Z || _). }
  pose proof (lookup_lt_Some _ _ _ Hjob) as Hlt.
  assert (Hin_range :
    (index <? 0)%Z
    || (Z.of_nat (length (Crafting.craftingQueue (crafting w))) <=? index)%Z
    = false).
  { apply orb_false_intro; [apply Z.ltb_ge|apply Z.leb_gt]; lia. }
  assert (Hloop :
    state_of
      (for_each (requiredMaterials (Job.itemData job)) (fun entry =>
         let* _ := inInventory (addMaterial entry.1 entry.2) in ret tt) w)
    = set_inventory
        (state_of
           (for_each (requiredMaterials (Job.itemData job))
              (fun entry => let* _ := addMaterial entry.1 entry.2 in ret tt)
              (inventory w))) w).
  { apply inventory_loop. intros entry w'. unfold inInventory. by run_steps. }
  destruct (deliver_effect (requiredMaterials (Job.itemData job)) (inventory w))
    as (Hadd & _ & Hout & Hi & _ & Hm).
  { apply Hnd. by apply list_elem_of_lookup_2 with (Z.to_nat index). }
  cbv zeta in Hadd, Hout, Hi, Hm.
  repeat split; run_steps; rewrite Hin_range, Hjob; run_steps;
    rewrite ?Hloop; cbn [inventory set_crafting set_inventory]; done.
Qed.

Lemma X12_witness :
  let w1 := state_of (CraftingSystem.startCrafting "nail" 1 None
                        (newGame catalog 0)) in
  let w := state_of (CraftingSystem.startCrafting "horseshoe" 2 None w1) in
  result (CraftingSystem.cancelQueuedCraft 0 w) = true /\
  CraftingSystem.cancelQueuedCraft 5 w = (false, w, []).
Proof.
  intros w1 w.
  assert (Hnd : forall job, job ∈ Crafting.craftingQueue (crafting w) ->
                  NoDup (requiredMaterials (Job.itemData job)).*1).
  { intros job Hin. apply list_elem_of_singleton in Hin. subst job.
    apply NoDup_cons. split.
    - intros H. apply list_elem_of_singleton in H. discriminate H.
    - apply NoDup_singleton. }
  split.
  - exact (proj1 (X12_cancelQueuedCraft_refunds_one_unit w 0 Hnd)).
  - exact (X12_cancelQueuedCraft_refunds_one_unit w 5 Hnd).
Defined.

End RefundFacts.

(** ** Crafting: pauses *)

Section PauseFacts.

(** X13. While the current job is paused, update() leaves the game as it
    is and publishes nothing. resumeCrafting answers true exactly when
    the pause was not for want of coal or the forge is at 20 or above
    again; it then clears the pause and touches nothing else, and where it
    answers false it changes nothing. *)
Theorem X13_paused_job_waits_for_resume (w : World) (job : Job.t) :
  Crafting.currentCraft (crafting w) = Some job ->
  Job.paused job = true ->
  CraftingSystem.update w = (tt, w, []) /\
  (result (CraftingSystem.resumeCrafting w) = true <->
   Job.pauseReason job <> Some "Not enough coal" \/
   (20 <= Coal.level (coal w))%Q) /\
  (result (CraftingSystem.resumeCrafting w) = false ->
   state_of (CraftingSystem.resumeCrafting w) = w) /\
  (result (CraftingSystem.resumeCrafting w) = true ->
   state_of (CraftingSystem.resumeCrafting w)
   = set_crafting
       (Crafting.set_current (Some (Crafting.set_paused false None job))
          (crafting w)) w).
Proof.
  intros Hcur Hpaused. split.
  { unfold CraftingSystem.update, CraftingSystem.advance, bind, gets.
    by rewrite Hcur, Hpaused. }
  unfold CraftingSystem.resumeCrafting. run_steps.
  rewrite Hcur, Hpaused. cbn [negb]. run_steps.
  destruct (bool_decide (Job.pauseReason job = Some "Not enough coal"))
    eqn:Hreason; cbn [andb].
  - apply bool_decide_eq_true in Hreason.
    destruct (Coal.hasEnoughCoal 20 (coal w)) eqn:Hhot; cbn [negb]; run_steps.
    + apply JsFacts.geb_true in Hhot. split; [|done].
      split; [by right|done].
    + apply JsFacts.geb_false in Hhot. split; [|done].
      split; [discriminate|]. intros [Hne|Hle]; [done|lra].
  - apply bool_decide_eq_false in Hreason. split; [|done].
    split; [by left|done].
Qed.

Lemma X13_witness :
  let w := state_of (CraftingSystem.startCrafting "horseshoe" 1 None
                       (newGame catalog 0)) in
  let held := state_of (inCrafting (Crafting.pauseCrafting "Not enough coal") w) in
  CraftingSystem.update held = (tt, held, []) /\
  result (CraftingSystem.resumeCrafting held) = true.
Proof.
  intros w held.
  destruct (X13_paused_job_waits_for_resume held
              (Crafting.set_paused true (Some "Not enough coal")
                 (CraftingSystem.newJob "horseshoe" horseshoe (1 * 1) None)))
    as (Hu & Hr & _).
  - reflexivity.
  - reflexivity.
  - split; [exact Hu|]. apply Hr. right. vm_compute. discriminate.
Defined.

End PauseFacts.

(** ** The storefront: shelving and sales *)

Section ShelfFacts.
Import Inventory.

(** [addItem] on an amount that is not above zero. *)
Lemma addItem_refused (itemName : string) (amount : Q) (inv : t) :
  (amount <= 0)%Q -> addItem itemName amount inv = (false, inv, []).
Proof.
  intros Ha. unfold addItem.
  by assert (Js.leb amount 0 = true) as -> by (by apply JsFacts.leb_true).
Qed.

(** [addItemToStorefront] where the inventory gives the items up. *)
Lemma addItemToStorefront_run (itemId : string) (quantity q : Q) (w : World) :
  items (inventory w) !! itemId = Some q -> ~ (q == 0)%Q -> (quantity <= q)%Q ->
  let shelved := state_of (StorefrontSystem.addItemToStorefront itemId quantity w) in
  inventory shelved
  = set_items
      (if Qeq_bool (q - quantity) 0 then delete itemId (items (inventory w))
       else <[itemId := (q - quantity)%Q]> (items (inventory w)))
      (inventory w) /\
  (forall other, other <> itemId ->
     Storefront.storefrontItems (storefront shelved) !! other
     = Storefront.storefrontItems (storefront w) !! other) /\
  (StorefrontSystem.listed itemId shelved
   == StorefrontSystem.listed itemId w + quantity)%Q.
Proof.
  intros Hq Hnz Hle shelved.
  unfold shelved, StorefrontSystem.addItemToStorefront, inInventory.
  run_steps. rewrite (removeItem_enough _ _ _ _ Hq Hnz Hle). run_steps.
  cbn [negb]. run_steps. unfold StorefrontSystem.listed.
  destruct w as [inv c cr [listings mods] ct ub idata ws hd t].
  cbn -[Qplus Qminus Qeq_bool] in *.
  destruct (listings !! itemId) as [listing|] eqn:Hl;
    cbn -[Qplus Qminus Qeq_bool].
  - split; [done|]. split.
    + intros other Hne. by rewrite lookup_alter_ne.
    + rewrite lookup_alter_eq, Hl. cbn. reflexivity.
  - split; [done|]. split.
    + intros other Hne. by rewrite lookup_alter_ne, lookup_insert_ne.
    + rewrite lookup_alter_eq, lookup_insert_eq. cbn -[Qplus]. reflexivity.
Qed.

(** [addItemToStorefront] where the inventory refuses. *)
Lemma addItemToStorefront_refused (itemId : string) (quantity : Q) (w : World) :
  Inventory.removeItem itemId quantity (inventory w) = (false, inventory w, []) ->
  state_of (StorefrontSystem.addItemToStorefront itemId quantity w) = w.
Proof.
  intros Hno. unfold StorefrontSystem.addItemToStorefront, inInventory.
  run_steps. rewrite Hno. run_steps. cbn [negb]. run_steps.
  apply set_inventory_same.
Qed.

(** [removeItemFromStorefront] on a listing that covers the quantity. *)
Lemma removeItemFromStorefront_run (itemId : string) (quantity : Q)
    (listing : Storefront.Listing) (w : World) :
  Storefront.storefrontItems (storefront w) !! itemId = Some listing ->
  (quantity <= Storefront.quantity listing)%Q ->
  let returned :=
    state_of (StorefrontSystem.removeItemFromStorefront itemId quantity w) in
  result (StorefrontSystem.removeItemFromStorefront itemId quantity w) = true /\
  inventory returned = state_of (addItem itemId quantity (inventory w)) /\
  (forall other, other <> itemId ->
     Storefront.storefrontItems (storefront returned) !! other
     = Storefront.storefrontItems (storefront w) !! other) /\
  (StorefrontSystem.listed itemId returned
   == Storefront.quantity listing - quantity)%Q.
Proof.
  intros Hl Hle returned.
  assert (Hlt : Js.ltb (Storefront.quantity listing) quantity = false)
    by (by apply JsFacts.ltb_false).
  unfold returned, StorefrontSystem.removeItemFromStorefront, inInventory.
  split; [run_steps; rewrite Hl; run_steps; rewrite Hlt; by run_steps|].
  run_steps. rewrite Hl. run_steps. rewrite Hlt. run_steps.
  unfold StorefrontSystem.listed.
  destruct w as [inv c cr [listings mods] ct ub idata ws hd t].
  cbn -[Qplus Qminus Qeq_bool addItem] in *.
  destruct (Qeq_bool (Storefront.quantity listing - quantity) 0) eqn:Hz;
    cbn -[Qplus Qminus Qeq_bool addItem].
  - split; [done|]. split.
    + intros other Hne. by rewrite lookup_delete_ne, lookup_insert_ne.
    + rewrite lookup_delete_eq. apply Qeq_bool_iff in Hz. lra.
  - split; [done|]. split.
    + intros other Hne. by rewrite lookup_insert_ne.
    + rewrite lookup_insert_eq. cbn. reflexivity.
Qed.

(** [removeItemFromStorefront] where the listing falls short. *)
Lemma removeItemFromStorefront_refused (itemId : string) (quantity : Q)
    (w : World) :
  (forall listing,
     Storefront.storefrontItems (storefront w) !! itemId = Some listing ->
     (Storefront.quantity listing < quantity)%Q) ->
  result (StorefrontSystem.removeItemFromStorefront itemId quantity w) = false /\
  state_of (StorefrontSystem.removeItemFromStorefront itemId quantity w) = w.
Proof.
  intros Hshort. unfold StorefrontSystem.removeItemFromStorefront.
  run_steps.
  destruct (Storefront.storefrontItems (storefront w) !! itemId)
    as [listing|]; run_steps; [|done].
  assert (Js.ltb (Storefront.quantity listing) quantity = true) as ->
    by (apply JsFacts.ltb_true; by apply Hshort).
  by run_steps.
Qed.

(** X14. Moving items under an id that Object.prototype does not define
    between the inventory and the storefront neither makes nor loses any:
    for every item, the quantity held in the inventory plus the quantity
    on sale is the same after addItemToStorefront, whatever the quantity
    and the answer, and the same after removeItemFromStorefront of a
    quantity that is not negative. Neither touches the balance. *)
Theorem X14_shelving_conserves_items (w : World) (itemId other : string)
    (quantity : Q) :
  Js.inherited itemId = false ->
  let shelved := state_of (StorefrontSystem.addItemToStorefront itemId quantity w) in
  let returned :=
    state_of (StorefrontSystem.removeItemFromStorefront itemId quantity w) in
  (StorefrontSystem.stock other shelved == StorefrontSystem.stock other w)%Q /\
  money (inventory shelved) = money (inventory w) /\
  ((0 <= quantity)%Q ->
   (StorefrontSystem.stock other returned == StorefrontSystem.stock other w)%Q) /\
  money (inventory returned) = money (inventory w).
Proof.
  intros _ shelved returned.
  assert (Hshelved :
    (StorefrontSystem.stock other shelved == StorefrontSystem.stock other w)%Q /\
    money (inventory shelved) = money (inventory w)).
  { destruct (removeItem_cases itemId quantity (inventory w))
      as [Hno|(q & Hq & Hnz & Hle)].
    { unfold shelved. by rewrite (addItemToStorefront_refused _ _ _ Hno). }
    destruct (addItemToStorefront_run itemId quantity q w Hq Hnz Hle)
      as (Hinv & Hother & Hlisted).
    cbv zeta in Hinv, Hother, Hlisted. fold shelved in Hinv, Hother, Hlisted.
    split; [|by rewrite Hinv].
    unfold StorefrontSystem.stock. rewrite Hinv. cbn [items set_items].
    destruct (decide (other = itemId)) as [->|Hne].
    - rewrite Hlisted. unfold held. rewrite Hq.
      destruct (Qeq_bool (q - quantity) 0) eqn:Hz.
      + rewrite lookup_delete_eq. apply Qeq_bool_iff in Hz. cbn. lra.
      + rewrite lookup_insert_eq. cbn. lra.
    - unfold StorefrontSystem.listed, held. rewrite (Hother other Hne).
      destruct (Qeq_bool (q - quantity) 0).
      + rewrite lookup_delete_ne by done. reflexivity.
      + rewrite lookup_insert_ne by done. reflexivity. }
  destruct Hshelved as [Hstock Hmoney].
  split; [exact Hstock|]. split; [exact Hmoney|].
  destruct (Storefront.storefrontItems (storefront w) !! itemId)
    as [listing|] eqn:Hl.
  2: { destruct (removeItemFromStorefront_refused itemId quantity w)
         as [_ Hsame]; [intros listing Hl'; congruence|].
       unfold returned. by rewrite Hsame. }
  destruct (Qlt_le_dec (Storefront.quantity listing) quantity) as [Hlt|Hle].
  { destruct (removeItemFromStorefront_refused itemId quantity w)
      as [_ Hsame]; [intros listing' Hl'; congruence|].
    unfold returned. by rewrite Hsame. }
  destruct (removeItemFromStorefront_run itemId quantity listing w Hl Hle)
    as (_ & Hinv & Hother & Hlisted).
  cbv zeta in Hinv, Hother, Hlisted. fold returned in Hinv, Hother, Hlisted.
  destruct (addItem_others itemId quantity (inventory w)) as (Ho & _ & Hmn).
  cbv zeta in Ho, Hmn.
  split; [|by rewrite Hinv].
  intros Hq. unfold StorefrontSystem.stock. rewrite Hinv.
  destruct (decide (other = itemId)) as [->|Hne].
  - rewrite Hlisted. unfold StorefrontSystem.listed. rewrite Hl.
    destruct (Qle_lt_or_eq _ _ Hq) as [Hpos|Hzero].
    + destruct (addItem_lookup itemId quantity (inventory w) Hpos) as [_ Hk].
      unfold held at 1. rewrite Hk. cbn [from_option id].
      pose proof (or_default_held (items (inventory w)) itemId) as Hh. lra.
    + rewrite addItem_refused by lra. cbn [state_of fst snd]. lra.
  - unfold StorefrontSystem.listed, held. rewrite (Hother other Hne).
    rewrite (Ho other Hne). reflexivity.
Qed.

Lemma X14_witness :
  (StorefrontSystem.stock "horseshoe"
     (state_of (StorefrontSystem.addItemToStorefront "horseshoe" 2
                  (newGame catalog 0)))
   == StorefrontSystem.stock "horseshoe" (newGame catalog 0))%Q.
Proof.
  destruct (X14_shelving_conserves_items (newGame catalog 0) "horseshoe"
              "horseshoe" 2 eq_refl) as [Hstock _].
  exact Hstock.
Defined.

(** What [addMoney] leaves. *)
Lemma addMoney_effect (amount : Q) (inv : t) :
  let inv' := state_of (addMoney amount inv) in
  money inv' = (if Js.ltb 0 amount then money inv + amount else money inv)%Q /\
  materials inv' = materials inv /\ items inv' = items inv /\
  tools inv' = tools inv.
Proof.
  unfold addMoney, Js.ltb, Js.leb. by destruct (Qle_bool amount 0).
Qed.

(** X15. For an item id that Object.prototype does not define, sellItem
    answers true exactly when the item is listed in at least the quantity
    asked for. It then takes the quantity off the
    listing, removing a listing that reaches zero, and adds to the
    balance the price of the item times the quantity (when that is above
    zero); it leaves the other listings and the goods in the inventory
    alone. Where it answers false it changes nothing. *)
Theorem X15_sale_moves_goods_for_money (w : World) (itemId : string)
    (quantity : Q) :
  Js.inherited itemId = false ->
  let run := StorefrontSystem.sellItem itemId quantity w in
  let takings := (StorefrontSystem.getItemPrice itemId w * quantity)%Q in
  (result run = true <->
   exists listing,
     Storefront.storefrontItems (storefront w) !! itemId = Some listing /\
     (quantity <= Storefront.quantity listing)%Q) /\
  (result run = false -> state_of run = w) /\
  (result run = true ->
   (StorefrontSystem.listed itemId (state_of run)
    == StorefrontSystem.listed itemId w - quantity)%Q /\
   (forall listing,
      Storefront.storefrontItems (storefront (state_of run)) !! itemId
      = Some listing -> ~ (Storefront.quantity listing == 0)%Q) /\
   (forall other, other <> itemId ->
      Storefront.storefrontItems (storefront (state_of run)) !! other
      = Storefront.storefrontItems (storefront w) !! other) /\
   money (inventory (state_of run))
   = (if Js.ltb 0 takings then money (inventory w) + takings
      else money (inventory w))%Q /\
   materials (inventory (state_of run)) = materials (inventory w) /\
   items (inventory (state_of run)) = items (inventory w) /\
   tools (inventory (state_of run)) = tools (inventory w)).
Proof.
  intros _ run takings. unfold run, StorefrontSystem.sellItem.
  destruct (Storefront.storefrontItems (storefront w) !! itemId)
    as [listing|] eqn:Hl.
  2: { run_steps. rewrite Hl. run_steps.
       split; [|done]. split; [discriminate|by intros (? & ? & _)]. }
  destruct (Js.ltb (Storefront.quantity listing) quantity) eqn:Hlt.
  { run_steps. rewrite Hl. run_steps. rewrite Hlt. run_steps.
    apply JsFacts.ltb_true in Hlt. split; [|done].
    split; [discriminate|]. intros (l & Hl' & Hle).
    injection Hl' as <-. lra. }
  apply JsFacts.ltb_false in Hlt. split; [|split].
  - run_steps. rewrite Hl. run_steps.
    assert (Js.ltb (Storefront.quantity listing) quantity = false) as ->
      by (by apply JsFacts.ltb_false).
    run_steps. split; [intros _; by exists listing|done].
  - run_steps. rewrite Hl. run_steps.
    assert (Js.ltb (Storefront.quantity listing) quantity = false) as ->
      by (by apply JsFacts.ltb_false).
    run_steps. discriminate.
  - intros _. unfold inInventory. run_steps. rewrite Hl. run_steps.
    assert (Js.ltb (Storefront.quantity listing) quantity = false) as ->
      by (by apply JsFacts.ltb_false).
    run_steps. fold takings.
    unfold StorefrontSystem.listed. rewrite Hl.
    destruct (addMoney_effect takings
                (inventory
                   (set_storefront
                      (Storefront.set_items
                         (if Qeq_bool (Storefront.quantity listing - quantity) 0
                          then delete itemId
                                 (Storefront.storefrontItems (storefront w))
                          else <[itemId :=
                                   {| Storefront.quantity :=
                                        Storefront.quantity listing - quantity;
                                      Storefront.price := Storefront.price listing;
                                      Storefront.lastSold := Some (now w) |}]>
                                 (Storefront.storefrontItems (storefront w)))
                         (storefront w)) w)))
      as (Hmn & Hma & Hit & Hto).
    cbv zeta in Hmn, Hma, Hit, Hto.
    cbn [Storefront.quantity storefront inventory set_storefront
         set_inventory Storefront.storefrontItems Storefront.set_items]
      in *.
    rewrite Hmn, Hma, Hit, Hto.
    destruct (Qeq_bool (Storefront.quantity listing - quantity) 0) eqn:Hz.
    + rewrite lookup_delete_eq. apply Qeq_bool_iff in Hz.
      split; [lra|]. split; [discriminate|]. split; [|done].
      intros other Hne. by rewrite lookup_delete_ne.
    + rewrite lookup_insert_eq. apply Qeq_bool_neq in Hz.
      split; [reflexivity|]. split.
      { intros l Hl'. injection Hl' as <-. exact Hz. }
      split; [|done]. intros other Hne. by rewrite lookup_insert_ne.
Qed.

Lemma X15_witness :
  let w :=
    state_of (StorefrontSystem.addItemToStorefront "horseshoe" 2
                (newGame catalog 0)) in
  (StorefrontSystem.listed "horseshoe"
     (state_of (StorefrontSystem.sellItem "horseshoe" 1 w))
   == StorefrontSystem.listed "horseshoe" w - 1)%Q.
Proof.
  intros w.
  destruct (X15_sale_moves_goods_for_money w "horseshoe" 1 eq_refl)
    as (_ & _ & Hsold).
  destruct Hsold as [Hlisted _]; [by vm_compute|exact Hlisted].
Defined.

End ShelfFacts.

(** ** Contracts: finding, fulfilling and rejecting *)

Section BoardFacts.
Import Contract ContractSystem.

(** [findIndex] finds the first element that passes the test. *)
Lemma findIndex_Some {A} (test : A -> bool) (l : list A) (i : nat) :
  findIndex test l = Some i ->
  exists before c after,
    l = before ++ c :: after /\ length before = i /\ test c = true /\
    Forall (fun x => test x = false) before.
Proof.
  revert i. induction l as [|x rest IH]; intros i; [discriminate|].
  cbn [findIndex]. destruct (test x) eqn:Hx.
  - intros [= <-]. by exists [], x, rest.
  - destruct (findIndex test rest) as [j|]; [|discriminate].
    intros [= <-]. destruct (IH j eq_refl) as (before & c & after & -> & <- & Hc & Hb).
    exists (x :: before), c, after. repeat split; try done.
    by apply Forall_cons.
Qed.

Lemma findIndex_None {A} (test : A -> bool) (l : list A) :
  findIndex test l = None <-> Forall (fun x => test x = false) l.
Proof.
  induction l as [|x rest IH]; cbn [findIndex]; [by split|].
  destruct (test x) eqn:Hx.
  - split; [discriminate|]. intros H. apply Forall_cons in H as [H _].
    congruence.
  - destruct (findIndex test rest) as [j|]; cbn.
    + split; [discriminate|]. intros H. apply Forall_cons in H as [_ H].
      apply IH in H. discriminate.
    + split; [|done]. intros _. apply Forall_cons. split; [done|].
      by apply IH.
Qed.

(** The contract that [fulfillContract] and [rejectContract] pick: the
    first standard contract with the id, or else the first special
    one. *)
Lemma locate_Some (sought : list fragment -> bool) (board : Contracts.t)
    (special : bool) (index : nat) (c : Contract.t) :
  locate sought board = Some (special, index, c) ->
  sought (id c) = true /\
  exists before after,
    length before = index /\
    Forall (fun x => sought (id x) = false) before /\
    if special then
      Forall (fun x => sought (id x) = false) (Contracts.activeContracts board) /\
      Contracts.specialContracts board = before ++ c :: after
    else Contracts.activeContracts board = before ++ c :: after.
Proof.
  unfold locate.
  destruct (findIndex _ (Contracts.activeContracts board)) as [i|] eqn:Hactive.
  - destruct (findIndex_Some _ _ _ Hactive)
      as (before & x & after & Hsplit & <- & Hx & Hbefore).
    rewrite Hsplit, list_lookup_middle by done. cbn. intros [= <- <- <-].
    split; [exact Hx|]. by exists before, after.
  - apply findIndex_None in Hactive.
    destruct (findIndex _ (Contracts.specialContracts board)) as [i|] eqn:Hspecial;
      [|discriminate].
    destruct (findIndex_Some _ _ _ Hspecial)
      as (before & x & after & Hsplit & <- & Hx & Hbefore).
    rewrite Hsplit, list_lookup_middle by done. cbn. intros [= <- <- <-].
    split; [exact Hx|]. by exists before, after.
Qed.

Lemma locate_None (sought : list fragment -> bool) (board : Contracts.t) :
  locate sought board = None <->
  Forall (fun x => sought (id x) = false)
    (Contracts.activeContracts board ++ Contracts.specialContracts board).
Proof.
  unfold locate. rewrite Forall_app, <- !findIndex_None.
  destruct (findIndex _ (Contracts.activeContracts board)) as [i|] eqn:Hactive.
  - destruct (findIndex_Some _ _ _ Hactive)
      as (before & x & after & Hsplit & <- & _).
    rewrite Hsplit, list_lookup_middle by done. cbn.
    split; [discriminate|]. by intros [? _].
  - destruct (findIndex _ (Contracts.specialContracts board)) as [i|] eqn:Hspecial.
    + destruct (findIndex_Some _ _ _ Hspecial)
        as (before & x & after & Hsplit & <- & _).
      rewrite Hsplit, list_lookup_middle by done. cbn.
      split; [discriminate|]. by intros [_ ?].
    + done.
Qed.

(** X16. rejectContract answers true exactly when a contract on one of
    the boards has the id. It then removes one contract and publishes
    contract:rejected for it: the first standard contract with the id
    or, if no standard contract has it, the first special one. The other
    contracts stay in their order, and the inventory is left alone. Where
    it answers false it changes nothing. *)
Theorem X16_rejectContract_strikes_first_match (w : World)
    (sought : list fragment -> bool) :
  let run := rejectContract sought w in
  let standard w := Contracts.activeContracts (contracts w) in
  let special w := Contracts.specialContracts (contracts w) in
  (result run = true <->
   exists c, c ∈ (standard w ++ special w) /\ sought (id c) = true) /\
  (result run = false -> state_of run = w) /\
  (result run = true ->
   exists before c after,
     sought (id c) = true /\
     Forall (fun x => sought (id x) = false) before /\
     (standard w = before ++ c :: after /\
      standard (state_of run) = before ++ after /\
      special (state_of run) = special w
      \/
      Forall (fun x => sought (id x) = false) (standard w) /\
      special w = before ++ c :: after /\
      special (state_of run) = before ++ after /\
      standard (state_of run) = standard w) /\
     contract_rejected c ∈ events_of run /\
     inventory (state_of run) = inventory w).
Proof.
  intros run standard special. unfold run, rejectContract, strike.
  destruct (locate sought (contracts w)) as [[[isSpecial index] c]|] eqn:Hloc.
  - destruct (locate_Some _ _ _ _ _ Hloc)
      as (Hc & before & after & <- & Hbefore & Hsplit).
    split; [|split].
    + run_steps. rewrite Hloc. run_steps. split; [|done]. intros _.
      exists c. split; [|exact Hc]. unfold standard, special.
      apply elem_of_app. destruct isSpecial.
      * right. destruct Hsplit as [_ ->]. apply elem_of_app. right.
        apply elem_of_cons. by left.
      * left. rewrite Hsplit. apply elem_of_app. right.
        apply elem_of_cons. by left.
    + run_steps. rewrite Hloc. by run_steps.
    + intros _. exists before, c, after. split; [exact Hc|].
      split; [exact Hbefore|]. run_steps. rewrite Hloc. run_steps.
      split; [|split].
      * unfold standard, special. destruct isSpecial.
        -- right. destruct Hsplit as [Hactive Hspecial].
           split; [exact Hactive|]. split; [exact Hspecial|].
           cbn [contracts set_contracts Contracts.activeContracts
                Contracts.specialContracts Contracts.set_special].
           rewrite Hspecial, delete_middle. done.
        -- left. split; [exact Hsplit|].
           cbn [contracts set_contracts Contracts.activeContracts
                Contracts.specialContracts Contracts.set_active].
           rewrite Hsplit, delete_middle. done.
      * cbn [app]. apply elem_of_cons. by left.
      * by destruct isSpecial.
  - pose proof Hloc as Hnone. apply locate_None in Hnone.
    run_steps. rewrite Hloc. run_steps. split; [|done].
    split; [discriminate|]. intros (c & Hin & Hc).
    rewrite Forall_forall in Hnone. specialize (Hnone c Hin). congruence.
Qed.

(** X17. On boards whose contracts all carry a payout, fulfillContract
    answers true exactly when a contract on a board has the id and the
    inventory holds the item of the contract picked (the first standard
    one with the id, or else the first special one) in the quantity it
    asks for. It then strikes that contract off its board, takes the
    quantity from the inventory, adds the payout to the balance and
    publishes contract:completed. Where it answers false it changes
    nothing. *)
Theorem X17_fulfillContract_trades_items_for_payout (w : World)
    (sought : list fragment -> bool) :
  (forall c,
     c ∈ (Contracts.activeContracts (contracts w)
          ++ Contracts.specialContracts (contracts w)) ->
     is_Some (payout c)) ->
  let run := fulfillContract sought w in
  (result run = true <->
   exists isSpecial index c,
     locate sought (contracts w) = Some (isSpecial, index, c) /\
     Inventory.hasItems [(item c, quantity c)] (inventory w) = true) /\
  (result run = false -> state_of run = w) /\
  (result run = true ->
   exists isSpecial index c paid,
     locate sought (contracts w) = Some (isSpecial, index, c) /\
     payout c = Some paid /\
     contracts (state_of run)
     = (if isSpecial then
          Contracts.set_special
            (delete index (Contracts.specialContracts (contracts w)))
            (contracts w)
        else
          Contracts.set_active
            (delete index (Contracts.activeContracts (contracts w)))
            (contracts w)) /\
     (Inventory.held (Inventory.items (inventory (state_of run))) (item c)
      == Inventory.held (Inventory.items (inventory w)) (item c) - quantity c)%Q /\
     (forall other, other <> item c ->
        Inventory.items (inventory (state_of run)) !! other
        = Inventory.items (inventory w) !! other) /\
     Inventory.money (inventory (state_of run))
     = (if Js.ltb 0 paid then Inventory.money (inventory w) + paid
        else Inventory.money (inventory w))%Q /\
     Inventory.materials (inventory (state_of run))
     = Inventory.materials (inventory w) /\
     Inventory.tools (inventory (state_of run)) = Inventory.tools (inventory w) /\
     contract_completed c ∈ events_of run).
Proof.
  intros Hpaid run. unfold run, fulfillContract, strike, inInventory.
  destruct (locate sought (contracts w)) as [[[isSpecial index] c]|] eqn:Hloc.
  2: { run_steps. rewrite Hloc. run_steps. split; [|done].
       split; [discriminate|]. by intros (? & ? & ? & ? & _). }
  assert (Hon : is_Some (payout c)).
  { apply Hpaid. destruct (locate_Some _ _ _ _ _ Hloc)
      as (_ & before & after & _ & _ & Hsplit).
    apply elem_of_app. destruct isSpecial.
    - right. destruct Hsplit as [_ ->]. apply elem_of_app. right.
      apply elem_of_cons. by left.
    - left. rewrite Hsplit. apply elem_of_app. right.
      apply elem_of_cons. by left. }
  destruct Hon as [paid Hpayout].
  destruct (Inventory.hasItems [(item c, quantity c)] (inventory w)) eqn:Hhas.
  2: { run_steps. rewrite Hloc. run_steps. rewrite Hhas. cbn [negb]. run_steps.
       split; [|done]. split; [discriminate|].
       intros (s' & i' & c' & [= <- <- <-] & Hyes). congruence. }
  assert (Hstock := Hhas). unfold Inventory.hasItems in Hstock.
  cbn [forallb] in Hstock. rewrite andb_true_r in Hstock.
  apply negb_true_iff, lacks_false in Hstock as (q & Hq & Hle & Hnz).
  cbn [fst snd] in Hq, Hle.
  pose proof (removeItem_enough _ _ _ _ Hq Hnz Hle) as Hrem.
  split; [|split].
  - run_steps. rewrite Hloc. run_steps. rewrite Hhas. cbn [negb]. run_steps.
    rewrite Hrem. run_steps. cbn [negb]. run_steps. rewrite Hpayout.
    run_steps. split; [|done]. intros _. by exists isSpecial, index, c.
  - run_steps. rewrite Hloc. run_steps. rewrite Hhas. cbn [negb]. run_steps.
    rewrite Hrem. run_steps. cbn [negb]. run_steps. rewrite Hpayout.
    run_steps. discriminate.
  - intros _. exists isSpecial, index, c, paid. split; [done|]. split; [done|].
    run_steps. rewrite Hloc. run_steps. rewrite Hhas. cbn [negb]. run_steps.
    rewrite Hrem. run_steps. cbn [negb]. run_steps. rewrite Hpayout.
    run_steps.
    match goal with
    | |- context [Inventory.addMoney paid ?inv0] =>
        destruct (addMoney_effect paid inv0) as (Hmn & Hma & Hit & Hto)
    end.
    cbv zeta in Hmn, Hma, Hit, Hto.
    cbn [contracts inventory set_contracts set_inventory] in *.
    rewrite Hmn, Hma, Hit, Hto.
    cbn [Inventory.items Inventory.set_items Inventory.money
         Inventory.materials Inventory.tools].
    split; [by destruct isSpecial|].
    split; [|split; [|split; [done|split; [done|split; [done|]]]]].
    + unfold Inventory.held. rewrite Hq.
      destruct (Qeq_bool (q - quantity c) 0) eqn:Hz.
      * rewrite lookup_delete_eq. apply Qeq_bool_iff in Hz. cbn. lra.
      * rewrite lookup_insert_eq. cbn. lra.
    + intros other Hne. destruct (Qeq_bool (q - quantity c) 0).
      * by rewrite lookup_delete_ne.
      * by rewrite lookup_insert_ne.
    + cbn [app]. apply elem_of_cons. right. apply elem_of_app. right.
      apply elem_of_cons. by left.
Qed.

Lemma X17_witness :
  let order :=
    {| id := [Str "ranch_horseshoes_"; Num 0]; customer := "Wilson Ranch";
       item := "horseshoe"; quantity := 2; expiryTime := 600000;
       payoutMultiplier := Some 1.2%Q; payout := None; itemName := None;
       timeCreated := None; isSpecial := false |} in
  let w := state_of (generateContract (Some order) (newGame catalog 0)) in
  result (fulfillContract (fun _ => true) w) = true.
Proof.
  intros order w.
  destruct (X17_fulfillContract_trades_items_for_payout w (fun _ => true))
    as (Hyes & _).
  - intros c Hin. vm_compute in Hin. apply list_elem_of_singleton in Hin.
    subst c. by eexists.
  - apply Hyes. eexists _, _, _. split; vm_compute; reflexivity.
Defined.

(** The board after [fulfillContract] or [rejectContract]: as it was, or
    with one contract struck off. *)
Lemma struck_or_kept (sought : list fragment -> bool) (w : World) :
  let kept board := board = contracts w in
  let struck board :=
    exists index,
      board = Contracts.set_special
                (delete index (Contracts.specialContracts (contracts w)))
                (contracts w) \/
      board = Contracts.set_active
                (delete index (Contracts.activeContracts (contracts w)))
                (contracts w) in
  (kept (contracts (state_of (fulfillContract sought w))) \/
   struck (contracts (state_of (fulfillContract sought w)))) /\
  (kept (contracts (state_of (rejectContract sought w))) \/
   struck (contracts (state_of (rejectContract sought w)))).
Proof.
  intros kept struck. unfold kept, struck. split.
  - unfold fulfillContract, strike, inInventory. run_steps.
    destruct (locate sought (contracts w)) as [[[isSpecial index] c]|];
      run_steps; [|by left].
    destruct (Inventory.hasItems _ _); cbn [negb]; run_steps; [|by left].
    destruct (result (Inventory.removeItem _ _ _)); cbn [negb]; run_steps;
      [|by left].
    right. exists index.
    destruct (payout c); run_steps;
      cbn [contracts set_contracts set_inventory];
      destruct isSpecial; auto.
  - unfold rejectContract, strike. run_steps.
    destruct (locate sought (contracts w)) as [[[isSpecial index] c]|];
      run_steps; [|by left].
    right. exists index. cbn [contracts set_contracts].
    destruct isSpecial; auto.
Qed.

Lemma wellKept_delete (board : Contracts.t) (index : nat) :
  wellKept board ->
  wellKept (Contracts.set_special
              (delete index (Contracts.specialContracts board)) board) /\
  wellKept (Contracts.set_active
              (delete index (Contracts.activeContracts board)) board).
Proof.
  intros (Hlen & Hactive & Hspecial). split.
  - split; [exact Hlen|]. split; [exact Hactive|]. by apply Forall_delete.
  - split; [|split; [by apply Forall_delete|exact Hspecial]].
    cbn [Contracts.activeContracts Contracts.set_active].
    etransitivity; [|exact Hlen]. apply sublist_length, sublist_delete.
Qed.

Lemma wellKept_filter (board : Contracts.t) (keep : Contract.t -> bool) :
  wellKept board ->
  wellKept
    (Contracts.set_special
       (List.filter keep (Contracts.specialContracts
          (Contracts.set_active
             (List.filter keep (Contracts.activeContracts board)) board)))
       (Contracts.set_active
          (List.filter keep (Contracts.activeContracts board)) board)).
Proof.
  intros (Hlen & Hactive & Hspecial).
  cbn [Contracts.activeContracts Contracts.specialContracts
       Contracts.set_active Contracts.set_special].
  assert (Hsub : forall l : list Contract.t,
            Forall offered l -> Forall offered (List.filter keep l)).
  { induction l as [|x l IH]; cbn; [done|]. intros H.
    apply Forall_cons in H as [Hx Hl].
    destruct (keep x); [apply Forall_cons; split; [exact Hx|]|]; by apply IH. }
  split; [|split].
  - etransitivity; [apply filter_length_le|exact Hlen].
  - by apply Hsub.
  - by apply Hsub.
Qed.

Lemma generateContract_wellKept (generated : option Contract.t) (w : World) :
  wellKept (contracts w) ->
  wellKept (contracts (state_of (generateContract generated w))).
Proof.
  intros (Hlen & Hactive & Hspecial). unfold generateContract. run_steps.
  destruct (Contracts.maxContracts <=? _)%nat eqn:Hfull; [done|].
  apply Nat.leb_gt in Hfull.
  destruct generated as [contract|]; [|done]. run_steps.
  destruct (itemsData w !! item contract) as [itemData|]; [|done]. run_steps.
  cbn [contracts set_contracts]. split; [|split]; cbn.
  - rewrite length_app. cbn. lia.
  - apply Forall_app. split; [exact Hactive|]. apply Forall_singleton.
    repeat split; by eexists.
  - exact Hspecial.
Qed.

Lemma addSpecialContract_wellKept (contract : Contract.t) (w : World) :
  wellKept (contracts w) ->
  wellKept (contracts (state_of (addSpecialContract contract w))).
Proof.
  intros (Hlen & Hactive & Hspecial). unfold addSpecialContract. run_steps.
  destruct (itemsData w !! item contract) as [itemData|]; [|done]. run_steps.
  cbn [contracts set_contracts]. split; [|split]; cbn; [done|done|].
  apply Forall_app. split; [exact Hspecial|]. apply Forall_singleton.
  repeat split; try by eexists.
  destruct (Js.truthy_opt (payout contract)) eqn:Hp; cbn; [|by eexists].
  destruct (payout contract); [by eexists|discriminate].
Qed.

(** X18. Boards in order stay in order: if the standard board holds at
    most maxContracts contracts and every contract on the two boards
    carries a payout, the name of its item and its date, then the same
    holds after update(), whatever the generator offers, after
    checkForSpecialContracts, after fulfillContract and after
    rejectContract. The boards of a new game are in order. *)
Theorem X18_boards_stay_in_order (w : World) (generated : option Contract.t)
    (itemId : string) (sought : list fragment -> bool) :
  wellKept (contracts w) ->
  wellKept (contracts (state_of (update generated w))) /\
  wellKept (contracts (state_of (checkForSpecialContracts itemId w))) /\
  wellKept (contracts (state_of (fulfillContract sought w))) /\
  wellKept (contracts (state_of (rejectContract sought w))) /\
  (forall items today, wellKept (contracts (newGame items today))).
Proof.
  intros Hw. split; [|split; [|split; [|split]]].
  - unfold update. run_steps.
    match goal with
    | |- wellKept (contracts (state_of (checkExpiredContracts ?w1))) =>
        destruct (checkExpiredContracts_run w1) as (Ha & Hs & _);
        assert (Hprepared : wellKept (contracts w1))
    end.
    { destruct (Js.geb _ Contracts.contractInterval); run_steps.
      - apply generateContract_wellKept. exact Hw.
      - exact Hw. }
    destruct Hprepared as (Hlen & Hactive & Hspecial).
    assert (Hsub : forall (keep : Contract.t -> bool) (l : list Contract.t),
              Forall offered l -> Forall offered (List.filter keep l)).
    { intros keep. induction l as [|x l IH]; cbn; [done|]. intros H.
      apply Forall_cons in H as [Hx Hl].
      destruct (keep x); [apply Forall_cons; split; [exact Hx|]|];
        by apply IH. }
    split; [|split].
    + rewrite Ha. etransitivity; [apply filter_length_le|exact Hlen].
    + rewrite Ha. by apply Hsub.
    + rewrite Hs. by apply Hsub.
  - unfold checkForSpecialContracts.
    destruct (specialItems !! itemId) as [[[[who howMany] multiplier] minutes]|];
      [|exact Hw].
    run_steps. by apply addSpecialContract_wellKept.
  - destruct (struck_or_kept sought w) as [[->|(index & [->| ->])] _];
      [exact Hw|by apply wellKept_delete..].
  - destruct (struck_or_kept sought w) as [_ [->|(index & [->| ->])]];
      [exact Hw|by apply wellKept_delete..].
  - intros items today. split; [|split]; cbn; [lia|done|done].
Qed.

Lemma X18_witness :
  wellKept (contracts (state_of (update None (newGame catalog 0)))).
Proof.
  apply (X18_boards_stay_in_order (newGame catalog 0) None "rifle"
           (fun _ => true)).
  split; [|split]; cbn; [lia|done|done].
Defined.

(** X19. getContractTimeRemaining gives zero minutes, seconds and
    percentage for a contract that has expired. For one that has not, it
    splits the milliseconds left into whole minutes and whole seconds
    below 60, dropping less than one second. *)
Theorem X19_time_remaining_decodes_the_gap (contract : Contract.t)
    (durationMinutes : option Q) (w : World) :
  let left := getContractTimeRemaining contract durationMinutes w in
  let gap := (expiryTime contract - now w)%Z in
  ((gap <= 0)%Z ->
   left = {| minutes := 0; seconds := 0; percentage := 0 |}) /\
  ((0 < gap)%Z ->
   (0 <= minutes left)%Z /\ (0 <= seconds left < 60)%Z /\
   (minutes left * 60000 + seconds left * 1000 <= gap)%Z /\
   (gap < minutes left * 60000 + seconds left * 1000 + 1000)%Z).
Proof.
  intros left gap. unfold left, getContractTimeRemaining. fold gap. split.
  - intros Hle. by assert ((gap <=? 0)%Z = true) as -> by (by apply Z.leb_le).
  - intros Hpos.
    assert ((gap <=? 0)%Z = false) as -> by (by apply Z.leb_gt).
    cbn [minutes seconds]. change (1000 * 60)%Z with 60000%Z.
    pose proof (Z.div_mod gap 60000 ltac:(lia)) as Hdm.
    pose proof (Z.mod_pos_bound gap 60000 ltac:(lia)) as Hmb.
    pose proof (Z.div_mod (gap mod 60000) 1000 ltac:(lia)) as Hdm2.
    pose proof (Z.mod_pos_bound (gap mod 60000) 1000 ltac:(lia)) as Hmb2.
    assert (0 <= gap / 60000)%Z by (apply Z.div_pos; lia).
    assert (0 <= gap mod 60000 / 1000)%Z by (apply Z.div_pos; lia).
    assert (gap mod 60000 / 1000 < 60)%Z
      by (apply Z.div_lt_upper_bound; lia).
    lia.
Qed.

End BoardFacts.


(** * Blueprints: the set of unlocked ids and the flags of the items *)

Section BlueprintFlags.

Import BlueprintSystem.

Lemma unlockBlueprint_run (itemId : string) (w : World) (itemData : ItemData) :
  isUnlocked itemId w = false ->
  itemsData w !! itemId = Some itemData ->
  unlockedBlueprints (state_of (unlockBlueprint itemId w))
  = {[itemId]} ∪ unlockedBlueprints w /\
  itemsData (state_of (unlockBlueprint itemId w))
  = alter (set_unlocked true) itemId (itemsData w).
Proof.
  intros Hknown Hitem. unfold unlockBlueprint.
  split; run_steps; rewrite Hknown; run_steps; rewrite Hitem; run_steps.
  - by rewrite checkForSpecialContracts_frame.
  - by rewrite checkForSpecialContracts_items.
Qed.

(** X20. The flag [unlocked] of every item agrees with the set of unlocked
    blueprints in a new game, and unlockBlueprint keeps the two in
    agreement, whether it unlocks the item or refuses. *)
Theorem X20_unlockBlueprint_keeps_flags_in_step (w : World) (itemId : string) :
  flagsAgree w ->
  flagsAgree (state_of (unlockBlueprint itemId w)) /\
  (forall items today, flagsAgree (newGame items today)).
Proof.
  intros Hw. split.
  - destruct (isUnlocked itemId w) eqn:Hknown;
      [by rewrite unlockBlueprint_known|].
    destruct (itemsData w !! itemId) as [itemData|] eqn:Hitem;
      [|by rewrite unlockBlueprint_unknown].
    destruct (unlockBlueprint_run itemId w itemData Hknown Hitem) as [Hset Hmap].
    intros other otherData. rewrite Hset, Hmap.
    destruct (decide (other = itemId)) as [->|Hne].
    + rewrite lookup_alter_eq, Hitem. cbn. intros [= <-]. cbn.
      symmetry. apply bool_decide_eq_true, elem_of_union. left.
      by apply elem_of_singleton.
    + rewrite lookup_alter_ne by done. intros Hother.
      rewrite (Hw other otherData Hother).
      apply bool_decide_ext. rewrite elem_of_union, elem_of_singleton.
      tauto.
  - intros items today other otherData. cbn. intros Hother.
    destruct (unlocked otherData) eqn:Hflag; symmetry.
    + apply bool_decide_eq_true. apply elem_of_dom. exists otherData.
      by apply map_lookup_filter_Some.
    + apply bool_decide_eq_false. intros [found Hfound]%elem_of_dom.
      apply map_lookup_filter_Some in Hfound as [Hfound Hyes].
      cbn in Hyes. congruence.
Qed.

Lemma X20_witness :
  flagsAgree (state_of (unlockBlueprint "rifle" (newGame catalog 0))).
Proof.
  apply (X20_unlockBlueprint_keeps_flags_in_step (newGame catalog 0) "rifle").
  intros other otherData Hother.
  unfold catalog in Hother. cbn [newGame itemsData unlockedBlueprints] in *.
  repeat (apply lookup_insert_Some in Hother as [[<- <-]|[_ Hother]];
          [by vm_compute|]).
  by rewrite lookup_empty in Hother.
Defined.

(** X21. Loading what serialize() saved from one game into any other game
    gives exactly the saved set of unlocked blueprints, sets the flag of
    every item of the catalog to agree with that set, and keeps the ids of
    the catalog. Loading missing data changes nothing. *)
Theorem X21_saved_blueprints_load_back (saved w : World) :
  let loaded := state_of (deserialize (Some (serialize saved)) w) in
  unlockedBlueprints loaded = unlockedBlueprints saved /\
  flagsAgree loaded /\
  (forall itemId, is_Some (itemsData loaded !! itemId)
                  <-> is_Some (itemsData w !! itemId)) /\
  deserialize None w = (tt, w, []).
Proof.
  cbn zeta. unfold deserialize, serialize.
  split; [|split; [|split; [|reflexivity]]].
  - run_steps. cbn. apply list_to_set_elements_L.
  - intros itemId itemData. run_steps. cbn.
    rewrite map_lookup_imap. destruct (itemsData w !! itemId); cbn; [|done].
    by intros [= <-].
  - intros itemId. run_steps. cbn. rewrite map_lookup_imap.
    destruct (itemsData w !! itemId); cbn; split; intros [? ?]; by eexists.
Qed.

(** X22. purchaseBlueprint answers true exactly for a locked item of the
    catalog that has a blueprint price, and in every case it leaves the
    game as it was: no money is taken and nothing is unlocked, because the
    request it sends on the bus has no listener. *)
Theorem X22_purchaseBlueprint_changes_nothing (itemId : string) (w : World) :
  state_of (purchaseBlueprint itemId w) = w /\
  (result (purchaseBlueprint itemId w) = true <->
   isUnlocked itemId w = false /\
   exists itemData, itemsData w !! itemId = Some itemData /\
     Js.truthy_opt (blueprintPrice itemData) = true).
Proof.
  unfold purchaseBlueprint. split.
  - run_steps. destruct (isUnlocked itemId w); run_steps; [done|].
    destruct (itemsData w !! itemId) as [itemData|]; run_steps; [|done].
    by destruct (Js.truthy_opt (blueprintPrice itemData)); run_steps.
  - run_steps. destruct (isUnlocked itemId w); run_steps.
    { split; [done|]. by intros [? _]. }
    destruct (itemsData w !! itemId) as [itemData|]; run_steps.
    + destruct (Js.truthy_opt (blueprintPrice itemData)) eqn:Hp; run_steps.
      * split; [|done]. intros _. split; [done|]. by exists itemData.
      * split; [done|]. intros [_ (other & [= <-] & Hyes)]. congruence.
    + split; [done|]. by intros [_ (other & Hno & _)].
Qed.

End BlueprintFlags.


(** * Workers: fitness, rest, hiring and discounts *)

Section FitFacts.

Import WorkerSystem.

Lemma keepsFit_refl (hired : list (string * Worker.t)) : keepsFit hired hired.
Proof. by intros H. Qed.

Lemma keepsFit_trans (a b c : list (string * Worker.t)) :
  keepsFit a b -> keepsFit b c -> keepsFit a c.
Proof. intros Hab Hbc Ha. by apply Hbc, Hab. Qed.

(** The three worker types have rates and a maximum that are not
    negative, and a price. *)
Lemma workerTypes_sane (workerTypeId : string)
    (workerType : Worker.WorkerType) :
  workerTypes !! workerTypeId = Some workerType ->
  (0 <= Worker.maxFatigue workerType)%Q /\
  (0 <= Worker.fatigueRate workerType)%Q /\
  (0 <= Worker.recoveryRate workerType)%Q /\
  (0 < Worker.hireCost workerType)%Q.
Proof.
  unfold workerTypes. intros H.
  repeat (apply lookup_insert_Some in H as [[_ <-]|[_ H]]; [cbn; lra|]).
  by rewrite lookup_empty in H.
Qed.

Lemma fit_same (f : Worker.t -> Worker.t) :
  (forall worker,
     Worker.fatigue (f worker) = Worker.fatigue worker /\
     Worker.workerType (f worker) = Worker.workerType worker) ->
  forall worker, fit worker -> fit (f worker).
Proof.
  intros Hf worker. unfold fit. by destruct (Hf worker) as [-> ->].
Qed.

Lemma allFit_onWorker (workerId : string) (f : Worker.t -> Worker.t)
    (hired : list (string * Worker.t)) :
  (forall worker, fit worker -> fit (f worker)) ->
  allFit hired ->
  allFit (map (fun entry =>
                 if String.eqb entry.1 workerId then (entry.1, f entry.2)
                 else entry) hired).
Proof.
  intros Hf. unfold allFit.
  induction 1 as [|[k x] rest Hx Hrest IH]; cbn [map]; constructor;
    [|exact IH].
  cbn [fst snd] in *. destruct (String.eqb k workerId); cbn [snd]; auto.
Qed.

Lemma respects_onWorker_fit (workerId : string) (f : Worker.t -> Worker.t) :
  (forall worker, fit worker -> fit (f worker)) ->
  respects keepsFit (onWorker workerId f).
Proof.
  intros Hf w Hw. unfold onWorker.
  cbn [modify state_of fst snd workers set_workers].
  by apply allFit_onWorker.
Qed.

(** Two assignments to the same worker, of which only the second leaves
    the worker fit again. *)
Lemma respects_twice {B} (workerId : string) (f g : Worker.t -> Worker.t)
    (rest : M event World B) :
  (forall worker, fit worker -> fit (g (f worker))) ->
  respects keepsFit rest ->
  respects keepsFit (onWorker workerId f ;; onWorker workerId g ;; rest).
Proof.
  intros Hfg Hrest w Hw. rewrite !state_of_bind. apply Hrest.
  unfold onWorker. cbn [modify state_of fst snd workers set_workers].
  rewrite map_map.
  assert (Hboth : allFit (map (fun entry =>
                    if String.eqb entry.1 workerId
                    then (entry.1, g (f entry.2)) else entry) (workers w)))
    by (by apply (allFit_onWorker workerId (fun worker => g (f worker)))).
  erewrite map_ext; [exact Hboth|].
  intros [k x]. cbn [fst snd].
  destruct (String.eqb k workerId) eqn:Hk; cbn [fst snd]; by rewrite Hk.
Qed.

Hint Resolve keepsFit_refl keepsFit_trans : frame.

Hint Extern 1 (respects keepsFit (onWorker _ _)) =>
  apply respects_onWorker_fit; apply fit_same; intros ?; cbn beta;
  repeat match goal with
         | |- context [if ?b then _ else _] => destruct b
         end;
  split; reflexivity : frame.

Lemma respects_increaseFatigue (workerId : string) :
  respects keepsFit (increaseFatigue workerId).
Proof.
  unfold increaseFatigue. apply respects_twice; [|respects_steps].
  intros worker (H0 & Hmax & workerTypeId & Htype).
  destruct (workerTypes_sane _ _ Htype) as (_ & Hrate & _ & _).
  assert (Hmore : (0 <= fatigueIncrease worker)%Q).
  { unfold fatigueIncrease.
    destruct (Worker.currentTask worker) as [[itemId|]|]; lra. }
  cbn [Worker.fatigue Worker.set_fatigue Worker.workerType].
  destruct (Js.ltb _ _) eqn:Hover;
    [apply JsFacts.ltb_true in Hover|apply JsFacts.ltb_false in Hover];
    (split; [|split]);
    cbn [Worker.fatigue Worker.set_fatigue Worker.workerType];
    try lra; by exists workerTypeId.
Qed.

Lemma respects_recoverFatigue (workerId : string) :
  respects keepsFit (recoverFatigue workerId).
Proof.
  unfold recoverFatigue. apply respects_twice; [|respects_steps].
  intros worker (H0 & Hmax & workerTypeId & Htype).
  destruct (workerTypes_sane _ _ Htype) as (_ & _ & Hrate & _).
  cbn [Worker.fatigue Worker.set_fatigue Worker.workerType].
  destruct (Js.ltb _ _) eqn:Hunder;
    [apply JsFacts.ltb_true in Hunder|apply JsFacts.ltb_false in Hunder];
    (split; [|split]);
    cbn [Worker.fatigue Worker.set_fatigue Worker.workerType];
    try lra; by exists workerTypeId.
Qed.

Hint Resolve respects_increaseFatigue respects_recoverFatigue : frame.

Lemma respects_updateWorker_fit (workerId : string) :
  respects keepsFit (updateWorker workerId).
Proof.
  unfold updateWorker, setWorkerResting, handleCraftingTask, handleCoalTask.
  respects_steps.
Qed.

Lemma respects_update_fit : respects keepsFit update.
Proof.
  unfold update. respects_steps.
  apply respects_for_each; [apply keepsFit_refl|apply keepsFit_trans|].
  intros entry. apply respects_updateWorker_fit.
Qed.

Lemma respects_hireWorker_fit (workerTypeId workerId name : string) :
  respects keepsFit (hireWorker workerTypeId workerId name).
Proof.
  intros w Hw. unfold hireWorker.
  destruct (workerTypes !! workerTypeId) as [workerType|] eqn:Htype;
    [|exact Hw].
  run_steps. destruct (Js.ltb _ _); run_steps; [exact Hw|].
  unfold inInventory. rewrite state_of_zoom.
  cbn [workers set_workers set_inventory].
  assert (Hnew : fit (Worker.hired workerId name workerTypeId workerType
                        (now w))).
  { destruct (workerTypes_sane _ _ Htype) as (Hmax & _).
    split; [|split]; cbn; [lra|exact Hmax|by exists workerTypeId]. }
  destruct (bool_decide _).
  - apply (allFit_onWorker workerId
             (fun _ => Worker.hired workerId name workerTypeId workerType
                         (now w))); [|exact Hw].
    intros _ _. exact Hnew.
  - apply Forall_app. split; [exact Hw|]. by apply Forall_singleton.
Qed.

Lemma respects_fireWorker_fit (workerId : string) :
  respects keepsFit (fireWorker workerId).
Proof.
  intros w Hw. unfold fireWorker. run_steps.
  destruct (lookupWorker workerId w); run_steps; [|exact Hw].
  cbn [workers set_workers]. revert Hw. unfold allFit.
  induction 1 as [|[k x] rest Hx Hrest IH]; cbn [List.filter]; [done|].
  cbn [fst]. destruct (negb _); [by constructor|exact IH].
Qed.

Lemma respects_assignTask_fit (workerId type itemId : string) :
  respects keepsFit (assignTask workerId type itemId).
Proof. unfold assignTask. respects_steps. Qed.

Lemma respects_setWorkerResting_fit (workerId : string) (resting : bool) :
  respects keepsFit (setWorkerResting workerId resting).
Proof. unfold setWorkerResting. respects_steps. Qed.

Lemma respects_processDailyWages_fit : respects keepsFit processDailyWages.
Proof. unfold processDailyWages. respects_steps. Qed.

(** X23. Workers stay fit: when every hired worker has a fatigue between
    zero and the maximum of its type, and a type that is one of the three
    on offer, the same holds after the tick of the worker system and
    after hiring (a type whose id Object.prototype does not define),
    firing, assigning a task, sending to rest or waking, and paying
    wages. *)
Theorem X23_workers_stay_fit (w : World)
    (workerTypeId workerId name type itemId : string) (resting : bool) :
  allFit (workers w) ->
  allFit (workers (state_of (update w))) /\
  (Js.inherited workerTypeId = false ->
   allFit (workers (state_of (hireWorker workerTypeId workerId name w)))) /\
  allFit (workers (state_of (fireWorker workerId w))) /\
  allFit (workers (state_of (assignTask workerId type itemId w))) /\
  allFit (workers (state_of (setWorkerResting workerId resting w))) /\
  allFit (workers (state_of (processDailyWages w))).
Proof.
  intros Hw. split; [|split; [|split; [|split; [|split]]]].
  - by apply respects_update_fit.
  - intros _. by apply respects_hireWorker_fit.
  - by apply respects_fireWorker_fit.
  - by apply respects_assignTask_fit.
  - by apply respects_setWorkerResting_fit.
  - by apply respects_processDailyWages_fit.
Qed.

Lemma X23_witness :
  let watcher :=
    Worker.set_task (Some Worker.CoalTask)
      (Worker.hired "apprentice_1" "John Smith" "apprentice"
         Worker.apprentice 0) in
  let w := set_workers [("apprentice_1", watcher)] (newGame catalog 0) in
  allFit (workers (state_of (update w))).
Proof.
  intros watcher w.
  apply (X23_workers_stay_fit w "apprentice" "apprentice_1" "John Smith"
           "coal" "" true).
  apply Forall_singleton. split; [|split]; cbn; [lra|lra|].
  by exists "apprentice".
Defined.

End FitFacts.

Section RestFacts.

Import WorkerSystem.

(** The tick of the worker system does to a worker what the tick of that
    worker does, in some state that holds the worker as it was. *)
Lemma update_target (w : World) (workerId : string) (worker : Worker.t) :
  NoDup (workers w).*1 ->
  lookupWorker workerId w = Some worker ->
  exists w1,
    lookupWorker workerId w1 = Some worker /\
    lookupWorker workerId (state_of (update w))
    = lookupWorker workerId (state_of (updateWorker workerId w1)).
Proof.
  intros Hnodup Hworker.
  assert (Hin : (workerId, worker) ∈ workers w).
  { unfold lookupWorker, findWorker in Hworker.
    destruct (find _ (workers w)) as [[k x]|] eqn:Hfind; [|discriminate].
    apply find_some in Hfind as [Hin Hk]. cbn in Hk, Hworker.
    apply String.eqb_eq in Hk as ->. injection Hworker as ->.
    by apply list_elem_of_In. }
  apply list_elem_of_split in Hin as (before & after & Hsplit).
  rewrite Hsplit, fmap_app, fmap_cons in Hnodup. cbn [fst] in Hnodup.
  apply NoDup_app in Hnodup as (_ & Hbefore & Hnodup).
  apply NoDup_cons in Hnodup as [Hafter _].
  assert (Hfirst : workerId ∉ before.*1).
  { intros Hb. apply (Hbefore _ Hb). apply elem_of_cons. by left. }
  exists (state_of (for_each before (fun entry => updateWorker entry.1) w)).
  split; [by rewrite loop_others|].
  unfold update. rewrite state_of_bind. cbn [gets result state_of fst snd].
  rewrite state_of_bind.
  rewrite (lookup_kept updateHiringDiscounts)
    by (apply respects_updateHiringDiscounts;
        [done|intros a b c; apply eq_trans]).
  rewrite Hsplit, for_each_app. cbn [for_each]. rewrite state_of_bind.
  cbn [fst]. by rewrite loop_others by exact Hafter.
Qed.

(** What [recoverFatigue] does to the worker it is called for. *)
Lemma recoverFatigue_target (workerId : string) (worker : Worker.t)
    (w : World) :
  lookupWorker workerId w = Some worker ->
  exists rested,
    lookupWorker workerId (state_of (recoverFatigue workerId w))
    = Some rested /\
    Worker.resting rested = Worker.resting worker /\
    Worker.currentTask rested = Worker.currentTask worker /\
    Worker.fatigue rested
    = if Js.ltb (Worker.fatigue worker
                 - 0.2 * Worker.recoveryRate (Worker.workerType worker)) 0
      then 0%Q
      else (Worker.fatigue worker
            - 0.2 * Worker.recoveryRate (Worker.workerType worker))%Q.
Proof.
  intros Hworker. unfold recoverFatigue. run_steps.
  rewrite !lookup_onWorker, Hworker. cbn [fmap option_fmap option_map].
  set (rested := if Js.ltb _ (_ * 0.5)%Q then _ else _).
  assert (Hrested :
    Worker.resting rested = Worker.resting worker /\
    Worker.currentTask rested = Worker.currentTask worker /\
    Worker.fatigue rested
    = if Js.ltb (Worker.fatigue worker
                 - 0.2 * Worker.recoveryRate (Worker.workerType worker)) 0
      then 0%Q
      else (Worker.fatigue worker
            - 0.2 * Worker.recoveryRate (Worker.workerType worker))%Q).
  { subst rested.
    cbn [Worker.fatigue Worker.set_fatigue Worker.workerType].
    destruct (Js.ltb (_ - _) 0);
      cbn [Worker.fatigue Worker.set_fatigue Worker.workerType];
      by destruct (Js.ltb _ (_ * 0.5)%Q). }
  destruct Hrested as (Hr & Ht & Hf).
  destruct (Qeq_bool _ 0 && _); run_steps;
    rewrite !lookup_onWorker, Hworker; cbn [fmap option_fmap option_map];
    fold rested; eexists; (split; [reflexivity|]);
    destruct (Js.ltb 0 _); cbn; by rewrite ?Hr, ?Ht, ?Hf.
Qed.

(** X24. A worker at rest stays at rest through the tick of the worker
    system and keeps its task; its fatigue drops by 0.2 times the
    recovery rate of its type, but not below zero. A worker who is awake
    with a fatigue at the maximum of its type is sent to rest by the
    tick: it loses its task and keeps its fatigue. Nothing in the tick
    wakes a worker. *)
Theorem X24_tired_worker_rests_until_woken (w : World) (workerId : string)
    (worker : Worker.t) :
  NoDup (workers w).*1 ->
  lookupWorker workerId w = Some worker ->
  exists after,
    lookupWorker workerId (state_of (update w)) = Some after /\
    (Worker.resting worker = true ->
     Worker.resting after = true /\
     Worker.currentTask after = Worker.currentTask worker /\
     (Worker.fatigue after
      == Qmax 0 (Worker.fatigue worker
                 - 0.2 * Worker.recoveryRate (Worker.workerType worker)))%Q) /\
    (Worker.resting worker = false ->
     (Worker.maxFatigue (Worker.workerType worker)
      <= Worker.fatigue worker)%Q ->
     Worker.resting after = true /\
     Worker.currentTask after = None /\
     Worker.status after = "Resting" /\
     Worker.fatigue after = Worker.fatigue worker).
Proof.
  intros Hnodup Hworker.
  destruct (update_target w workerId worker Hnodup Hworker)
    as (w1 & Hw1 & ->).
  destruct (Worker.resting worker) eqn:Hresting.
  - destruct (recoverFatigue_target workerId worker w1 Hw1)
      as (rested & Hrested & Hr & Ht & Hf).
    exists rested. split; [|split; [|discriminate]].
    + unfold updateWorker. run_steps. by rewrite Hw1, Hresting.
    + intros _. split; [congruence|]. split; [exact Ht|].
      rewrite Hf.
      destruct (Js.ltb _ 0) eqn:Hunder;
        [apply JsFacts.ltb_true in Hunder|apply JsFacts.ltb_false in Hunder].
      * symmetry. apply Q.max_l. lra.
      * symmetry. apply Q.max_r. lra.
  - destruct (Js.geb (Worker.fatigue worker)
                (Worker.maxFatigue (Worker.workerType worker))) eqn:Hmax.
    + eexists. split; [|split; [discriminate|]].
      * unfold updateWorker. run_steps. rewrite Hw1, Hresting, Hmax.
        unfold setWorkerResting. run_steps. rewrite Hw1. run_steps.
        rewrite !lookup_onWorker, Hw1. reflexivity.
      * intros _ _. by cbn.
    + apply JsFacts.geb_false in Hmax.
      destruct (lookupWorker workerId (state_of (updateWorker workerId w1)))
        as [after|] eqn:Hafter.
      * exists after. split; [reflexivity|]. split; [discriminate|].
        intros _ Hle. lra.
      * destruct (updateWorker_target workerId worker w1 Hw1 Hresting Hmax)
          as (tired & Htired & _). congruence.
Qed.

Lemma X24_witness :
  let sleeper :=
    Worker.set_resting true
      (Worker.set_fatigue 0.1
         (Worker.hired "apprentice_1" "John Smith" "apprentice"
            Worker.apprentice 0)) in
  let w := set_workers [("apprentice_1", sleeper)] (newGame catalog 0) in
  exists after,
    lookupWorker "apprentice_1" (state_of (update w)) = Some after /\
    Worker.resting after = true /\
    (Worker.fatigue after == 0)%Q.
Proof.
  intros sleeper w.
  destruct (X24_tired_worker_rests_until_woken w "apprentice_1" sleeper)
    as (after & Hafter & Hrest & _).
  - apply NoDup_cons. split; [apply not_elem_of_nil|apply NoDup_nil_2].
  - reflexivity.
  - exists after. split; [exact Hafter|].
    destruct (Hrest eq_refl) as (Hr & _ & Hf). split; [exact Hr|].
    rewrite Hf. reflexivity.
Defined.

End RestFacts.

Section HireFacts.

Import WorkerSystem.

(** [removeMoney] takes an amount above zero that the balance covers, and
    otherwise refuses without a trace. *)
Lemma removeMoney_cases (amount : Q) (inv : Inventory.t) :
  ((0 < amount)%Q /\ (amount <= Inventory.money inv)%Q /\
   Inventory.removeMoney amount inv
   = (true, Inventory.set_money (Inventory.money inv - amount)%Q inv,
      [money_updated (Inventory.money inv - amount)%Q])) \/
  (~ ((0 < amount)%Q /\ (amount <= Inventory.money inv)%Q) /\
   Inventory.removeMoney amount inv = (false, inv, [])).
Proof.
  unfold Inventory.removeMoney, bind, gets, modify, emit, ret.
  cbn [fst snd app].
  destruct (Js.leb amount 0) eqn:Ha; cbn [orb].
  { apply JsFacts.leb_true in Ha. right. split; [|done]. intros [? ?]. lra. }
  apply JsFacts.leb_false in Ha.
  destruct (Js.ltb (Inventory.money inv) amount) eqn:Hb.
  - apply JsFacts.ltb_true in Hb. right. split; [|done]. intros [? ?]. lra.
  - apply JsFacts.ltb_false in Hb. left. by cbn.
Qed.

Lemma findWorker_app (workerId : string) (worker : Worker.t)
    (hired : list (string * Worker.t)) :
  findWorker workerId hired = None ->
  findWorker workerId (hired ++ [(workerId, worker)]) = Some worker.
Proof.
  unfold findWorker. induction hired as [|[k x] rest IH]; cbn [app find fst].
  - by rewrite String.eqb_refl.
  - destruct (String.eqb k workerId); [discriminate|exact IH].
Qed.

(** X25. For a worker type whose id Object.prototype does not define,
    hireWorker either refuses and leaves the game as it was, or hires:
    then the price, which is the hire cost of the type times the
    live discount when there is one other than zero, was covered by the
    balance; the worker is found under its id, fresh, with no task and no
    fatigue; and the balance is lowered by the price when the price is
    above zero, and left alone when a discount made the price zero or
    less. *)
Theorem X25_hireWorker_pays_or_refuses (w : World)
    (workerTypeId workerId name : string) :
  Js.inherited workerTypeId = false ->
  let hire := hireWorker workerTypeId workerId name w in
  let after := state_of hire in
  (result hire = false -> after = w) /\
  (result hire = true ->
   exists workerType price,
     workerTypes !! workerTypeId = Some workerType /\
     (price == Worker.hireCost workerType
               * match getHiringDiscount workerTypeId w with
                 | Some multiplier =>
                     if Qeq_bool multiplier 0 then 1 else multiplier
                 | None => 1
                 end)%Q /\
     (price <= Inventory.money (inventory w))%Q /\
     lookupWorker workerId after
     = Some (Worker.hired workerId name workerTypeId workerType (now w)) /\
     ((0 < price)%Q ->
      Inventory.money (inventory after)
      = (Inventory.money (inventory w) - price)%Q) /\
     (~ (0 < price)%Q ->
      Inventory.money (inventory after) = Inventory.money (inventory w))).
Proof.
  intros _. cbn zeta. unfold hireWorker.
  destruct (workerTypes !! workerTypeId) as [workerType|] eqn:Htype;
    [|by split].
  run_steps.
  set (price := match getHiringDiscount workerTypeId w with
                | Some multiplier => _
                | None => _
                end).
  destruct (Js.ltb _ price) eqn:Hcovered; run_steps; [by split|].
  apply JsFacts.ltb_false in Hcovered.
  split; [discriminate|]. intros _. exists workerType, price.
  split; [reflexivity|]. split.
  { unfold price. destruct (getHiringDiscount workerTypeId w) as [m|];
      [|ring].
    unfold Js.truthy. destruct (Qeq_bool m 0); cbn [negb]; [ring|reflexivity]. }
  split; [exact Hcovered|].
  unfold inInventory. rewrite state_of_zoom.
  cbn [inventory set_inventory set_workers].
  split.
  { unfold lookupWorker. cbn [workers set_inventory set_workers].
    destruct (bool_decide _) eqn:Hknown.
    - apply bool_decide_eq_true in Hknown as [old Hold].
      rewrite (findWorker_map workerId workerId
                 (fun _ => Worker.hired workerId name workerTypeId
                             workerType (now w))).
      by rewrite String.eqb_refl, Hold.
    - apply bool_decide_eq_false in Hknown. apply findWorker_app.
      destruct (findWorker workerId (workers w)); [|done].
      exfalso. apply Hknown. by eexists. }
  destruct (removeMoney_cases price (inventory w))
    as [(Hpos & _ & ->)|(Hnot & ->)];
    cbn [state_of fst snd Inventory.money Inventory.set_money].
  - split; [done|]. intros Hno. by destruct Hno.
  - split; [|done]. intros Hpos. exfalso. apply Hnot. by split.
Qed.

Lemma X25_witness :
  let w := newGame catalog 0 in
  let hire := hireWorker "apprentice" "apprentice_1" "John Smith" w in
  lookupWorker "apprentice_1" (state_of hire)
  = Some (Worker.hired "apprentice_1" "John Smith" "apprentice"
            Worker.apprentice 0) /\
  Inventory.money (inventory (state_of hire)) = (100 - 20)%Q.
Proof.
  intros w hire.
  destruct (X25_hireWorker_pays_or_refuses w "apprentice" "apprentice_1"
              "John Smith" eq_refl) as [_ Hhired].
  destruct Hhired as (workerType & price & Htype & _ & _ & Hfound & _);
    [by vm_compute|].
  injection Htype as <-. split; [exact Hfound|by vm_compute].
Defined.

End HireFacts.

Section DiscountFacts.

Import WorkerSystem.

(** Objects used as maps, kept as lists of entries. *)
Lemma entry_map {V} (key target : string) (f : V -> V)
    (entries : list (string * V)) :
  snd <$> find (fun entry => String.eqb entry.1 key)
            (map (fun entry =>
                    if String.eqb entry.1 target then (entry.1, f entry.2)
                    else entry) entries)
  = if String.eqb key target
    then f <$> (snd <$> find (fun entry => String.eqb entry.1 key) entries)
    else snd <$> find (fun entry => String.eqb entry.1 key) entries.
Proof.
  induction entries as [|[k x] rest IH]; cbn [map find].
  - by destruct (String.eqb key target).
  - cbn [fst snd]. destruct (String.eqb k target) eqn:Hk; cbn [fst snd].
    + apply String.eqb_eq in Hk as ->.
      destruct (String.eqb target key) eqn:Ho.
      * apply String.eqb_eq in Ho as ->. by rewrite String.eqb_refl.
      * exact IH.
    + destruct (String.eqb k key) eqn:Ho; [|exact IH].
      apply String.eqb_eq in Ho as ->. by rewrite Hk.
Qed.

Lemma entry_app {V} (key target : string) (v : V)
    (entries : list (string * V)) :
  snd <$> find (fun entry => String.eqb entry.1 key)
            (entries ++ [(target, v)])
  = match snd <$> find (fun entry => String.eqb entry.1 key) entries with
    | Some x => Some x
    | None => if String.eqb target key then Some v else None
    end.
Proof.
  induction entries as [|[k x] rest IH]; cbn [app find fst].
  - by destruct (String.eqb target key).
  - by destruct (String.eqb k key).
Qed.

Lemma findDiscount_set (key workerTypeId : string) (multiplier : Q)
    (expiryTime : Z) (w : World) :
  findDiscount key
    (state_of (setHiringDiscount workerTypeId multiplier expiryTime w))
  = if String.eqb key workerTypeId then Some (multiplier, expiryTime)
    else findDiscount key w.
Proof.
  unfold setHiringDiscount. run_steps. unfold findDiscount at 1.
  cbn [hiringDiscounts set_hiringDiscounts].
  destruct (bool_decide _) eqn:Hknown.
  - apply bool_decide_eq_true in Hknown as [old Hold].
    rewrite (entry_map key workerTypeId (fun _ => (multiplier, expiryTime))).
    destruct (String.eqb key workerTypeId) eqn:Hk; [|reflexivity].
    apply String.eqb_eq in Hk as ->. fold (findDiscount workerTypeId w).
    by rewrite Hold.
  - apply bool_decide_eq_false in Hknown. rewrite entry_app.
    fold (findDiscount key w).
    destruct (String.eqb key workerTypeId) eqn:Hk.
    + apply String.eqb_eq in Hk as ->. rewrite String.eqb_refl.
      destruct (findDiscount workerTypeId w); [|done].
      exfalso. apply Hknown. by eexists.
    + rewrite String.eqb_sym, Hk. by destruct (findDiscount key w).
Qed.

Lemma filter_all {X} (keep : X -> bool) (l : list X) :
  (forall x, keep x = true) -> List.filter keep l = l.
Proof.
  intros Hkeep. induction l as [|x l IH]; cbn; [done|].
  by rewrite Hkeep, IH.
Qed.

Lemma filter_twice {X} (p q : X -> bool) (l : list X) :
  List.filter p (List.filter q l) = List.filter (fun x => q x && p x) l.
Proof.
  induction l as [|x l IH]; cbn; [done|].
  destruct (q x); cbn; [|exact IH]. destruct (p x); by rewrite IH.
Qed.

(** The loop of [updateHiringDiscounts] over the entries [expiring], read
    at the start: it deletes the keys of those that have expired. *)
Lemma expire_loop (today : Z) (expiring : list (string * (Q * Z))) (w : World) :
  let after :=
    state_of
      (for_each expiring (fun entry =>
         if (entry.2.2 <=? today)%Z then
           modify (fun w =>
             set_hiringDiscounts
               (List.filter (fun other => negb (String.eqb other.1 entry.1))
                  (hiringDiscounts w)) w) ;;
           let typeDesc :=
             if String.eqb entry.1 "all" then "all workers"
             else default "undefined"
                    (Worker.typeName <$> workerTypes !! entry.1) in
           emit (notification "info"
                   [Str "Hiring discount for "; Str typeDesc;
                    Str " has expired."])
         else ret tt) w) in
  now after = now w /\
  hiringDiscounts after
  = List.filter
      (fun other =>
         negb (existsb (fun entry =>
                          (entry.2.2 <=? today)%Z
                          && String.eqb other.1 entry.1) expiring))
      (hiringDiscounts w).
Proof.
  cbn zeta. revert w.
  induction expiring as [|entry rest IH]; intros w; cbn [for_each existsb].
  - split; [reflexivity|]. symmetry. by apply filter_all.
  - rewrite state_of_bind.
    match goal with
    | |- context [for_each rest ?body (state_of ?first)] =>
        destruct (IH (state_of first)) as [Hnow Hlist];
        assert (Hfirst : now (state_of first) = now w /\
                         hiringDiscounts (state_of first)
                         = List.filter
                             (fun other =>
                                negb ((entry.2.2 <=? today)%Z
                                      && String.eqb other.1 entry.1))
                             (hiringDiscounts w))
    end.
    { destruct (entry.2.2 <=? today)%Z; run_steps.
      - by cbn.
      - cbn. split; [reflexivity|]. symmetry. by apply filter_all. }
    destruct Hfirst as [Hnow1 Hlist1].
    split; [congruence|]. rewrite Hlist, Hlist1, filter_twice.
    apply filter_ext. intros other. by rewrite negb_orb.
Qed.

Lemma find_absent {V} (key : string) (keep : string * V -> bool)
    (entries : list (string * V)) :
  key ∉ entries.*1 ->
  find (fun entry => String.eqb entry.1 key) (List.filter keep entries)
  = None.
Proof.
  induction entries as [|[k x] rest IH]; cbn [List.filter]; [done|].
  rewrite fmap_cons. cbn [fst]. intros [Hne Hrest]%not_elem_of_cons.
  destruct (keep (k, x)); cbn [find fst]; [|by apply IH].
  destruct (String.eqb k key) eqn:Hk; [|by apply IH].
  apply String.eqb_eq in Hk. congruence.
Qed.

Lemma find_filter {V} (key : string) (keep : string * V -> bool)
    (entries : list (string * V)) :
  NoDup entries.*1 ->
  find (fun entry => String.eqb entry.1 key) (List.filter keep entries)
  = match find (fun entry => String.eqb entry.1 key) entries with
    | Some entry => if keep entry then Some entry else None
    | None => None
    end.
Proof.
  induction entries as [|[k x] rest IH]; cbn [List.filter find]; [done|].
  rewrite fmap_cons. cbn [fst]. intros [Hk Hrest]%NoDup_cons.
  destruct (String.eqb k key) eqn:Hkey.
  - apply String.eqb_eq in Hkey as ->.
    destruct (keep (key, x)); cbn [find fst].
    + by rewrite String.eqb_refl.
    + by apply find_absent.
  - destruct (keep (k, x)); cbn [find fst]; rewrite ?Hkey; by apply IH.
Qed.

(** With distinct keys, the loop deletes exactly the expired entries. *)
Lemma expired_only (today : Z) (entries : list (string * (Q * Z))) :
  NoDup entries.*1 ->
  List.filter
    (fun other =>
       negb (existsb (fun entry =>
                        (entry.2.2 <=? today)%Z
                        && String.eqb other.1 entry.1) entries))
    entries
  = List.filter (fun other => negb (other.2.2 <=? today)%Z) entries.
Proof.
  intros Hnodup. apply filter_ext_in. intros other Hin. f_equal.
  apply list_elem_of_In in Hin.
  destruct (other.2.2 <=? today)%Z eqn:Hold.
  - apply existsb_exists. exists other. split; [by apply list_elem_of_In|].
    by rewrite Hold, String.eqb_refl.
  - apply not_true_is_false. intros (entry & Hentry & Hboth)%existsb_exists.
    apply andb_true_iff in Hboth as [Hexp Hsame].
    apply String.eqb_eq in Hsame. apply list_elem_of_In in Hentry.
    assert (entry = other); [|congruence].
    apply list_elem_of_lookup in Hentry as [i Hi].
    apply list_elem_of_lookup in Hin as [j Hj].
    assert (i = j); [|congruence].
    apply (NoDup_lookup entries.*1 i j other.1); [exact Hnodup| |].
    + by rewrite list_lookup_fmap, Hi, Hsame.
    + by rewrite list_lookup_fmap, Hj.
Qed.

(** X26. A discount set with setHiringDiscount and not yet expired is the
    discount that getHiringDiscount gives for its type; setting it for
    one type changes the discount of no other type, unless it is set for
    all. And updateHiringDiscounts, which deletes the expired discounts
    of an object with distinct keys, never changes what getHiringDiscount
    answers. *)
Theorem X26_discounts_set_found_and_expired (w : World)
    (workerTypeId : string) (multiplier : Q) (expiryTime : Z) :
  let offered :=
    state_of (setHiringDiscount workerTypeId multiplier expiryTime w) in
  ((now w < expiryTime)%Z ->
   getHiringDiscount workerTypeId offered = Some multiplier) /\
  (forall other, other <> workerTypeId -> workerTypeId <> "all" ->
     getHiringDiscount other offered = getHiringDiscount other w) /\
  (NoDup (hiringDiscounts w).*1 ->
   forall other,
     getHiringDiscount other (state_of (updateHiringDiscounts w))
     = getHiringDiscount other w).
Proof.
  cbn zeta.
  assert (Hnow : now (state_of (setHiringDiscount workerTypeId multiplier
                                  expiryTime w)) = now w)
    by (unfold setHiringDiscount; by run_steps).
  split; [|split].
  - intros Hlive. unfold getHiringDiscount.
    rewrite !findDiscount_set, String.eqb_refl, Hnow.
    by apply Z.ltb_lt in Hlive as ->.
  - intros other Hother Hall. unfold getHiringDiscount.
    rewrite !findDiscount_set, Hnow.
    apply String.eqb_neq in Hother as ->.
    assert (String.eqb "all" workerTypeId = false) as ->; [|reflexivity].
    apply String.eqb_neq. congruence.
  - intros Hnodup other. unfold updateHiringDiscounts. run_steps.
    pose proof (expire_loop (now w) (hiringDiscounts w) w) as Hloop.
    cbv zeta in Hloop. destruct Hloop as [Hsame Hlist]. cbv zeta.
    rewrite expired_only in Hlist by exact Hnodup.
    unfold getHiringDiscount, findDiscount. rewrite Hsame, Hlist.
    rewrite !find_filter by exact Hnodup.
    destruct (find (fun entry => String.eqb entry.1 other) _)
      as [[k [m expiry]]|];
      destruct (find (fun entry => String.eqb entry.1 "all") _)
      as [[k' [m' expiry']]|];
      cbn [fst snd fmap option_fmap option_map negb];
      repeat match goal with
             | |- context [(?a <=? ?b)%Z] =>
                 destruct (Z.leb_spec a b); cbn [negb fmap option_fmap
                                                 option_map fst snd]
             | |- context [(?a <? ?b)%Z] =>
                 destruct (Z.ltb_spec a b); cbn [negb fmap option_fmap
                                                 option_map fst snd]
             end;
      first [reflexivity|lia].
Qed.

End DiscountFacts.


(** * The clock *)

Section ClockFacts.

Import TimeSystem.

(** One turn of the loop: an hour more, sixty minutes less, the same
    moment. *)
Lemma rollOver_spec (c : t) (h : Z) :
  (0 <= h < 24)%Z ->
  (hour c == inject_Z h)%Q ->
  minute (state_of (rollOver c)) = (minute c - 60)%Q /\
  totalMinutes (state_of (rollOver c)) = totalMinutes c /\
  timeMultiplier (state_of (rollOver c)) = timeMultiplier c /\
  (exists h' : Z, (0 <= h' < 24)%Z /\
     (hour (state_of (rollOver c)) == inject_Z h')%Q) /\
  (shown (state_of (rollOver c)) == shown c)%Q /\
  (exists k : Z, (0 <= k)%Z /\
     (day (state_of (rollOver c)) == day c + inject_Z k)%Q).
Proof.
  intros Hh Hhour. destruct c as [d hr mn total mult ws we].
  unfold rollOver, bind, gets, modify, emit, ret, state_of, shown.
  cbn [fst snd hour minute day totalMinutes timeMultiplier workStart workEnd
       set_hour set_minute set_day] in *.
  destruct (Js.geb (hr + 1) 24) eqn:Hwrap;
    cbn [fst snd hour minute day totalMinutes timeMultiplier workStart
         workEnd set_hour set_minute set_day].
  - apply JsFacts.geb_true in Hwrap.
    assert (Hlast : (inject_Z h <= 23)%Q).
    { change 23%Q with (inject_Z 23). rewrite <- Zle_Qle. lia. }
    destruct (Qeq_bool 0 ws); [|destruct (Qeq_bool 0 we)];
      cbn [fst snd hour minute day totalMinutes timeMultiplier workStart
           workEnd set_hour set_minute set_day];
      (repeat split; try reflexivity;
       [exists 0%Z; split; [lia|reflexivity]
       |lra
       |exists 1%Z; split; [lia|reflexivity]]).
  - apply JsFacts.geb_false in Hwrap.
    assert (Hnext : (h + 1 < 24)%Z).
    { rewrite Zlt_Qlt, inject_Z_plus. change (inject_Z 24) with 24%Q.
      change (inject_Z 1) with 1%Q. lra. }
    destruct (Qeq_bool (hr + 1) ws); [|destruct (Qeq_bool (hr + 1) we)];
      cbn [fst snd hour minute day totalMinutes timeMultiplier workStart
           workEnd set_hour set_minute set_day];
      (repeat split; try reflexivity;
       [exists (h + 1)%Z; split; [lia|];
        rewrite inject_Z_plus; change (inject_Z 1) with 1%Q; lra
       |lra
       |exists 0%Z; split; [lia|]; change (inject_Z 0) with 0%Q; lra]).
Qed.

(** The loop with enough turns for the minutes at hand. *)
Lemma whileOverflow_spec (turns : nat) (c : t) :
  (exists h : Z, (0 <= h < 24)%Z /\ (hour c == inject_Z h)%Q) ->
  (0 <= minute c)%Q ->
  (minute c < 60 * (inject_Z (Z.of_nat turns) + 1))%Q ->
  timeOfDay (state_of (whileOverflow turns c)) /\
  totalMinutes (state_of (whileOverflow turns c)) = totalMinutes c /\
  timeMultiplier (state_of (whileOverflow turns c)) = timeMultiplier c /\
  (shown (state_of (whileOverflow turns c)) == shown c)%Q /\
  (exists k : Z, (0 <= k)%Z /\
     (day (state_of (whileOverflow turns c)) == day c + inject_Z k)%Q).
Proof.
  revert c. induction turns as [|turns IH]; intros c Hhour Hlow Hhigh.
  - cbn [whileOverflow ret state_of fst snd]. change (inject_Z (Z.of_nat 0)) with 0%Q in Hhigh.
    split; [split; [exact Hhour|split; [exact Hlow|lra]]|].
    repeat split; try reflexivity.
    exists 0%Z. split; [lia|]. change (inject_Z 0) with 0%Q. lra.
  - cbn [whileOverflow]. rewrite state_of_bind.
    cbn [gets result state_of fst snd].
    destruct (Js.geb (minute c) 60) eqn:Hfull.
    + apply JsFacts.geb_true in Hfull. rewrite state_of_bind.
      destruct Hhour as (h & Hh & Hhour).
      destruct (rollOver_spec c h Hh Hhour)
        as (Hmin & Htotal & Hmult & Hhour' & Hshown & k1 & Hk1 & Hday).
      destruct (IH (state_of (rollOver c))) as (Hc & Ht & Hm & Hs & k2 & Hk2 & Hd).
      * exact Hhour'.
      * rewrite Hmin. lra.
      * rewrite Hmin. rewrite Nat2Z.inj_succ in Hhigh.
        unfold Z.succ in Hhigh. rewrite inject_Z_plus in Hhigh.
        change (inject_Z 1) with 1%Q in Hhigh. lra.
      * split; [exact Hc|]. split; [congruence|]. split; [congruence|].
        split; [by etransitivity|].
        exists (k1 + k2)%Z. split; [lia|]. rewrite inject_Z_plus.
        rewrite Hd, Hday. ring.
    + apply JsFacts.geb_false in Hfull. cbn [ret state_of fst snd].
      split; [split; [exact Hhour|split; [exact Hlow|exact Hfull]]|].
      repeat split; try reflexivity.
      exists 0%Z. split; [lia|]. change (inject_Z 0) with 0%Q. lra.
Qed.

(** The turns counted by [hoursIn] are enough. *)
Lemma hoursIn_enough (m : Q) :
  (0 <= m)%Q -> (m < 60 * (inject_Z (Z.of_nat (hoursIn m)) + 1))%Q.
Proof.
  intros Hm. unfold hoursIn.
  assert (Hfloor : (0 <= Qfloor (m / 60))%Z).
  { change 0%Z with (Qfloor 0). apply Qfloor_resp_le.
    apply Qle_shift_div_l; lra. }
  rewrite Z2Nat.id by exact Hfloor.
  pose proof (Qlt_floor (m / 60)) as Hlt.
  rewrite inject_Z_plus in Hlt. change (inject_Z 1) with 1%Q in Hlt.
  assert (Hdiv : (m == 60 * (m / 60))%Q) by field.
  set (hours := (m / 60)%Q) in *. lra.
Qed.

Lemma incrementTime_spec (c : t) (realSeconds : Q) :
  timeOfDay c ->
  (0 <= realSeconds * timeMultiplier c)%Q ->
  timeOfDay (state_of (incrementTime realSeconds c)) /\
  totalMinutes (state_of (incrementTime realSeconds c))
  = (totalMinutes c + realSeconds * timeMultiplier c)%Q /\
  timeMultiplier (state_of (incrementTime realSeconds c)) = timeMultiplier c /\
  (shown (state_of (incrementTime realSeconds c))
   == shown c + realSeconds * timeMultiplier c)%Q /\
  (exists k : Z, (0 <= k)%Z /\
     (day (state_of (incrementTime realSeconds c)) == day c + inject_Z k)%Q).
Proof.
  intros (Hhour & Hlow & Hhigh) Hforward. unfold incrementTime.
  rewrite !state_of_bind. cbn [gets modify result state_of fst snd].
  match goal with
  | |- context [whileOverflow ?n ?c1] =>
      destruct (whileOverflow_spec n c1) as (Hc & Ht & Hm & Hs & Hd)
  end.
  - destruct c. exact Hhour.
  - destruct c. cbn in *. lra.
  - apply hoursIn_enough. destruct c. cbn in *. lra.
  - split; [exact Hc|]. split; [by rewrite Ht; destruct c|].
    split; [by rewrite Hm; destruct c|]. split.
    + rewrite Hs. destruct c. unfold shown. cbn. ring.
    + destruct Hd as (k & Hk & Hd). exists k. split; [exact Hk|].
      rewrite Hd. by destruct c.
Qed.

(** X27. A clock that shows a time of day, with a whole hour from 0 to 23
    and a minute below 60, still does after incrementTime moved it
    forward: the loop runs until the minutes are below 60 again. The
    moment shown, in minutes since day zero, and the count of total
    minutes have both advanced by the real seconds times the
    multiplier. *)
Theorem X27_incrementTime_keeps_a_time_of_day (c : t) (realSeconds : Q) :
  timeOfDay c ->
  (0 <= realSeconds * timeMultiplier c)%Q ->
  timeOfDay (state_of (incrementTime realSeconds c)) /\
  (shown (state_of (incrementTime realSeconds c))
   == shown c + realSeconds * timeMultiplier c)%Q /\
  totalMinutes (state_of (incrementTime realSeconds c))
  = (totalMinutes c + realSeconds * timeMultiplier c)%Q.
Proof.
  intros Hc Hforward.
  destruct (incrementTime_spec c realSeconds Hc Hforward)
    as (H1 & H2 & _ & H3 & _).
  split; [exact H1|split; [exact H3|exact H2]].
Qed.

Lemma X27_witness :
  timeOfDay (state_of (incrementTime 16 initial)) /\
  (shown (state_of (incrementTime 16 initial)) == shown initial + 960)%Q.
Proof.
  destruct (X27_incrementTime_keeps_a_time_of_day initial 16)
    as (Hclock & Hshown & _).
  - split; [exists 8%Z; split; [lia|reflexivity]|split; cbn; lra].
  - cbn. lra.
  - split; [exact Hclock|]. rewrite Hshown. reflexivity.
Defined.

(** A moment has one reading as day, hour and minute. *)
Lemma reading_unique (k j h h' : Z) (m m' : Q) :
  (0 <= h < 24)%Z -> (0 <= h' < 24)%Z ->
  (0 <= m)%Q -> (m < 60)%Q -> (0 <= m')%Q -> (m' < 60)%Q ->
  (inject_Z k * 1440 + inject_Z h' * 60 + m'
   == inject_Z j * 1440 + inject_Z h * 60 + m)%Q ->
  h' = h /\ (m' == m)%Q.
Proof.
  intros Hh Hh' Hm0 Hm1 Hm0' Hm1' Hsame.
  set (z := ((k - j) * 24 + (h' - h))%Z).
  assert (Hz : (inject_Z z * 60 == m - m')%Q).
  { unfold z, Z.sub.
    repeat (rewrite inject_Z_plus || rewrite inject_Z_mult
            || rewrite inject_Z_opp).
    change (inject_Z 24) with 24%Q. lra. }
  assert (Hzero : z = 0%Z).
  { assert (Hup : (z < 1)%Z)
      by (rewrite Zlt_Qlt; change (inject_Z 1) with 1%Q; lra).
    assert (Hdown : (-1 < z)%Z)
      by (rewrite Zlt_Qlt; change (inject_Z (-1)) with (-1)%Q; lra).
    lia. }
  split; [unfold z in Hzero; lia|].
  rewrite Hzero in Hz. change (inject_Z 0) with 0%Q in Hz. lra.
Qed.

(** X28. On a clock that shows a time of day, getMinutesUntil gives a
    wait above zero and of at most one day for a target hour from 0 to 23
    and a target minute below 60, a full day when the target is the
    present minute. Moving the clock forward by that wait with
    incrementTime brings it to the target hour and minute. *)
Theorem X28_getMinutesUntil_leads_to_the_target (c : t) (targetHour : Z)
    (targetMinute realSeconds : Q) :
  timeOfDay c ->
  (0 <= targetHour < 24)%Z ->
  (0 <= targetMinute)%Q -> (targetMinute < 60)%Q ->
  let wait := getMinutesUntil (inject_Z targetHour) targetMinute c in
  (0 < wait)%Q /\ (wait <= 1440)%Q /\
  ((realSeconds * timeMultiplier c == wait)%Q ->
   (hour (state_of (incrementTime realSeconds c)) == inject_Z targetHour)%Q /\
   (minute (state_of (incrementTime realSeconds c)) == targetMinute)%Q).
Proof.
  intros Hclock Htarget Hlow Hhigh wait.
  pose proof Hclock as ((h & Hh & Hhour) & Hmin0 & Hmin1).
  assert (Hwait : (0 < wait)%Q /\ (wait <= 1440)%Q /\
                  exists j : Z,
                    (shown c + wait
                     == (day c + inject_Z j) * 1440
                        + inject_Z targetHour * 60 + targetMinute)%Q).
  { unfold wait, getMinutesUntil, shown.
    destruct (Qeq_bool (inject_Z targetHour) (hour c)) eqn:Hsame;
      cbn [andb].
    - apply Qeq_bool_iff in Hsame.
      destruct (Js.ltb (minute c) targetMinute) eqn:Hlater.
      + apply JsFacts.ltb_true in Hlater.
        split; [lra|]. split; [lra|]. exists 0%Z.
        change (inject_Z 0) with 0%Q. lra.
      + apply JsFacts.ltb_false in Hlater.
        assert (Js.leb targetMinute (minute c) = true) as ->
          by (by apply JsFacts.leb_true).
        split; [lra|]. split; [lra|]. exists 1%Z.
        change (inject_Z 1) with 1%Q. lra.
    - apply Qeq_bool_neq in Hsame.
      assert (Hne : targetHour <> h).
      { intros ->. apply Hsame. by symmetry. }
      destruct (Js.ltb (hour c) (inject_Z targetHour)) eqn:Hahead.
      + apply JsFacts.ltb_true in Hahead.
        assert (Hgap : (inject_Z h + 1 <= inject_Z targetHour)%Q).
        { change 1%Q with (inject_Z 1).
          rewrite <- inject_Z_plus, <- Zle_Qle.
          assert (h < targetHour)%Z; [|lia]. rewrite Zlt_Qlt. lra. }
        assert (Hmost : (inject_Z targetHour <= 23)%Q).
        { change 23%Q with (inject_Z 23). rewrite <- Zle_Qle. lia. }
        assert (Hleast : (0 <= inject_Z h)%Q).
        { change 0%Q with (inject_Z 0). rewrite <- Zle_Qle. lia. }
        split; [lra|]. split; [lra|]. exists 0%Z.
        change (inject_Z 0) with 0%Q. lra.
      + apply JsFacts.ltb_false in Hahead.
        assert (Hgap : (inject_Z targetHour + 1 <= inject_Z h)%Q).
        { change 1%Q with (inject_Z 1).
          rewrite <- inject_Z_plus, <- Zle_Qle.
          assert (targetHour <= h)%Z; [|lia]. rewrite Zle_Qle. lra. }
        assert (Hmost : (inject_Z h <= 23)%Q).
        { change 23%Q with (inject_Z 23). rewrite <- Zle_Qle. lia. }
        assert (Hleast : (0 <= inject_Z targetHour)%Q).
        { change 0%Q with (inject_Z 0). rewrite <- Zle_Qle. lia. }
        split; [lra|]. split; [lra|]. exists 1%Z.
        change (inject_Z 1) with 1%Q. lra. }
  destruct Hwait as (Hpos & Hday & j & Hthere).
  split; [exact Hpos|]. split; [exact Hday|]. intros Hmove.
  destruct (incrementTime_spec c realSeconds Hclock ltac:(lra))
    as (((h' & Hh' & Hhour') & Hmin0' & Hmin1') & _ & _ & Hshown
        & k & Hk & Hdays).
  unfold shown in Hshown, Hthere.
  destruct (reading_unique k j targetHour h' targetMinute
              (minute (state_of (incrementTime realSeconds c))))
    as [-> Hminute]; try done.
  rewrite Hhour', Hdays in Hshown. lra.
Qed.

Lemma X28_witness :
  (hour (state_of (incrementTime 10 initial)) == 18)%Q /\
  (minute (state_of (incrementTime 10 initial)) == 0)%Q.
Proof.
  destruct (X28_getMinutesUntil_leads_to_the_target initial 18 0 10)
    as (_ & _ & Hthere).
  - split; [exists 8%Z; split; [lia|reflexivity]|split; cbn; lra].
  - lia.
  - lra.
  - lra.
  - apply Hthere. reflexivity.
Defined.

End ClockFacts.


(** * Repairing a tool through the object returned by getTools *)

Section RepairFacts.

Import Objects.

(** X29. repairTool refuses a tool that the inventory does not have,
    under a name that Object.prototype does not define either, and then
    changes no object of the inventory. For a tool it has, it
    answers true and writes through the shared record: the uses of the
    tool of the inventory itself become its uses plus the amount, capped
    at its maximum; the maximum and every other object are as before. *)
Theorem X29_repairTool_restores_up_to_the_maximum (inv : refs) (s : store)
    (toolName : string) (repairAmount : Q) (o : object) :
  s !! tools inv = Some o ->
  let repaired := repairTool inv toolName repairAmount s in
  (o !! toolName = None ->
   Js.inherited toolName = false ->
   repaired.2 = false /\
   forall l, l ∈ dom s -> repaired.1 !! l = s !! l) /\
  (forall tool currentDurability maxDurability,
     o !! toolName = Some (VRef tool) ->
     get tool "uses" s = Some (VNum currentDurability) ->
     get tool "maxUses" s = Some (VNum maxDurability) ->
     repaired.2 = true /\
     get tool "uses" repaired.1
     = Some (VNum (Qmin (currentDurability + repairAmount) maxDurability)) /\
     get tool "maxUses" repaired.1 = Some (VNum maxDurability) /\
     forall l, l ∈ dom s -> l <> tool -> repaired.1 !! l = s !! l).
Proof.
  intros Htools. cbn zeta. unfold repairTool, getTools, spread.
  set (copy := fresh (dom s)).
  assert (Hfresh : copy ∉ dom s) by apply is_fresh.
  assert (Hold : forall l, l ∈ dom s -> (<[copy := o]> s) !! l = s !! l).
  { intros l Hl. apply lookup_insert_ne. intros <-. by apply Hfresh. }
  rewrite Htools. cbn [default from_option id].
  assert (Hcopy : forall k, get copy k (<[copy := o]> s) = o !! k).
  { intros k. unfold get. by rewrite lookup_insert_eq. }
  rewrite Hcopy. split.
  - intros -> _. split; [reflexivity|]. exact Hold.
  - intros tool currentDurability maxDurability Hname Huses Hmax.
    rewrite Hname.
    assert (Htool : tool ∈ dom s).
    { unfold get in Huses. apply elem_of_dom.
      destruct (s !! tool); [by eexists|discriminate]. }
    assert (Hsame : forall k, get tool k (<[copy := o]> s) = get tool k s).
    { intros k. unfold get. by rewrite Hold. }
    rewrite !Hsame, Huses, Hmax. cbn [fst snd].
    unfold setUses. rewrite Hcopy, Hname. cbn [mutate].
    split; [reflexivity|]. unfold get in *. split; [|split].
    + rewrite lookup_alter_eq, Hold by exact Htool.
      destruct (s !! tool) as [record|]; [|discriminate]. cbn.
      by rewrite lookup_insert_eq.
    + rewrite lookup_alter_eq, Hold by exact Htool.
      destruct (s !! tool) as [record|]; [|discriminate]. cbn in *.
      by rewrite lookup_insert_ne.
    + intros l Hl Hne. rewrite lookup_alter_ne by done. by apply Hold.
Qed.

Lemma X29_witness :
  get 3 "uses" (repairTool initialRefs "hammer" 10 initialStore).1
  = Some (VNum (Qmin (25 + 10) 30)) /\
  (repairTool initialRefs "chisel" 10 initialStore).2 = false.
Proof.
  destruct (X29_repairTool_restores_up_to_the_maximum initialRefs
              initialStore "hammer" 10
              (<["hammer" := VRef 3]> (<["anvil" := VRef 4]>
                 (<["tongs" := VRef 5]> ∅)))) as [_ Hhas];
    [by vm_compute|].
  destruct (X29_repairTool_restores_up_to_the_maximum initialRefs
              initialStore "chisel" 10
              (<["hammer" := VRef 3]> (<["anvil" := VRef 4]>
                 (<["tongs" := VRef 5]> ∅)))) as [Hnot _];
    [by vm_compute|].
  split.
  - by destruct (Hhas 3%nat 25%Q 30%Q) as (_ & Huses & _); [vm_compute..|].
  - by destruct Hnot as [Hfalse _]; [vm_compute|vm_compute|].
Defined.

End RepairFacts.

(** * The event emitter: subscribing and unsubscribing *)

Section SubscribeFacts.

Import Emitter.

Lemma callback_eqb_refl (c : callback) : callback_eqb c c = true.
Proof.
  induction c as [id|wrapperId listeners inner IH]; cbn.
  - apply Nat.eqb_refl.
  - by rewrite !Nat.eqb_refl, IH.
Qed.

Lemma indexOf_lt (c : callback) (ls : list callback) (index : nat) :
  indexOf c ls = Some index -> (index < length ls)%nat.
Proof.
  revert index. induction ls as [|x rest IH]; intros index; cbn;
    [discriminate|].
  destruct (callback_eqb x c); [intros [= <-]; lia|].
  destruct (indexOf c rest) as [i|]; cbn; [|discriminate].
  intros [= <-]. specialize (IH i eq_refl). lia.
Qed.

Lemma indexOf_push (c : callback) (ls : list callback) :
  indexOf c (ls ++ [c])
  = Some (default (length ls) (indexOf c ls)).
Proof.
  induction ls as [|x rest IH]; cbn [app indexOf length].
  - by rewrite callback_eqb_refl.
  - destruct (callback_eqb x c); [reflexivity|]. rewrite IH.
    by destruct (indexOf c rest).
Qed.

(** X30. on() adds one listener to the event. off() with the same
    callback right after answers true and brings the count back; it
    does what the unsubscribe function returned by on() does; and when
    the callback was not yet among the listeners of the event, the array
    of listeners is exactly what it was. off() for an event that was
    never subscribed to, or a callback that is not among the listeners,
    answers false and changes nothing. *)
Theorem X30_on_then_off_restores (eventName : string) (c : callback)
    (e : t) :
  let subscribed := (on eventName c e).1 in
  let listeners := (on eventName c e).2 in
  listenerCount eventName subscribed = S (listenerCount eventName e) /\
  (off eventName c subscribed).2 = true /\
  listenerCount eventName (off eventName c subscribed).1
  = listenerCount eventName e /\
  (off eventName c subscribed).1 = unsubscribe listeners c subscribed /\
  (forall known, events e !! eventName = Some known ->
     indexOf c (array known e) = None ->
     array known (off eventName c subscribed).1 = array known e) /\
  (listenerCount eventName e = 0%nat -> off eventName c e = (e, false)).
Proof.
  cbn zeta. destruct e as [evs arrs nxt].
  unfold on, listenersOf, listenerCount, off, unsubscribe. cbn [events].
  destruct (evs !! eventName) as [known|] eqn:Hknown;
    cbn [fst snd events arrays next set_array set_events bump];
    rewrite ?Hknown; unfold array;
    cbn [fst snd events arrays next set_array set_events bump];
    rewrite ?lookup_insert_eq; cbn [default from_option id].
  - set (ls := default [] (arrs !! known)). rewrite indexOf_push.
    cbn [fst snd events arrays set_array]. rewrite Hknown, !lookup_insert_eq.
    cbn [default from_option id].
    assert (Hindex : (default (length ls) (indexOf c ls) < length (ls ++ [c]))%nat).
    { rewrite length_app. cbn [length].
      destruct (indexOf c ls) as [i|] eqn:Hi; cbn [default from_option id];
        [|lia].
      apply indexOf_lt in Hi. lia. }
    split; [rewrite length_app; cbn [length]; lia|]. split; [reflexivity|].
    split.
    { rewrite length_delete by (by apply lookup_lt_is_Some).
      rewrite length_app. cbn [length]. lia. }
    split; [reflexivity|]. split.
    + intros ? [= <-] Hnone. fold ls in Hnone. rewrite Hnone.
      cbn [default from_option id]. rewrite lookup_insert_eq.
      cbn [default from_option id].
      rewrite (delete_middle ls [] c). apply app_nil_r.
    + intros Hzero. by destruct ls.
  - cbn [app indexOf length]. rewrite callback_eqb_refl.
    cbn [fst snd events arrays next set_array set_events bump].
    rewrite !lookup_insert_eq.
    cbn [default from_option id delete list_delete length].
    split; [reflexivity|]. split; [reflexivity|]. split; [reflexivity|].
    split; [reflexivity|]. split; [discriminate|reflexivity].
Qed.

End SubscribeFacts.
